(** * Train delays on line 323: cleaning, merging, analysis, geo export

    A shallow embedding of the repository's Python modules

      - [data_processing/cleaner.py]       (module [DataCleaner])
      - [analysis/statistical_model.py]    (module [StatisticalAnalyzer])
      - [visualization/plotter.py]         (module [Plotter])
      - [gis_output/spatial_processor.py]  (module [SpatialProcessor])
      - [main.py]                          (module [Main])

    over a small model of the tabular library they delegate to (module
    [pd]).  Tables are mutable Python objects: they live in a store and
    the cleaning functions receive and return references.  A function
    either returns or raises; [try]/[except] is modelled as such.

    Conventions of the model.
      - A cell holds a number, a string or a timestamp, or is null
        (NaN, None and NaT are not told apart): [option value].
      - Numbers are exact rationals ([Qc]); timestamps are nanoseconds
        since 1970-01-01T00:00:00, as in a datetime64[ns] column.
      - Column labels are unique, as in every table the repository
        builds (a list of dicts, or the result of a merge).
      - What the external libraries compute and the embedding cannot
        (parsing of free-form text, t-tests, correlation coefficients,
        map projections, rendering) is taken as an interface, one type
        class per library.
      - Of the [print] calls only those of [run_pipeline] that print a
        fixed line are kept; they are the observable trace of a run. *)

From Stdlib Require Import ZArith QArith Qcanon Ascii String Lia.
From stdpp Require Import base option list strings numbers gmap fin_maps.

Local Open Scope string_scope.
Local Open Scope Z_scope.

(** ** Outcomes: a call returns a value or raises *)

Inductive exn :=
  | KeyError (key : string)
  | NameError (name : string)
  | ValueError (msg : string)
  | TypeError (msg : string)
  | AttributeError (msg : string)
  | OSError (path : string).

Inductive outcome (A : Type) :=
  | Return (a : A)
  | Raise (e : exn).
Arguments Return {A} a.
Arguments Raise {A} e.

Definition obind {A B} (o : outcome A) (k : A → outcome B) : outcome B :=
  match o with
  | Return a => k a
  | Raise e => Raise e
  end.

#[global] Instance outcome_ret : MRet outcome := @Return.
#[global] Instance outcome_bind : MBind outcome := λ A B k o, obind o k.

(** [try: body except Exception as e: handler] *)
Definition try_except {A} (body : outcome A) (handler : exn → outcome A)
  : outcome A :=
  match body with
  | Return a => Return a
  | Raise e => handler e
  end.

(** ** The tabular library *)

Module pd.

Inductive value :=
  | Num (q : Qc)
  | Str (s : string)
  | Time (t : Z)
  | Point (x y : Qc).

#[global] Instance value_eq_dec : EqDecision value.
Proof. solve_decision. Defined.

Abbreviation cell := (option value).
Abbreviation row := (gmap string value).

Inductive dtype := Numeric | Datetime | Object | Geometry.

#[global] Instance dtype_eq_dec : EqDecision dtype.
Proof. solve_decision. Defined.

(** A table: ordered, typed column labels and the rows.  A row maps a
    label to the value of its cell; a label it does not map is a null
    cell.  When [index_name] is [Some n] the rows are labelled by their
    cell [n], which is then no column of the table ([set_index]). *)
Record DataFrame := {
  index_name : option string;
  columns : list (string * dtype);
  rows : list row
}.

(** [pd.DataFrame()] *)
Definition empty_frame : DataFrame :=
  {| index_name := None; columns := []; rows := [] |}.

#[global] Instance DataFrame_inhabited : Inhabited DataFrame :=
  populate empty_frame.

Definition labels (df : DataFrame) : list string := (columns df).*1.

(** [c in df.columns] *)
Definition has_column (c : string) (df : DataFrame) : bool :=
  bool_decide (c ∈ labels df).

Fixpoint assoc_dtype (c : string) (cols : list (string * dtype))
  : option dtype :=
  match cols with
  | [] => None
  | (c', dt) :: rest => if decide (c' = c) then Some dt else assoc_dtype c rest
  end.

(** [df[c].dtype] *)
Definition dtype_of (c : string) (df : DataFrame) : option dtype :=
  assoc_dtype c (columns df).

(** [pd.api.types.is_numeric_dtype(df[c])], [is_datetime64_any_dtype] *)
Definition is_numeric_dtype (c : string) (df : DataFrame) : bool :=
  bool_decide (dtype_of c df = Some Numeric).
Definition is_datetime64_any_dtype (c : string) (df : DataFrame) : bool :=
  bool_decide (dtype_of c df = Some Datetime).

(** [df.empty]: some axis has length zero *)
Definition empty (df : DataFrame) : bool :=
  match columns df, rows df with
  | [], _ | _, [] => true
  | _, _ => false
  end.

(** [len(df)] *)
Definition len (df : DataFrame) : nat := length (rows df).

(** [pd.isna] on the cell of column [c] *)
Definition isna (c : string) (r : row) : bool :=
  bool_decide (r !! c = None).

Definition set_cell (c : string) (v : cell) (r : row) : row :=
  match v with
  | Some x => <[c := x]> r
  | None => delete c r
  end.

Fixpoint set_dtype (c : string) (dt : dtype) (cols : list (string * dtype))
  : list (string * dtype) :=
  match cols with
  | [] => [(c, dt)]
  | (c', dt') :: rest =>
      if decide (c' = c) then (c, dt) :: rest
      else (c', dt') :: set_dtype c dt rest
  end.

(** [df[c] = s], where the series [s] is computed row by row from [df]
    itself and has dtype [dt]: an existing column is replaced in its
    place, a new one is appended. *)
Definition setitem (c : string) (dt : dtype) (s : row → cell)
    (df : DataFrame) : DataFrame :=
  {| index_name := index_name df;
     columns := set_dtype c dt (columns df);
     rows := (λ r, set_cell c (s r) r) <$> rows df |}.

(** A series computed from the rows of a table; [df[c]] *)
Definition Series := row → cell.
Definition getitem (c : string) : Series := λ r, r !! c.

(** External conversions of the library: how text is read as a number
    or as a timestamp, and how a number is read as a timestamp. *)
Class Conversions := {
  parse_numeric : string → option Qc;
  parse_datetime : string → option Z;
  datetime_of_num : Qc → option Z
}.

Section conversions.
Context `{Conversions}.

(** [pd.to_numeric(s, errors='coerce')], cell by cell *)
Definition to_numeric (v : cell) : cell :=
  match v with
  | None => None
  | Some (Num q) => Some (Num q)
  | Some (Str s) => Num <$> parse_numeric s
  | Some (Time t) => Some (Num (Qc_of_Z t))
  | Some (Point _ _) => None
  end.

(** [pd.to_datetime(s, errors='coerce')], cell by cell *)
Definition to_datetime (v : cell) : cell :=
  match v with
  | None => None
  | Some (Time t) => Some (Time t)
  | Some (Str s) => Time <$> parse_datetime s
  | Some (Num q) => Time <$> datetime_of_num q
  | Some (Point _ _) => None
  end.
End conversions.

(** [s.fillna(x)] *)
Definition fillna (x : value) (v : cell) : cell :=
  match v with
  | None => Some x
  | Some y => Some y
  end.

(** Calendar fields of a timestamp.  1970-01-01 was a Thursday, and
    Monday is day 0. *)
Definition ns_per_hour : Z := 3600 * 1000000000.
Definition ns_per_day : Z := 24 * ns_per_hour.

Definition dayofweek (t : Z) : Z := (t `div` ns_per_day + 3) `mod` 7.
Definition hour (t : Z) : Z := (t `div` ns_per_hour) `mod` 24.

(** [s.dt.dayofweek], [s.dt.hour]: null on NaT *)
Definition dt_dayofweek (v : cell) : cell :=
  match v with
  | Some (Time t) => Some (Num (Qc_of_Z (dayofweek t)))
  | _ => None
  end.
Definition dt_hour (v : cell) : cell :=
  match v with
  | Some (Time t) => Some (Num (Qc_of_Z (hour t)))
  | _ => None
  end.

(** Two rows are identical when they agree on every column; null
    cells count as equal, as in [DataFrame.duplicated]. *)
Definition same_row (cols : list string) (r1 r2 : row) : bool :=
  forallb (λ c, bool_decide (r1 !! c = r2 !! c)) cols.

Fixpoint keep_first (cols : list string) (seen l : list row) : list row :=
  match l with
  | [] => []
  | r :: rest =>
      if existsb (same_row cols r) seen then keep_first cols seen rest
      else r :: keep_first cols (r :: seen) rest
  end.

(** [df.drop_duplicates()] (keep='first'); an empty table is left
    as it is *)
Definition drop_duplicates (df : DataFrame) : DataFrame :=
  if empty df then df
  else {| index_name := index_name df;
          columns := columns df;
          rows := keep_first (labels df) [] (rows df) |}.

(** no two rows of the table are identical *)
Definition distinct_rows (df : DataFrame) : Prop :=
  ∀ i j ri rj, (i < j)%nat →
    rows df !! i = Some ri → rows df !! j = Some rj →
    same_row (labels df) ri rj = false.

Definition notna_all (cols : list string) (r : row) : bool :=
  forallb (λ c, negb (isna c r)) cols.

(** [df.dropna()]: rows with a null in any column are removed *)
Definition dropna (df : DataFrame) : DataFrame :=
  {| index_name := index_name df;
     columns := columns df;
     rows := filter (λ r, notna_all (labels df) r) (rows df) |}.

(** [df.dropna(subset=cs)] *)
Definition dropna_subset (cs : list string) (df : DataFrame) : DataFrame :=
  {| index_name := index_name df;
     columns := columns df;
     rows := filter (λ r, notna_all cs r) (rows df) |}.

(** [pd.DataFrame(records)] for a list of dicts: the columns are the
    keys in order of first appearance; a column of numbers (possibly
    with nulls) is numeric, one of timestamps is datetime, any other is
    of dtype object. *)
Definition record := list (string * cell).

Definition record_row (rec : record) : row :=
  list_to_map (omap (λ p, (λ v, (p.1, v)) <$> p.2) rec).

Definition record_keys (recs : list record) : list string :=
  remove_dups (recs ≫= λ rec, rec.*1).

Definition is_num (v : value) : bool :=
  match v with Num _ => true | _ => false end.
Definition is_time (v : value) : bool :=
  match v with Time _ => true | _ => false end.

Definition infer_dtype (vs : list value) : dtype :=
  match vs with
  | [] => Object
  | _ => if forallb is_num vs then Numeric
         else if forallb is_time vs then Datetime
         else Object
  end.

Definition from_records (recs : list record) : DataFrame :=
  let rs := record_row <$> recs in
  {| index_name := None;
     columns := (λ c, (c, infer_dtype (omap (λ r : row, r !! c) rs)))
                  <$> record_keys recs;
     rows := rs |}.

(** *** [pd.merge(L, R, on=key, how=...)]

    Columns of the result: those of [L], then those of [R] but the
    key.  A label other than the key that both tables carry gets the
    suffix [_x] on the left and [_y] on the right.  Null keys match
    null keys.  The call raises when the key is missing on a side,
    when the key columns have different dtypes, and when suffixing
    yields a label twice. *)
Inductive how := left | inner.

Section merge.
Variables (L R : DataFrame) (on : string).

Definition right_labels : list string :=
  filter (λ c, c ≠ on) (labels R).
Definition overlap : list string :=
  filter (λ c, c ∈ right_labels) (labels L).
Definition left_label (c : string) : string :=
  if bool_decide (c ∈ overlap) then c +:+ "_x" else c.
Definition right_label (c : string) : string :=
  if bool_decide (c ∈ overlap) then c +:+ "_y" else c.

Definition merged_columns : list (string * dtype) :=
  ((λ p, (left_label p.1, p.2)) <$> columns L) ++
  ((λ p, (right_label p.1, p.2)) <$> filter (λ p, p.1 ≠ on) (columns R)).

(** the non-null cells of [r] in the columns [cols], relabelled *)
Definition cells (f : string → string) (cols : list string) (r : row)
  : list (string * value) :=
  omap (λ c, (λ v, (f c, v)) <$> r !! c) cols.

Definition join_row (l : row) (w : option row) : row :=
  list_to_map
    (cells left_label (labels L) l ++
     from_option (cells right_label right_labels) [] w).

Definition matches (l : row) : list row :=
  filter (λ w, w !! on = l !! on) (rows R).

Definition merge_rows (h : how) (l : row) : list row :=
  match matches l, h with
  | [], left => [join_row l None]
  | ws, _ => (λ w, join_row l (Some w)) <$> ws
  end.

Definition merge (h : how) : outcome DataFrame :=
  if negb (has_column on L && has_column on R) then Raise (KeyError on)
  else if negb (bool_decide (dtype_of on L = dtype_of on R)) then
    Raise (ValueError "merge on columns of different dtypes")
  else if negb (bool_decide (NoDup merged_columns.*1)) then
    Raise (ValueError "suffixes cause duplicate columns")
  else
    Return {| index_name := None;
              columns := merged_columns;
              rows := rows L ≫= merge_rows h |}.
End merge.

End pd.

(** ** Geometry tables *)

Module gpd.

(** A table whose column [geometry] holds the shapes, and the tag of
    the coordinate reference system they are expressed in ([None]: the
    collection carries no tag).  A tag is the text [crs.to_string()]
    gives. *)
Record GeoDataFrame := {
  frame : pd.DataFrame;
  crs : option string
}.

End gpd.

(** ** The world of a run: object store, files, standard output *)

Inductive file_content :=
  | CsvFile (df : pd.DataFrame)
  | VectorFile (driver : string) (gdf : gpd.GeoDataFrame).

Record world := {
  heap : gmap nat pd.DataFrame;     (* the table objects, by reference *)
  files : gmap string file_content; (* the files written, by path *)
  writable : string → bool;         (* can this path be written? *)
  stdout : list string              (* printed lines, oldest first *)
}.

Definition M (A : Type) : Type := world → outcome A * world.

Definition ret {A} (a : A) : M A := λ w, (Return a, w).
Definition raise {A} (e : exn) : M A := λ w, (Raise e, w).
Definition bind {A B} (m : M A) (k : A → M B) : M B :=
  λ w, match m w with
       | (Return a, w') => k a w'
       | (Raise e, w') => (Raise e, w')
       end.
Definition lift {A} (o : outcome A) : M A := λ w, (o, w).

#[global] Instance M_ret : MRet M := @ret.
#[global] Instance M_bind : MBind M := λ A B k m, bind m k.

(** [try: body except E: handler], for the exceptions [catches] accepts *)
Definition try_catch {A} (catches : exn → bool) (body : M A)
    (handler : exn → M A) : M A :=
  λ w, match body w with
       | (Return a, w') => (Return a, w')
       | (Raise e, w') => if catches e then handler e w' else (Raise e, w')
       end.

Definition is_KeyError (e : exn) : bool :=
  match e with KeyError _ => true | _ => false end.
Definition any_Exception (e : exn) : bool := true.

Definition when (b : bool) (m : M unit) : M unit := if b then m else ret tt.

Definition print (s : string) : M unit :=
  λ w, (Return tt, {| heap := heap w; files := files w;
                      writable := writable w; stdout := stdout w ++ [s] |}).

(** reading the object behind a reference *)
Definition deref (r : nat) : M pd.DataFrame :=
  λ w, (Return (heap w !!! r), w).

(** a method that changes the object behind [r] in place *)
Definition mutate (r : nat) (f : pd.DataFrame → pd.DataFrame) : M unit :=
  λ w, (Return tt, {| heap := alter f r (heap w); files := files w;
                      writable := writable w; stdout := stdout w |}).

(** a fresh object, e.g. [df.copy()] or [pd.DataFrame(records)] *)
Definition alloc (df : pd.DataFrame) : M nat :=
  λ w, let r := fresh (dom (heap w)) in
       (Return r, {| heap := <[r := df]> (heap w); files := files w;
                     writable := writable w; stdout := stdout w |}).

Definition write_file (path : string) (c : file_content) : M unit :=
  λ w, if writable w path then
         (Return tt, {| heap := heap w; files := <[path := c]> (files w);
                        writable := writable w; stdout := stdout w |})
       else (Raise (OSError path), w).

Definition set_heap (w : world) (h : gmap nat pd.DataFrame) : world :=
  {| heap := h; files := files w; writable := writable w; stdout := stdout w |}.

(** ** data_processing/cleaner.py *)

Module DataCleaner.
Import pd.

Section cleaner.
Context `{Conversions}.

(** [clean_train_delays(self, df)]; [df] is a reference to the
    caller's table. *)
Definition clean_train_delays (df : nat) : M nat :=
  (* 1. convert relevant columns *)
  try_catch is_KeyError
    (d ← deref df;
     when (has_column "delay_minutes" d)
       (mutate df (setitem "delay_minutes" Numeric
                     (to_numeric ∘ getitem "delay_minutes")));;
     d ← deref df;
     when (has_column "scheduled_time" d)
       (mutate df (setitem "scheduled_time" Datetime
                     (to_datetime ∘ getitem "scheduled_time")));;
     d ← deref df;
     when (has_column "actual_time" d)
       (mutate df (setitem "actual_time" Datetime
                     (to_datetime ∘ getitem "actual_time")));;
     d ← deref df;
     when (has_column "date" d)
       (mutate df (setitem "date" Datetime
                     (to_datetime ∘ getitem "date"))))
    (λ _, mret tt);;
  (* 2. missing delays become 0 *)
  d ← deref df;
  when (has_column "delay_minutes" d)
    (mutate df (setitem "delay_minutes" Numeric
                  (fillna (Num (Qc_of_Z 0)) ∘ getitem "delay_minutes")));;
  (* 3. remove duplicates *)
  mutate df drop_duplicates;;
  (* 4. derived fields *)
  d ← deref df;
  when (has_column "scheduled_time" d)
    (mutate df (setitem "day_of_week" Numeric
                  (dt_dayofweek ∘ getitem "scheduled_time"));;
     mutate df (setitem "hour_of_day" Numeric
                  (dt_hour ∘ getitem "scheduled_time")));;
  mret df.

(** [clean_weather_data(self, df)] *)
Definition clean_weather_data (df : nat) : M nat :=
  try_catch is_KeyError
    (d ← deref df;
     when (has_column "temperature" d)
       (mutate df (setitem "temperature" Numeric
                     (to_numeric ∘ getitem "temperature")));;
     d ← deref df;
     when (has_column "humidity" d)
       (mutate df (setitem "humidity" Numeric
                     (to_numeric ∘ getitem "humidity")));;
     d ← deref df;
     when (has_column "wind_speed" d)
       (mutate df (setitem "wind_speed" Numeric
                     (to_numeric ∘ getitem "wind_speed")));;
     d ← deref df;
     when (has_column "precipitation" d)
       (mutate df (setitem "precipitation" Numeric
                     (to_numeric ∘ getitem "precipitation")));;
     d ← deref df;
     when (has_column "date" d)
       (mutate df (setitem "date" Datetime
                     (to_datetime ∘ getitem "date"))))
    (λ _, mret tt);;
  (* rows with any missing value are dropped *)
  mutate df dropna;;
  mret df.

(** The table each function leaves behind the reference, as a
    function of the table it found there (see [clean_train_delays_run]
    and [clean_weather_data_run]). *)
Definition apply_if (b : bool) (f : DataFrame → DataFrame)
    (d : DataFrame) : DataFrame :=
  if b then f d else d.

Definition convert (c : string) (dt : dtype) (f : cell → cell)
    (d : DataFrame) : DataFrame :=
  apply_if (has_column c d) (setitem c dt (f ∘ getitem c)) d.

Definition train_delays_converted (d : DataFrame) : DataFrame :=
  convert "delay_minutes" Numeric (fillna (Num (Qc_of_Z 0)))
    (convert "date" Datetime to_datetime
       (convert "actual_time" Datetime to_datetime
          (convert "scheduled_time" Datetime to_datetime
             (convert "delay_minutes" Numeric to_numeric d)))).

Definition derive_fields (d : DataFrame) : DataFrame :=
  setitem "hour_of_day" Numeric (dt_hour ∘ getitem "scheduled_time")
    (setitem "day_of_week" Numeric (dt_dayofweek ∘ getitem "scheduled_time") d).

(** the row that [derive_fields] makes of a row *)
Definition derived_row (r : row) : row :=
  let r' := set_cell "day_of_week" (dt_dayofweek (r !! "scheduled_time")) r in
  set_cell "hour_of_day" (dt_hour (r' !! "scheduled_time")) r'.

Definition train_delays_table (d : DataFrame) : DataFrame :=
  let d' := drop_duplicates (train_delays_converted d) in
  apply_if (has_column "scheduled_time" d') derive_fields d'.

Definition weather_converted (d : DataFrame) : DataFrame :=
  convert "date" Datetime to_datetime
    (convert "precipitation" Numeric to_numeric
       (convert "wind_speed" Numeric to_numeric
          (convert "humidity" Numeric to_numeric
             (convert "temperature" Numeric to_numeric d)))).

Definition weather_table (d : DataFrame) : DataFrame :=
  dropna (weather_converted d).

(** the row that the conversions of [clean_weather_data] make of a
    row of the table [d] *)
Definition convert_row (d : DataFrame) (c : string) (f : cell → cell)
    (r : row) : row :=
  if has_column c d then set_cell c (f (r !! c)) r else r.

Definition weather_row (d : DataFrame) (r : row) : row :=
  convert_row d "date" to_datetime
    (convert_row d "precipitation" to_numeric
       (convert_row d "wind_speed" to_numeric
          (convert_row d "humidity" to_numeric
             (convert_row d "temperature" to_numeric r)))).
End cleaner.

(** [merge_data(self, train_df, weather_df, on_column='date', how='left')]
    reads its two arguments and builds a new table. *)
Definition merge_data (train_df weather_df : DataFrame)
    (on_column : string) (h : how) : outcome DataFrame :=
  try_except (merged_df ← merge train_df weather_df on_column h;
              Return merged_df)
             (λ _, Return empty_frame).

End DataCleaner.

(** ** analysis/statistical_model.py

    The annotations of this file name [Optional], which it does not
    import; annotations have no part in what the functions compute and
    are left out. *)

Module StatisticalAnalyzer.
Import pd.

(** What the numerical libraries compute: [Series.describe],
    [scipy.stats.ttest_ind] and [Series.corr].  Floating-point results
    are kept abstract.  [describe] and [corr] may raise ([corr] does
    for a method it does not know); on two samples of numbers
    [ttest_ind] computes a result (NaN where it is undefined). *)
Class Statistics := {
  float : Type;
  summary : Type;
  describe : list cell → outcome summary;
  ttest_ind : list value → list value → float * float;
  corr : string → list cell → list cell → outcome float
}.

(** [df[c]] as the list of its cells *)
Definition column (c : string) (df : DataFrame) : list cell :=
  getitem c <$> rows df.

(** [df[c] == v], row by row: a null never compares equal *)
Definition eq_cell (v : cell) (x : cell) : bool :=
  match x, v with
  | Some a, Some b => bool_decide (a = b)
  | _, _ => false
  end.

(** [df[df[group_col] == v][value_col].dropna()] *)
Definition group_values (df : DataFrame) (group_col value_col : string)
    (v : cell) : list value :=
  omap (getitem value_col)
       (filter (λ r, eq_cell v (r !! group_col)) (rows df)).

(** Resampling: fixed-width buckets, hourly or daily, the two
    frequencies the repository asks for. *)
Inductive freq := H | D.

Definition freq_ns (f : freq) : Z :=
  match f with H => ns_per_hour | D => ns_per_day end.

Inductive agg_name := agg_mean | agg_sum | agg_min | agg_max | agg_count.

(** [agg_func]: a name, a dict from result labels to names, or
    something else *)
Inductive agg_func :=
  | AggStr (a : agg_name)
  | AggDict (d : list (string * agg_name))
  | AggOther.

Definition numbers (vs : list value) : list Qc :=
  omap (λ v, match v with Num q => Some q | _ => None end) vs.

Definition total (qs : list Qc) : Qc := foldr Qcplus (Qc_of_Z 0) qs.

Definition smallest (qs : list Qc) : option Qc :=
  match qs with
  | [] => None
  | q :: rest => Some (foldr (λ a b, if decide (Qcle a b) then a else b) q rest)
  end.
Definition largest (qs : list Qc) : option Qc :=
  match qs with
  | [] => None
  | q :: rest => Some (foldr (λ a b, if decide (Qcle a b) then b else a) q rest)
  end.

(** aggregation of the non-null values of one bucket; an empty bucket
    has a null mean, minimum and maximum, and sum and count 0 *)
Definition aggregate (a : agg_name) (vs : list value) : cell :=
  let qs := numbers vs in
  match a with
  | agg_mean =>
      match qs with
      | [] => None
      | _ => Some (Num (Qcdiv (total qs) (Qc_of_Z (Z.of_nat (length qs)))))
      end
  | agg_sum => Some (Num (total qs))
  | agg_min => Num <$> smallest qs
  | agg_max => Num <$> largest qs
  | agg_count => Some (Num (Qc_of_Z (Z.of_nat (length qs))))
  end.

(** [df.set_index(c)]: the column becomes the row labels *)
Definition set_index (c : string) (df : DataFrame) : DataFrame :=
  {| index_name := Some c;
     columns := filter (λ p, p.1 ≠ c) (columns df);
     rows := rows df |}.

Definition stamps (time_col : string) (df : DataFrame) : list Z :=
  omap (λ r, match r !! time_col with Some (Time t) => Some t | _ => None end)
       (rows df).

Definition floor_to (w t : Z) : Z := t `div` w * w.

(** the starts of the buckets: every multiple of the width from the
    bucket of the earliest stamp to that of the latest *)
Definition bucket_starts (w : Z) (ts : list Z) : list Z :=
  match ts with
  | [] => []
  | t :: rest =>
      let lo := floor_to w (foldr Z.min t rest) in
      let hi := floor_to w (foldr Z.max t rest) in
      (λ i, lo + i * w) <$> seqZ 0 ((hi - lo) `div` w + 1)
  end.

Definition in_bucket (time_col : string) (w b : Z) (r : row) : bool :=
  match r !! time_col with
  | Some (Time t) => bool_decide (b ≤ t < b + w)
  | _ => false
  end.

(** [df_indexed[value_col].resample(freq)]: the values of each bucket *)
Definition resample (df : DataFrame) (time_col value_col : string)
    (f : freq) : list (Z * list value) :=
  (λ b, (b, omap (getitem value_col)
                 (filter (λ r, in_bucket time_col (freq_ns f) b r) (rows df))))
    <$> bucket_starts (freq_ns f) (stamps time_col df).

Definition bucket_row (time_col : string) (b : Z)
    (cs : list (string * cell)) : row :=
  foldr (λ p r, set_cell p.1 p.2 r) {[ time_col := Time b ]} cs.

Section analyzer.
Context `{Statistics}.

(** [get_descriptive_statistics(self, df, column)] *)
Definition get_descriptive_statistics (df : DataFrame) (column_ : string)
  : outcome (option summary) :=
  if negb (has_column column_ df) || negb (is_numeric_dtype column_ df)
  then Return None
  else
    try_except (s ← describe (column column_ df); Return (Some s))
               (λ _, Return None).

(** [perform_t_test(self, df, group_col, value_col, group1_val, group2_val)] *)
Definition perform_t_test (df : DataFrame) (group_col value_col : string)
    (group1_val group2_val : cell) : outcome (option (float * float)) :=
  if negb (has_column group_col df) || negb (has_column value_col df)
  then Return None
  else if negb (is_numeric_dtype value_col df) then Return None
  else
    try_except
      (let group1 := group_values df group_col value_col group1_val in
       let group2 := group_values df group_col value_col group2_val in
       if bool_decide (length group1 < 2)%nat
          || bool_decide (length group2 < 2)%nat
       then Return None
       else Return (Some (ttest_ind group1 group2)))
      (λ _, Return None).

(** [calculate_correlation(self, df, col1, col2, method='pearson')] *)
Definition calculate_correlation (df : DataFrame) (col1 col2 : string)
    (method : string) : outcome (option float) :=
  if negb (has_column col1 df) || negb (has_column col2 df)
  then Return None
  else if negb (is_numeric_dtype col1 df) || negb (is_numeric_dtype col2 df)
  then Return None
  else
    try_except (c ← corr method (column col1 df) (column col2 df);
                Return (Some c))
               (λ _, Return None).
End analyzer.

(** [aggregate_by_time(self, df, time_col, value_col, freq='H', agg_func='mean')] *)
Definition aggregate_by_time (df : DataFrame) (time_col value_col : string)
    (f : freq) (g : agg_func) : outcome DataFrame :=
  if negb (has_column time_col df) || negb (has_column value_col df)
  then Return empty_frame
  else if negb (is_datetime64_any_dtype time_col df) then Return empty_frame
  else if negb (is_numeric_dtype value_col df) then Return empty_frame
  else
    try_except
      (let df_indexed := set_index time_col df in
       match g with
       | AggStr a =>
           if negb (has_column value_col df_indexed)
           then Raise (KeyError value_col)
           else
             Return {| index_name := Some time_col;
                       columns := [(value_col, Numeric)];
                       rows := (λ b, bucket_row time_col b.1
                                       [(value_col, aggregate a b.2)])
                               <$> resample df_indexed time_col value_col f |}
       | AggDict d =>
           if negb (has_column value_col df_indexed)
           then Raise (KeyError value_col)
           else
             Return {| index_name := Some time_col;
                       columns := (λ p, (p.1, Numeric)) <$> d;
                       rows := (λ b, bucket_row time_col b.1
                                       ((λ p, (p.1, aggregate p.2 b.2)) <$> d))
                               <$> resample df_indexed time_col value_col f |}
       | AggOther => Return empty_frame
       end)
      (λ _, Return empty_frame).

End StatisticalAnalyzer.

(** ** gis_output/spatial_processor.py *)

Module SpatialProcessor.
Import pd gpd.

(** What the geometry libraries decide: how [float] reads a text
    coordinate, which texts name a coordinate reference system (and
    the tag of that system), and the reprojection of a shape from one
    system to another, which may fail. *)
Class Geodesy := {
  float_of_str : string → option Qc;
  crs_from_user_input : string → option string;
  transform : string → string → value → outcome value
}.

Section spatial.
Context `{Geodesy}.

(** one coordinate of [Point(xy)]: a number as it is, a text through
    [float]; other objects are refused.  (A null coordinate is never
    passed: such rows are dropped first.) *)
Definition coordinate (v : cell) : outcome Qc :=
  match v with
  | Some (Num q) => Return q
  | Some (Str s) =>
      match float_of_str s with
      | Some q => Return q
      | None => Raise (ValueError "could not convert string to float")
      end
  | Some (Time _) | Some (Point _ _) =>
      Raise (TypeError "float() argument must be a string or a number")
  | None => Raise (ValueError "null coordinate")
  end.

(** [gpd.GeoDataFrame(df, geometry=shapes, crs=c)] *)
Definition GeoDataFrame_ (df : DataFrame) (shapes : list value)
    (c : string) : outcome GeoDataFrame :=
  match crs_from_user_input c with
  | None => Raise (ValueError "invalid CRS")
  | Some tag =>
      Return {| frame := {| index_name := index_name df;
                            columns := set_dtype "geometry" Geometry (columns df);
                            rows := zip_with (λ r g, <["geometry" := g]> r)
                                             (rows df) shapes |};
                crs := Some tag |}
  end.

(** [create_gdf_from_points(self, df, lat_col, lon_col, crs="EPSG:4326")] *)
Definition create_gdf_from_points (df : DataFrame) (lat_col lon_col : string)
    (crs_ : string) : outcome (option GeoDataFrame) :=
  if negb (has_column lat_col df) || negb (has_column lon_col df)
  then Return None
  else
    try_except
      (let df_cleaned := dropna_subset [lat_col; lon_col] df in
       geometry ← mapM (λ r, x ← coordinate (r !! lon_col);
                             y ← coordinate (r !! lat_col);
                             Return (Point x y))
                       (rows df_cleaned);
       gdf ← GeoDataFrame_ df_cleaned geometry crs_;
       Return (Some gdf))
      (λ _, Return None).

(** every latitude and longitude of the table is a number or null *)
Definition number_or_null (v : cell) : bool :=
  match v with
  | Some (Num _) | None => true
  | Some _ => false
  end.

Definition numeric_coordinates (lat_col lon_col : string) (df : DataFrame)
  : bool :=
  forallb (λ r : row, number_or_null (r !! lat_col)
                      && number_or_null (r !! lon_col))
          (rows df).

(** the point made of the longitude and latitude of a row that holds
    numbers there *)
Definition point_of (lat_col lon_col : string) (r : row) : value :=
  match r !! lon_col, r !! lat_col with
  | Some (Num x), Some (Num y) => Point x y
  | _, _ => Point (Qc_of_Z 0) (Qc_of_Z 0)
  end.

(** [gdf.to_crs(...)]: every shape is reprojected; a collection
    without a tag cannot be *)
Definition to_crs (gdf : GeoDataFrame) (target : string)
  : outcome GeoDataFrame :=
  match crs gdf with
  | None => Raise (ValueError "cannot transform naive geometries")
  | Some source =>
      rs ← mapM (λ r : row,
                   match r !! "geometry" with
                   | Some g => g' ← transform source target g;
                               Return (<["geometry" := g']> r)
                   | None => Return r
                   end)
                (rows (frame gdf));
      Return {| frame := {| index_name := index_name (frame gdf);
                            columns := columns (frame gdf);
                            rows := rs |};
                crs := Some target |}
  end.

(** [gdf.to_file(path, driver=d)] *)
Definition to_file (gdf : GeoDataFrame) (path driver : string) : M unit :=
  write_file path (VectorFile driver gdf).

(** [save_gdf_to_shapefile(self, gdf, path, driver='ESRI Shapefile')] *)
Definition save_gdf_to_shapefile (gdf : GeoDataFrame) (path driver : string)
  : M bool :=
  try_catch any_Exception
    (to_file gdf path driver;; mret true)
    (λ _, mret false).

(** [create_leaflet_geojson(self, gdf, path)] *)
Definition create_leaflet_geojson (gdf : GeoDataFrame) (path : string)
  : M bool :=
  try_catch any_Exception
    (gdf ← match crs gdf with
           | Some tag =>
               if bool_decide (tag ≠ "EPSG:4326")
               then lift (to_crs gdf "EPSG:4326")
               else mret gdf
           | None => mret gdf
           end;
     to_file gdf path "GeoJSON";;
     mret true)
    (λ _, mret false).
End spatial.

End SpatialProcessor.

(** ** visualization/plotter.py *)

Module Plotter.
Import pd.

(** the drawing calls of matplotlib and seaborn, by the kind of chart *)
Class Rendering := {
  render : string → DataFrame → outcome unit
}.

(** The global name [np]: plotter.py imports pandas, matplotlib,
    seaborn and typing, and never binds [np]; looking it up raises. *)
Definition np {A} : M A := raise (NameError "np").

(** [df[columns]] for a list of labels *)
Definition select (cs : list string) (df : DataFrame) : outcome DataFrame :=
  match filter (λ c, ¬ c ∈ labels df) cs with
  | [] => Return {| index_name := index_name df;
                    columns := filter (λ p, p.1 ∈ cs) (columns df);
                    rows := rows df |}
  | c :: _ => Raise (KeyError c)
  end.

(** [df.select_dtypes(include=number)] *)
Definition select_dtypes_number (df : DataFrame) : DataFrame :=
  {| index_name := index_name df;
     columns := filter (λ p, p.2 = Numeric) (columns df);
     rows := rows df |}.

Section plotter.
Context `{Rendering}.

(** [plot_delay_distribution(self, df, column)] *)
Definition plot_delay_distribution (df : DataFrame) (column_ : string)
  : M unit :=
  if negb (has_column column_ df) || negb (is_numeric_dtype column_ df)
  then mret tt
  else lift (render "histplot" df).

(** [plot_time_series(self, df, time_col, value_col)] *)
Definition plot_time_series (df : DataFrame) (time_col value_col : string)
  : M unit :=
  if negb (has_column time_col df) || negb (has_column value_col df)
  then mret tt
  else if negb (is_datetime64_any_dtype time_col df) then mret tt
  else lift (render "lineplot" df).

(** [plot_correlation_heatmap(self, df, columns)]: the argument of
    [select_dtypes] is [np.number] *)
Definition plot_correlation_heatmap (df : DataFrame)
    (columns_ : option (list string)) : M unit :=
  numeric_df ← match columns_ with
               | Some (c :: cs) =>
                   selected ← lift (select (c :: cs) df);
                   (number ← np (A := unit);
                    mret (select_dtypes_number selected))
               | _ =>
                   (number ← np (A := unit);
                    mret (select_dtypes_number df))
               end;
  if empty numeric_df then mret tt
  else lift (render "heatmap" numeric_df).

(** [plot_category_vs_delay(self, df, category_col, value_col)] *)
Definition plot_category_vs_delay (df : DataFrame)
    (category_col value_col : string) : M unit :=
  if negb (has_column category_col df) || negb (has_column value_col df)
  then mret tt
  else if negb (is_numeric_dtype value_col df) then mret tt
  else lift (render "barplot" df).
End plotter.

End Plotter.

(** ** A concrete reading of text, for the sample data of the repository

    ISO dates (YYYY-MM-DD, optionally followed by HH:MM:SS) and plain
    decimal literals; any other text is rejected.  The sample tables of
    the repository hold nothing else. *)

Module Reading.

Definition digit (a : Ascii.ascii) : option Z :=
  let n := Z.of_nat (Ascii.nat_of_ascii a) in
  if bool_decide (48 ≤ n ≤ 57) then Some (n - 48) else None.

Fixpoint digits_acc (acc : Z) (s : string) : option Z :=
  match s with
  | EmptyString => Some acc
  | String a rest => d ← digit a; digits_acc (10 * acc + d) rest
  end.

(** a non-empty run of decimal digits *)
Definition digits (s : string) : option Z :=
  match s with
  | EmptyString => None
  | _ => digits_acc 0 s
  end.

Definition is_leap (y : Z) : bool :=
  bool_decide (y `mod` 4 = 0) &&
  (negb (bool_decide (y `mod` 100 = 0)) || bool_decide (y `mod` 400 = 0)).

Definition days_in_month (y m : Z) : Z :=
  if bool_decide (m = 2) then (if is_leap y then 29 else 28)
  else if bool_decide (m ∈ [4; 6; 9; 11]) then 30 else 31.

(** days from 1970-01-01 to the civil date y-m-d *)
Definition days_from_civil (y m d : Z) : Z :=
  let y' := if bool_decide (m ≤ 2) then y - 1 else y in
  let era := y' `div` 400 in
  let yoe := y' - era * 400 in
  let mp := if bool_decide (m ≤ 2) then m + 9 else m - 3 in
  let doy := (153 * mp + 2) `div` 5 + d - 1 in
  let doe := yoe * 365 + yoe `div` 4 - yoe `div` 100 + doy in
  era * 146097 + doe - 719468.

Definition iso_date (s : string) : option Z :=
  y ← digits (substring 0 4 s);
  m ← digits (substring 5 2 s);
  d ← digits (substring 8 2 s);
  if bool_decide (String.length s = 10%nat)
     && bool_decide (substring 4 1 s = "-")
     && bool_decide (substring 7 1 s = "-")
     && bool_decide (1 ≤ m ≤ 12) && bool_decide (1 ≤ d ≤ days_in_month y m)
  then Some (days_from_civil y m d) else None.

Definition iso_time (s : string) : option Z :=
  h ← digits (substring 0 2 s);
  m ← digits (substring 3 2 s);
  sec ← digits (substring 6 2 s);
  if bool_decide (String.length s = 8%nat)
     && bool_decide (substring 2 1 s = ":")
     && bool_decide (substring 5 1 s = ":")
     && bool_decide (h < 24) && bool_decide (m < 60) && bool_decide (sec < 60)
  then Some ((h * 3600 + m * 60 + sec) * 1000000000) else None.

Definition iso_datetime (s : string) : option Z :=
  if bool_decide (String.length s = 10%nat) then
    d ← iso_date s; Some (d * pd.ns_per_day)
  else if bool_decide (String.length s = 19%nat)
          && bool_decide (substring 10 1 s = " ") then
    d ← iso_date (substring 0 10 s);
    t ← iso_time (substring 11 8 s);
    Some (d * pd.ns_per_day + t)
  else None.

Fixpoint split_dot (s : string) : string * option string :=
  match s with
  | EmptyString => (EmptyString, None)
  | String a rest =>
      if bool_decide (a = "."%char) then (EmptyString, Some rest)
      else let '(i, f) := split_dot rest in (String a i, f)
  end.

Definition unsigned_decimal (s : string) : option Qc :=
  match split_dot s with
  | (i, None) => n ← digits i; Some (Qc_of_Z n)
  | (i, Some f) =>
      n ← digits i; k ← digits f;
      Some (Q2Qc (Qmake (n * 10 ^ Z.of_nat (String.length f) + k)
                        (Z.to_pos (10 ^ Z.of_nat (String.length f)))))
  end.

Definition decimal (s : string) : option Qc :=
  match s with
  | String "-" rest => Qcopp <$> unsigned_decimal rest
  | _ => unsigned_decimal s
  end.

(** a whole number of nanoseconds is read as such *)
Definition whole_ns (q : Qc) : option Z :=
  if bool_decide (Qden (this q) = 1%positive) then Some (Qnum (this q))
  else None.

#[global] Instance conversions : pd.Conversions := {|
  pd.parse_numeric := decimal;
  pd.parse_datetime := iso_datetime;
  pd.datetime_of_num := whole_ns
|}.

End Reading.


(** ** The sample tables written out in the repository *)

Module Samples.
Import pd.

Definition int (n : Z) : cell := Some (Num (Qc_of_Z n)).
Definition dec (n : Z) (d : positive) : cell := Some (Num (Q2Qc (Qmake n d))).
Definition str (s : string) : cell := Some (Str s).

(** [dummy_train_data] of cleaner.py *)
Definition cleaner_train_data : list record := [
  [("train_id", str "R123"); ("scheduled_time", str "2023-01-15 08:00:00");
   ("actual_time", str "2023-01-15 08:05:00"); ("delay_minutes", int 5);
   ("route", str "Ostrava-Frenstat"); ("date", str "2023-01-15")];
  [("train_id", str "EC456"); ("scheduled_time", str "2023-01-15 10:30:00");
   ("actual_time", str "2023-01-15 10:30:00"); ("delay_minutes", int 0);
   ("route", str "Ostrava-Frydlant"); ("date", str "2023-01-15")];
  [("train_id", str "R123"); ("scheduled_time", str "2023-01-16 08:00:00");
   ("actual_time", str "2023-01-16 08:10:00"); ("delay_minutes", int 10);
   ("route", str "Ostrava-Frenstat"); ("date", str "2023-01-16")];
  [("train_id", str "EC456"); ("scheduled_time", str "2023-01-16 10:30:00");
   ("actual_time", str "2023-01-16 10:35:00"); ("delay_minutes", int 5);
   ("route", str "Ostrava-Frydlant"); ("date", str "2023-01-16")];
  [("train_id", str "R123"); ("scheduled_time", str "2023-01-17 08:00:00");
   ("actual_time", str "2023-01-17 08:00:00"); ("delay_minutes", None);
   ("route", str "Ostrava-Frenstat"); ("date", str "2023-01-17")]
].

(** [dummy_weather_data] of cleaner.py *)
Definition cleaner_weather_data : list record := [
  [("date", str "2023-01-15"); ("temperature", dec 5 2); ("humidity", int 85);
   ("wind_speed", int 15); ("precipitation", dec 1 2)];
  [("date", str "2023-01-16"); ("temperature", int (-1)); ("humidity", int 90);
   ("wind_speed", int 20); ("precipitation", int 2)];
  [("date", str "2023-01-17"); ("temperature", int 5); ("humidity", int 70);
   ("wind_speed", int 10); ("precipitation", int 0)];
  [("date", str "2023-01-18"); ("temperature", int 3); ("humidity", int 75);
   ("wind_speed", int 12); ("precipitation", int 0)]
].

(** [dummy_data] of statistical_model.py *)
Definition analyzer_dummy_data : list record := [
  [("train_id", str "R123"); ("scheduled_time", str "2023-01-15 08:00:00");
   ("actual_time", str "2023-01-15 08:05:00"); ("delay_minutes", int 5);
   ("route", str "Ostrava-Frenstat"); ("date", str "2023-01-15");
   ("temperature", dec 5 2); ("weather_condition", str "cloudy")];
  [("train_id", str "EC456"); ("scheduled_time", str "2023-01-15 10:30:00");
   ("actual_time", str "2023-01-15 10:30:00"); ("delay_minutes", int 0);
   ("route", str "Ostrava-Frydlant"); ("date", str "2023-01-15");
   ("temperature", int 3); ("weather_condition", str "sunny")];
  [("train_id", str "R123"); ("scheduled_time", str "2023-01-16 08:00:00");
   ("actual_time", str "2023-01-16 08:10:00"); ("delay_minutes", int 10);
   ("route", str "Ostrava-Frenstat"); ("date", str "2023-01-16");
   ("temperature", int (-1)); ("weather_condition", str "snowy")];
  [("train_id", str "EC456"); ("scheduled_time", str "2023-01-16 10:30:00");
   ("actual_time", str "2023-01-16 10:35:00"); ("delay_minutes", int 5);
   ("route", str "Ostrava-Frydlant"); ("date", str "2023-01-16");
   ("temperature", int 0); ("weather_condition", str "snowy")];
  [("train_id", str "R123"); ("scheduled_time", str "2023-01-17 08:00:00");
   ("actual_time", str "2023-01-17 08:00:00"); ("delay_minutes", int 0);
   ("route", str "Ostrava-Frenstat"); ("date", str "2023-01-17");
   ("temperature", int 5); ("weather_condition", str "rainy")];
  [("train_id", str "R123"); ("scheduled_time", str "2023-01-17 12:00:00");
   ("actual_time", str "2023-01-17 12:15:00"); ("delay_minutes", int 15);
   ("route", str "Ostrava-Frenstat"); ("date", str "2023-01-17");
   ("temperature", int 6); ("weather_condition", str "rainy")]
].

(** [df_merged] of statistical_model.py, once its two time columns
    are converted *)
Definition df_merged : DataFrame :=
  setitem "date" Datetime (to_datetime ∘ getitem "date")
    (setitem "scheduled_time" Datetime (to_datetime ∘ getitem "scheduled_time")
       (from_records analyzer_dummy_data)).

(** [station_data] of spatial_processor.py *)
Definition station_data : list record := [
  [("station_name", str "Ostrava hl.n."); ("latitude", dec 498465 10000);
   ("longitude", dec 182917 10000); ("avg_delay", int 5)];
  [("station_name", str "Frydlant n.O."); ("latitude", dec 496645 10000);
   ("longitude", dec 183582 10000); ("avg_delay", int 8)];
  [("station_name", str "Celadna"); ("latitude", dec 49576 1000);
   ("longitude", dec 183615 10000); ("avg_delay", int 3)];
  [("station_name", str "Frenstat p.R."); ("latitude", dec 495601 10000);
   ("longitude", dec 18214 1000); ("avg_delay", int 10)];
  [("station_name", str "Undefined"); ("latitude", None);
   ("longitude", None); ("avg_delay", int 1)]
].

(** a world with nothing in it, where every path can be written *)
Definition fresh_world : world :=
  {| heap := ∅; files := ∅; writable := λ _, true; stdout := [] |}.

(** Stand-ins for the external libraries, enough to run the code on
    the samples: results of numerical routines carry no information;
    the only reference systems known are EPSG:4326 and OGC:CRS84, the
    same system with longitude first, between which coordinates do not
    change; rendering succeeds. *)
#[global] Instance statistics : StatisticalAnalyzer.Statistics := {|
  StatisticalAnalyzer.float := unit;
  StatisticalAnalyzer.summary := unit;
  StatisticalAnalyzer.describe := λ _, Return tt;
  StatisticalAnalyzer.ttest_ind := λ _ _, (tt, tt);
  StatisticalAnalyzer.corr := λ method _ _,
    if bool_decide (method ∈ ["pearson"; "kendall"; "spearman"])
    then Return tt else Raise (ValueError "method")
|}.

Definition known_crs (s : string) : bool :=
  bool_decide (s ∈ ["EPSG:4326"; "OGC:CRS84"]).

#[global] Instance geodesy : SpatialProcessor.Geodesy := {|
  SpatialProcessor.float_of_str := Reading.decimal;
  SpatialProcessor.crs_from_user_input :=
    λ s, if known_crs s then Some s else None;
  SpatialProcessor.transform := λ source target g,
    if known_crs source && known_crs target then Return g
    else Raise (ValueError "unknown CRS")
|}.

#[global] Instance rendering : Plotter.Rendering := {|
  Plotter.render := λ _ _, Return tt
|}.

End Samples.


(** ** main.py *)

Module Main.
Import pd gpd Samples.
Import DataCleaner StatisticalAnalyzer Plotter SpatialProcessor.

Definition WEATHER_API_KEY : string := "YOUR_WEATHER_API_KEY".

(** [dummy_train_data] of [run_pipeline] *)
Definition dummy_train_data : list record := [
  [("train_id", str "R123"); ("scheduled_time", str "2023-01-15 08:00:00");
   ("actual_time", str "2023-01-15 08:05:00"); ("delay_minutes", int 5);
   ("route", str "Ostrava-Frenstat"); ("date", str "2023-01-15")];
  [("train_id", str "EC456"); ("scheduled_time", str "2023-01-15 10:30:00");
   ("actual_time", str "2023-01-15 10:30:00"); ("delay_minutes", int 0);
   ("route", str "Ostrava-Frydlant"); ("date", str "2023-01-15")];
  [("train_id", str "R123"); ("scheduled_time", str "2023-01-16 08:00:00");
   ("actual_time", str "2023-01-16 08:10:00"); ("delay_minutes", int 10);
   ("route", str "Ostrava-Frenstat"); ("date", str "2023-01-16")];
  [("train_id", str "EC456"); ("scheduled_time", str "2023-01-16 10:30:00");
   ("actual_time", str "2023-01-16 10:35:00"); ("delay_minutes", int 5);
   ("route", str "Ostrava-Frydlant"); ("date", str "2023-01-16")];
  [("train_id", str "R123"); ("scheduled_time", str "2023-01-17 08:00:00");
   ("actual_time", str "2023-01-17 08:00:00"); ("delay_minutes", int 0);
   ("route", str "Ostrava-Frenstat"); ("date", str "2023-01-17")];
  [("train_id", str "R123"); ("scheduled_time", str "2023-01-17 12:00:00");
   ("actual_time", str "2023-01-17 12:15:00"); ("delay_minutes", int 15);
   ("route", str "Ostrava-Frenstat"); ("date", str "2023-01-17")];
  [("train_id", str "EC456"); ("scheduled_time", str "2023-01-18 09:00:00");
   ("actual_time", str "2023-01-18 09:02:00"); ("delay_minutes", int 2);
   ("route", str "Ostrava-Frydlant"); ("date", str "2023-01-18")];
  [("train_id", str "R123"); ("scheduled_time", str "2023-01-18 14:00:00");
   ("actual_time", str "2023-01-18 14:20:00"); ("delay_minutes", int 20);
   ("route", str "Ostrava-Frenstat"); ("date", str "2023-01-18")]
].

(** [dummy_weather_data] of [run_pipeline] *)
Definition dummy_weather_data : list record := [
  [("date", str "2023-01-15"); ("temperature", dec 5 2); ("humidity", int 85);
   ("wind_speed", int 15); ("precipitation", dec 1 2);
   ("weather_condition", str "cloudy")];
  [("date", str "2023-01-16"); ("temperature", int (-1)); ("humidity", int 90);
   ("wind_speed", int 20); ("precipitation", int 2);
   ("weather_condition", str "snowy")];
  [("date", str "2023-01-17"); ("temperature", int 5); ("humidity", int 70);
   ("wind_speed", int 10); ("precipitation", int 0);
   ("weather_condition", str "rainy")];
  [("date", str "2023-01-18"); ("temperature", int 3); ("humidity", int 75);
   ("wind_speed", int 12); ("precipitation", int 0);
   ("weather_condition", str "partly cloudy")]
].

(** [station_points] of [run_pipeline] *)
Definition station_points : list record := [
  [("station_name", str "Ostrava hl.n."); ("latitude", dec 498465 10000);
   ("longitude", dec 182917 10000)];
  [("station_name", str "Frydlant n.O."); ("latitude", dec 496645 10000);
   ("longitude", dec 183582 10000)];
  [("station_name", str "Celadna"); ("latitude", dec 49576 1000);
   ("longitude", dec 183615 10000)];
  [("station_name", str "Frenstat p.R."); ("latitude", dec 495601 10000);
   ("longitude", dec 18214 1000)]
].

(** the lines the run prints, without the blank line some start with *)
Definition banner_start := "--- Starting Train Delay Analysis Pipeline ---".
Definition banner_phase1 := "--- Phase 1: Data Acquisition ---".
Definition banner_phase2 := "--- Phase 2: Data Processing and Cleaning ---".
Definition banner_phase3 := "--- Phase 3: Statistical Analysis ---".
Definition banner_phase4 := "--- Phase 4: Generating Visualizations ---".
Definition banner_phase5 := "--- Phase 5: Generating GIS Outputs ---".
Definition banner_optional := "--- Optional: Launching Streamlit Dashboard ---".
Definition banner_finished := "--- Pipeline Finished ---".
Definition line_no_api_key :=
  "Weather API key not configured. Skipping weather data fetch.".
Definition line_merged_empty :=
  "Error: Merged DataFrame is empty. Exiting pipeline.".

(** [s1 in s2] on texts *)
Definition contains (s1 s2 : string) : bool :=
  bool_decide (is_Some (String.index 0 s1 s2)).

(** [df.groupby(key)[val].mean().reset_index()]: one row per non-null
    key.  (The library orders the groups by key; here they come in
    order of first appearance, and nothing below looks at the order.) *)
Definition groupby_mean (df : DataFrame) (key val : string)
  : outcome DataFrame :=
  if negb (has_column key df) then Raise (KeyError key)
  else if negb (has_column val df) then Raise (KeyError val)
  else if negb (is_numeric_dtype val df) then
    Raise (TypeError "agg function failed")
  else
    Return {| index_name := None;
              columns := [(key, default Object (dtype_of key df)); (val, Numeric)];
              rows := (λ k, set_cell val
                              (aggregate agg_mean
                                 (omap (getitem val)
                                    (filter (λ r, r !! key = Some k) (rows df))))
                              {[ key := k ]})
                      <$> remove_dups (omap (getitem key) (rows df)) |}.

(** [get_avg_delay_for_station], local to [run_pipeline] *)
Definition route_delay (route : string) (avg_delays_df : DataFrame) : cell :=
  match filter (λ r, r !! "route" = Some (Str route)) (rows avg_delays_df) with
  | r :: _ => r !! "delay_minutes"
  | [] => int 0
  end.

Definition get_avg_delay_for_station (station_name : cell)
    (avg_delays_df : DataFrame) : cell :=
  match station_name with
  | Some (Str name) =>
      if contains "Ostrava" name || contains "Frenstat" name
         || contains "Celadna" name
      then route_delay "Ostrava-Frenstat" avg_delays_df
      else if contains "Frydlant" name
      then route_delay "Ostrava-Frydlant" avg_delays_df
      else int 0
  | _ => int 0
  end.

(** [df.to_csv(path, index=False)] *)
Definition to_csv (df : DataFrame) (path : string) : M unit :=
  write_file path (CsvFile df).

(** [df.copy()] *)
Definition copy (r : nat) : M nat := d ← deref r; alloc d.

Section pipeline.
Context `{Conversions, Statistics, Geodesy, Rendering}.

(** Phase 1.  The loop runs over four days; the scraping call is
    commented out in the source and the key is the placeholder. *)
Definition acquire : M unit :=
  print banner_start;;
  print banner_phase1;;
  foldr (λ _ (rest : M unit),
           (if bool_decide (WEATHER_API_KEY ≠ "YOUR_WEATHER_API_KEY")
            then mret tt
            else print line_no_api_key);;
           rest)
        (mret tt) (seq 0 4).

(** Phase 2: clean both tables and merge them; the result is the
    reference to the merged table. *)
Definition clean_and_merge (train_records weather_records : list record)
  : M nat :=
  train_df_raw ← alloc (from_records train_records);
  weather_df_raw ← alloc (from_records weather_records);
  print banner_phase2;;
  train_copy ← copy train_df_raw;
  train_df_cleaned ← clean_train_delays train_copy;
  weather_copy ← copy weather_df_raw;
  weather_df_cleaned ← clean_weather_data weather_copy;
  t ← deref train_df_cleaned;
  w ← deref weather_df_cleaned;
  merged ← lift (merge_data t w "date" left);
  alloc merged.

(** Phase 3 *)
Definition analyze (merged_df : nat) : M unit :=
  print banner_phase3;;
  print "Descriptive statistics for 'delay_minutes':";;
  m ← deref merged_df;
  delay_stats ← lift (get_descriptive_statistics m "delay_minutes");
  when (has_column "weather_condition" m)
    (mutate merged_df
       (setitem "is_snowy" Numeric
          (λ r, if bool_decide (r !! "weather_condition" = Some (Str "snowy"))
                then int 1 else int 0));;
     m ← deref merged_df;
     t_test_results ← lift (perform_t_test m "is_snowy" "delay_minutes"
                              (int 1) (int 0));
     mret tt);;
  m ← deref merged_df;
  when (has_column "temperature" m)
    (correlation ← lift (calculate_correlation m "delay_minutes"
                           "temperature" "pearson");
     mret tt).

(** Phase 4 *)
Definition visualize (merged_df : nat) : M unit :=
  print banner_phase4;;
  m ← deref merged_df;
  plot_delay_distribution m "delay_minutes";;
  when (has_column "scheduled_time" m)
    (daily_avg_delay ← lift (aggregate_by_time m "scheduled_time"
                               "delay_minutes" D (AggStr agg_mean));
     when (negb (empty daily_avg_delay))
       (plot_time_series daily_avg_delay "scheduled_time" "delay_minutes"));;
  plot_correlation_heatmap m (Some ["delay_minutes"; "temperature"; "humidity"]);;
  when (has_column "weather_condition" m)
    (plot_category_vs_delay m "weather_condition" "delay_minutes").

(** Phase 5 *)
Definition export_geo (merged_df : nat) : M unit :=
  print banner_phase5;;
  df_stations_geo ← alloc (from_records station_points);
  m ← deref merged_df;
  avg_delay_by_route ← lift (groupby_mean m "route" "delay_minutes");
  mutate df_stations_geo
    (setitem "avg_delay" Numeric
       (λ r, get_avg_delay_for_station (r !! "station_name")
               avg_delay_by_route));;
  s ← deref df_stations_geo;
  gdf_stations ← lift (create_gdf_from_points s "latitude" "longitude"
                         "EPSG:4326");
  match gdf_stations with
  | Some gdf =>
      save_gdf_to_shapefile gdf "data/processed/train_stations_delays.shp"
        "ESRI Shapefile";;
      create_leaflet_geojson gdf
        "docs/leaflet_layers/train_stations_delays.geojson";;
      print "Generated train_stations_delays.shp and train_stations_delays.geojson"
  | None => print "Failed to generate GIS outputs for stations."
  end;;
  print banner_optional;;
  print "To run the Streamlit dashboard, execute: streamlit run src/streamlit_app/app.py";;
  print "Make sure you have an active weather API key in src/streamlit_app/app.py if you intend to fetch real data.";;
  print banner_finished.

(** what follows the merge: the hard stop on an empty table, else
    the three remaining phases *)
Definition after_merge (merged_df : nat) : M unit :=
  m ← deref merged_df;
  if negb (empty m) then
    print "Merged data head:";;
    to_csv m "data/processed/final_merged_data.csv";;
    print "Processed data saved to data/processed/final_merged_data.csv";;
    analyze merged_df;;
    visualize merged_df;;
    export_geo merged_df
  else
    print line_merged_empty.

(** the body of [run_pipeline], over the two sample tables it builds *)
Definition run_pipeline_on (train_records weather_records : list record)
  : M unit :=
  acquire;;
  merged_df ← clean_and_merge train_records weather_records;
  after_merge merged_df.

(** [run_pipeline()] *)
Definition run_pipeline : M unit :=
  run_pipeline_on dummy_train_data dummy_weather_data.
End pipeline.

End Main.

(** ** Hand-made inputs, for the examples below *)

Module Inputs.
Import pd gpd Samples.

(** a world whose store holds the table [df] behind reference 0 *)
Definition store_with (df : DataFrame) : world :=
  {| heap := {[ 0%nat := df ]}; files := ∅;
     writable := λ _, true; stdout := [] |}.

(** two delay records that differ only in a [day_of_week] column the
    raw table already carries *)
Definition delays_with_day_column : list record := [
  [("delay_minutes", int 5); ("scheduled_time", str "2023-01-15 08:00:00");
   ("day_of_week", int 1)];
  [("delay_minutes", int 5); ("scheduled_time", str "2023-01-15 08:00:00");
   ("day_of_week", int 2)]
].

(** what [clean_train_delays] makes of either of them: the Sunday
    2023-01-15, 8 o'clock *)
Definition sunday_row : row :=
  {[ "delay_minutes" := Num (Qc_of_Z 5);
     "scheduled_time" :=
       Time (Reading.days_from_civil 2023 1 15 * ns_per_day + 8 * ns_per_hour);
     "day_of_week" := Num (Qc_of_Z 6);
     "hour_of_day" := Num (Qc_of_Z 8) ]}.

(** one delay record, and two weather readings of its day *)
Definition one_delay : list record := [
  [("train_id", str "R123"); ("delay_minutes", int 5);
   ("date", str "2023-01-15")]
].

(** a weather reading of another day *)
Definition other_day : list record := [
  [("date", str "2023-01-16"); ("temperature", int 2)]
].

(** a station whose latitude is a word *)
Definition station_with_text : list record := [
  [("station_name", str "Celadna"); ("latitude", str "north");
   ("longitude", dec 183615 10000)]
].



End Inputs.

(** ** The rows that cleaning makes of the raw rows *)

Module CleanedRows.
Import pd DataCleaner.

Section rows.
Context `{Conversions}.

(** the row that steps 1 and 2 of [clean_train_delays] make of a row of
    the table [d] *)
Definition train_row (d : DataFrame) (r : row) : row :=
  convert_row d "delay_minutes" (fillna (Num (Qc_of_Z 0)))
    (convert_row d "date" to_datetime
       (convert_row d "actual_time" to_datetime
          (convert_row d "scheduled_time" to_datetime
             (convert_row d "delay_minutes" to_numeric r)))).

(** and the row the whole function makes of it *)
Definition cleaned_row (d : DataFrame) (r : row) : row :=
  if has_column "scheduled_time" d then derived_row (train_row d r)
  else train_row d r.

End rows.
End CleanedRows.

(** ** data_ingestion/scraper.py and data_ingestion/weather_api.py

    Both functions report a failure on standard output and answer with
    an empty result; the lines they print are left out here. *)

Module Ingestion.

(** Of the parsed page [scrape_idos_delays] looks at the first table
    of class [delays-table], if there is one: the texts of the [th]
    cells of its [thead], and the texts of the [td] cells of each [tr]
    of its [tbody].  A table may lack either part, and [find] then
    gives None. *)
Record table := {
  thead : option (list string);
  tbody : option (list (list string))
}.

(** What the network and the parsers give: [requests.get] and
    [raise_for_status] may raise, and so may [response.json()];
    [BeautifulSoup(response.text, 'html.parser').find('table',
    class_='delays-table')] does not. *)
Class Web := {
  response : Type;
  json : Type;
  requests_get : string → option (list (string * pd.value)) → outcome response;
  raise_for_status : response → outcome unit;
  response_json : response → outcome json;
  soup_find_table : response → option table
}.

(** a dict of texts as Python keeps it: the keys in order of
    insertion, one value for a key *)
Definition dict := list (string * string).

(** [d[k] = v] *)
Fixpoint dict_set (k v : string) (d : dict) : dict :=
  match d with
  | [] => [(k, v)]
  | (k', v') :: rest =>
      if decide (k' = k) then (k', v) :: rest
      else (k', v') :: dict_set k v rest
  end.

(** [dict(zip(headers, values))] *)
Definition dict_zip (headers values : list string) : dict :=
  foldl (λ d p, dict_set p.1 p.2 d) [] (zip headers values).

(** [o.find_all(...)] where [o] may be None *)
Definition find_all {A} (o : option A) : outcome A :=
  match o with
  | Some a => Return a
  | None =>
      Raise (AttributeError "'NoneType' object has no attribute 'find_all'")
  end.

Section ingestion.
Context `{Web}.

(** [scrape_idos_delays(url, params=None)] *)
Definition scrape_idos_delays (url : string)
    (params : option (list (string * string))) : outcome (list dict) :=
  try_except
    (response ← requests_get url
                  (fmap (M := list) (λ p, (p.1, pd.Str p.2)) <$> params);
     raise_for_status response;;
     match soup_find_table response with
     | Some table =>
         headers ← find_all (thead table);
         trs ← find_all (tbody table);
         Return (omap (λ values,
                         if bool_decide (length headers = length values)
                         then Some (dict_zip headers values) else None)
                      trs)
     | None => Return []
     end)
    (λ _, Return []).

(** [fetch_weather_data(api_key, latitude, longitude, date)] *)
Definition fetch_weather_data (api_key : string) (latitude longitude : Qc)
    (date : string) : outcome (option json) :=
  let base_url := "http://api.weather-service.com/history" in
  let params := [("key", pd.Str api_key); ("lat", pd.Num latitude);
                 ("lon", pd.Num longitude); ("date", pd.Str date);
                 ("units", pd.Str "metric")] in
  try_except
    (response ← requests_get base_url (Some params);
     raise_for_status response;;
     weather_data ← response_json response;
     Return (Some weather_data))
    (λ _, Return None).
End ingestion.

End Ingestion.

(** a page for the examples: a delays table with two headers and three
    rows, of which the second has a cell too few *)
Module Pages.
Import Ingestion.

Definition delays_page : table :=
  {| thead := Some ["train_id"; "delay_minutes"];
     tbody := Some [["R123"; "5"]; ["EC456"]; ["R125"; "12"]] |}.

#[global] Instance served : Web := {|
  response := table;
  json := unit;
  requests_get := λ _ _, Return delays_page;
  raise_for_status := λ _, Return tt;
  response_json := λ _, Raise (ValueError "invalid JSON");
  soup_find_table := Some
|}.

End Pages.

(** ** Describing runs *)

(** every line the computation prints satisfies [P] *)
Definition prints_only (P : string → Prop) {A} (m : M A) : Prop :=
  ∀ w o w', m w = (o, w') →
    ∃ out, stdout w' = (stdout w ++ out)%list ∧ Forall P out.

(** the computation never returns: whatever the world, it raises *)
Definition always_raises {A} (m : M A) : Prop :=
  ∀ w, ∃ e w', m w = (Raise e, w').

(** no file changes but those whose path satisfies [P] *)
Definition writes_only (P : string → Prop) {A} (m : M A) : Prop :=
  ∀ w o w', m w = (o, w') →
    ∀ path, ¬ P path → files w' !! path = files w !! path.

(** * Properties *)

(** ** Running the store monad *)

Section store.
Import pd.

Lemma set_heap_id w r (d : DataFrame) :
  heap w !! r = Some d → set_heap w (<[r := d]> (heap w)) = w.
Proof. intros E. unfold set_heap. rewrite insert_id by done. by destruct w. Qed.

Lemma run_bind {A B} (m : M A) (k : A → M B) w a w' :
  m w = (Return a, w') → (m ≫= k) w = k a w'.
Proof. intros E. unfold mbind, M_bind, bind. by rewrite E. Qed.

Lemma run_try_catch_return {A} c (m : M A) h w a w' :
  m w = (Return a, w') → try_catch c m h w = (Return a, w').
Proof. intros E. unfold try_catch. by rewrite E. Qed.

Lemma run_deref w h r d :
  deref r (set_heap w (<[r := d]> h)) = (Return d, set_heap w (<[r := d]> h)).
Proof. unfold deref. simpl. by rewrite lookup_total_insert_eq. Qed.

Lemma run_mutate w h r d f :
  mutate r f (set_heap w (<[r := d]> h))
  = (Return tt, set_heap w (<[r := f d]> h)).
Proof. unfold mutate, set_heap. simpl. by rewrite alter_insert_eq. Qed.

Lemma run_when_mutate w h r d b f :
  when b (mutate r f) (set_heap w (<[r := d]> h))
  = (Return tt, set_heap w (<[r := DataCleaner.apply_if b f d]> h)).
Proof. destruct b; [apply run_mutate | done]. Qed.

(** the same steps, followed by the rest of the program *)
Lemma run_deref_then {B} w h r d (k : DataFrame → M B) :
  (deref r ≫= k) (set_heap w (<[r := d]> h)) = k d (set_heap w (<[r := d]> h)).
Proof. apply run_bind, run_deref. Qed.

Lemma run_mutate_then {B} w h r d f (k : unit → M B) :
  (mutate r f ≫= k) (set_heap w (<[r := d]> h))
  = k tt (set_heap w (<[r := f d]> h)).
Proof. apply run_bind, run_mutate. Qed.

Lemma run_when_mutate_then {B} w h r d b f (k : unit → M B) :
  (when b (mutate r f) ≫= k) (set_heap w (<[r := d]> h))
  = k tt (set_heap w (<[r := DataCleaner.apply_if b f d]> h)).
Proof. apply run_bind, run_when_mutate. Qed.
End store.

Ltac run_store :=
  repeat first
    [ rewrite run_deref_then
    | rewrite run_when_mutate_then
    | rewrite run_mutate_then
    | rewrite run_deref
    | rewrite run_when_mutate
    | rewrite run_mutate ];
  cbv beta.

Section cleaner_runs.
Import pd DataCleaner.
Context `{Conversions}.

(** [clean_train_delays] returns the reference it was given and leaves
    [train_delays_table] of the table behind it; nothing else in the
    world changes. *)
Lemma clean_train_delays_run w df raw :
  heap w !! df = Some raw →
  clean_train_delays df w
  = (Return df, set_heap w (<[df := train_delays_table raw]> (heap w))).
Proof.
  intros E. rewrite <- (set_heap_id w df raw E) at 1.
  unfold clean_train_delays.
  erewrite run_bind; cycle 1.
  { apply run_try_catch_return. run_store. reflexivity. }
  run_store.
  unfold train_delays_table, train_delays_converted, convert.
  set (d' := drop_duplicates _).
  destruct (has_column "scheduled_time" d'); simpl.
  - erewrite run_bind; [reflexivity | run_store; reflexivity].
  - reflexivity.
Qed.

Lemma clean_weather_data_run w df raw :
  heap w !! df = Some raw →
  clean_weather_data df w
  = (Return df, set_heap w (<[df := weather_table raw]> (heap w))).
Proof.
  intros E. rewrite <- (set_heap_id w df raw E) at 1.
  unfold clean_weather_data.
  erewrite run_bind; cycle 1.
  { apply run_try_catch_return. run_store. reflexivity. }
  run_store. done.
Qed.
End cleaner_runs.

(** ** Facts about the tabular library *)

Section tables.
Import pd.

Lemma lookup_set_cell_eq c v (r : row) : set_cell c v r !! c = v.
Proof. destruct v; simpl; [apply lookup_insert_eq | apply lookup_delete_eq]. Qed.

Lemma lookup_set_cell_ne c c' v (r : row) :
  c ≠ c' → set_cell c v r !! c' = r !! c'.
Proof.
  intros. destruct v; simpl;
    [by apply lookup_insert_ne | by apply lookup_delete_ne].
Qed.

Lemma labels_set_dtype_mono c c' dt cols :
  c' ∈ cols.*1 → c' ∈ (set_dtype c dt cols).*1.
Proof.
  induction cols as [|[a b] cols IH]; simpl; [by intros ?%elem_of_nil|].
  intros [->|Hin]%elem_of_cons; case_decide; subst; simpl;
    try apply elem_of_cons; auto.
Qed.

Lemma labels_set_dtype_has c dt cols :
  c ∈ cols.*1 → (set_dtype c dt cols).*1 = cols.*1.
Proof.
  induction cols as [|[a b] cols IH]; simpl; [by intros ?%elem_of_nil|].
  intros Hin. case_decide; subst; simpl; [done|].
  f_equal. apply IH.
  apply elem_of_cons in Hin as [?|?]; [simpl in *; congruence | done].
Qed.

Lemma has_column_true c d : has_column c d = true ↔ c ∈ labels d.
Proof. unfold has_column. by rewrite bool_decide_eq_true. Qed.

Lemma has_column_false c d : has_column c d = false ↔ c ∉ labels d.
Proof. unfold has_column. by rewrite bool_decide_eq_false. Qed.

Lemma labels_setitem_has c dt s d :
  c ∈ labels d → labels (setitem c dt s d) = labels d.
Proof. apply labels_set_dtype_has. Qed.

Lemma labels_setitem_mono c c' dt s d :
  c' ∈ labels d → c' ∈ labels (setitem c dt s d).
Proof. apply labels_set_dtype_mono. Qed.

Lemma same_row_sym cols r1 r2 : same_row cols r1 r2 = same_row cols r2 r1.
Proof.
  unfold same_row. induction cols as [|c cols IH]; simpl; [done|].
  rewrite IH. f_equal. apply bool_decide_ext. split; congruence.
Qed.

Lemma same_row_refl cols r : same_row cols r r = true.
Proof.
  unfold same_row. apply forallb_forall. intros c _.
  by apply bool_decide_eq_true.
Qed.

Lemma same_row_false cols r1 r2 :
  same_row cols r1 r2 = false ↔ ∃ c, c ∈ cols ∧ r1 !! c ≠ r2 !! c.
Proof.
  unfold same_row. induction cols as [|c cols IH]; simpl.
  - split; [done | by intros (? & ?%elem_of_nil & _)].
  - rewrite andb_false_iff, bool_decide_eq_false, IH. split.
    + intros [Hne | (c' & Hin & Hne)]; [exists c | exists c'];
        split; auto; apply elem_of_cons; auto.
    + intros (c' & [->|Hin]%elem_of_cons & Hne); [by left | right; eauto].
Qed.

Lemma keep_first_subseteq cols seen l : keep_first cols seen l ⊆ l.
Proof.
  revert seen. induction l as [|r l IH]; intros seen; simpl; [done|].
  destruct (existsb _ seen).
  - intros x Hx. apply elem_of_cons. right. by eapply IH.
  - intros x [->|Hx]%elem_of_cons; apply elem_of_cons; [by left|].
    right. by eapply IH.
Qed.

(** what [keep_first] keeps differs from every row seen before, and
    no two kept rows are identical *)
Lemma keep_first_distinct cols seen l :
  (∀ r s, r ∈ keep_first cols seen l → s ∈ seen → same_row cols r s = false) ∧
  (∀ i j ri rj, (i < j)%nat →
     keep_first cols seen l !! i = Some ri →
     keep_first cols seen l !! j = Some rj →
     same_row cols ri rj = false).
Proof.
  revert seen. induction l as [|r l IH]; intros seen; simpl.
  { split; [by intros ?? ?%elem_of_nil | by intros ?????; rewrite lookup_nil]. }
  destruct (existsb (same_row cols r) seen) eqn:Hex; [apply IH|].
  destruct (IH (r :: seen)) as [IHa IHb].
  assert (Hr : ∀ s, s ∈ seen → same_row cols r s = false).
  { intros s Hs. destruct (same_row cols r s) eqn:Hrs; [|done].
    assert (existsb (same_row cols r) seen = true); [|congruence].
    apply existsb_exists. exists s. by rewrite <- list_elem_of_In. }
  split.
  - intros r' s [->|Hin]%elem_of_cons Hs; [by apply Hr|].
    apply IHa; [done | apply elem_of_cons; by right].
  - intros [|i] [|j] ri rj Hij Hi Hj; simpl in *; try lia.
    + injection Hi as <-. rewrite same_row_sym.
      apply IHa; [by eapply list_elem_of_lookup_2 | apply elem_of_cons; by left].
    + eapply (IHb i j); [lia | done..].
Qed.

Lemma labels_drop_duplicates d : labels (drop_duplicates d) = labels d.
Proof. unfold drop_duplicates. by destruct (empty d). Qed.

Lemma rows_drop_duplicates_subseteq d : rows (drop_duplicates d) ⊆ rows d.
Proof.
  unfold drop_duplicates. destruct (empty d); [done|].
  apply keep_first_subseteq.
Qed.

(** a table with a column has no identical rows once deduplicated *)
Lemma drop_duplicates_distinct d :
  labels d ≠ [] → distinct_rows (drop_duplicates d).
Proof.
  intros Hcols. unfold distinct_rows, drop_duplicates.
  destruct (empty d) eqn:He.
  - unfold empty, labels in *.
    destruct (columns d); [done|]. destruct (rows d); [|done].
    by intros ?????; rewrite lookup_nil.
  - simpl. apply keep_first_distinct.
Qed.
End tables.

(** ** The cleaner *)

Section cleaner_facts.
Import pd DataCleaner.
Context `{Conversions}.

Lemma labels_convert c dt f d : labels (convert c dt f d) = labels d.
Proof.
  unfold convert, apply_if. destruct (has_column c d) eqn:E; [|done].
  apply labels_setitem_has. by apply has_column_true.
Qed.

Lemma has_column_convert c' c dt f d :
  has_column c' (convert c dt f d) = has_column c' d.
Proof. unfold has_column. by rewrite labels_convert. Qed.

Lemma rows_convert_Forall (P : row → Prop) c dt f d :
  (∀ r, P r → P (set_cell c (f (r !! c)) r)) →
  Forall P (rows d) → Forall P (rows (convert c dt f d)).
Proof.
  intros HP Hd. unfold convert, apply_if. destruct (has_column c d); [|done].
  simpl. apply Forall_fmap. eapply Forall_impl; [done|]. apply HP.
Qed.

Lemma rows_convert_establish (P : row → Prop) c dt f d :
  has_column c d = true →
  (∀ r, P (set_cell c (f (r !! c)) r)) →
  Forall P (rows (convert c dt f d)).
Proof.
  intros Hc HP. unfold convert, apply_if. rewrite Hc. simpl.
  apply Forall_fmap, Forall_forall. intros r _. apply HP.
Qed.

Lemma labels_train_delays_converted d :
  labels (train_delays_converted d) = labels d.
Proof. unfold train_delays_converted. by rewrite !labels_convert. Qed.

Lemma labels_weather_converted d : labels (weather_converted d) = labels d.
Proof. unfold weather_converted. by rewrite !labels_convert. Qed.

(** after step 2 no delay is missing *)
Lemma converted_delay_filled d :
  has_column "delay_minutes" d = true →
  Forall (λ r : row, r !! "delay_minutes" ≠ None)
         (rows (train_delays_converted d)).
Proof.
  intros Hd. unfold train_delays_converted.
  apply rows_convert_establish.
  - by rewrite !has_column_convert.
  - intros r. rewrite lookup_set_cell_eq. unfold compose, getitem.
    by destruct (r !! "delay_minutes").
Qed.

(** after step 1 a scheduled time is a timestamp or null *)
Lemma converted_scheduled_time d :
  has_column "scheduled_time" d = true →
  Forall (λ r : row, ∀ v, r !! "scheduled_time" = Some v → ∃ t, v = Time t)
         (rows (train_delays_converted d)).
Proof.
  intros Hd. unfold train_delays_converted.
  do 3 (apply rows_convert_Forall;
        [intros r Hr v; rewrite lookup_set_cell_ne by done; apply Hr|]).
  apply rows_convert_establish.
  - by rewrite !has_column_convert.
  - intros r v. rewrite lookup_set_cell_eq. unfold compose, getitem.
    destruct (r !! "scheduled_time") as [[q|s|t|x y]|]; simpl.
    + intros (t & _ & ->)%fmap_Some. eauto.
    + intros (t & _ & ->)%fmap_Some. eauto.
    + intros [= <-]. eauto.
    + done.
    + done.
Qed.

Lemma dayofweek_range t : 0 ≤ dayofweek t ≤ 6.
Proof.
  unfold dayofweek.
  pose proof (Z.mod_pos_bound (t `div` ns_per_day + 3) 7). lia.
Qed.

Lemma hour_range t : 0 ≤ hour t ≤ 23.
Proof.
  unfold hour. pose proof (Z.mod_pos_bound (t `div` ns_per_hour) 24). lia.
Qed.

Lemma rows_derive_fields d : rows (derive_fields d) = derived_row <$> rows d.
Proof.
  unfold derive_fields. simpl. rewrite <- list_fmap_compose. done.
Qed.

Lemma derived_row_other c (r : row) :
  c ≠ "day_of_week" → c ≠ "hour_of_day" → derived_row r !! c = r !! c.
Proof.
  intros. unfold derived_row. by rewrite !lookup_set_cell_ne.
Qed.

Lemma derived_row_day_of_week (r : row) :
  derived_row r !! "day_of_week" = dt_dayofweek (r !! "scheduled_time").
Proof.
  unfold derived_row.
  rewrite lookup_set_cell_ne by done. apply lookup_set_cell_eq.
Qed.

Lemma has_column_deduplicated c d :
  has_column c (drop_duplicates (train_delays_converted d)) = has_column c d.
Proof.
  unfold has_column.
  by rewrite labels_drop_duplicates, labels_train_delays_converted.
Qed.

Lemma train_delays_table_delay_filled d :
  has_column "delay_minutes" d = true →
  Forall (λ r : row, r !! "delay_minutes" ≠ None) (rows (train_delays_table d)).
Proof.
  intros Hd. pose proof (converted_delay_filled d Hd) as Hc.
  assert (Hdd : Forall (λ r : row, r !! "delay_minutes" ≠ None)
                  (rows (drop_duplicates (train_delays_converted d)))).
  { rewrite Forall_forall in *. intros r Hr. apply Hc.
    by apply rows_drop_duplicates_subseteq. }
  unfold train_delays_table, apply_if. cbv zeta.
  destruct (has_column "scheduled_time" _); [|done].
  rewrite rows_derive_fields. apply Forall_fmap.
  eapply Forall_impl; [done|]. intros r Hr. simpl.
  by rewrite derived_row_other.
Qed.

Lemma train_delays_table_day_of_week d :
  has_column "scheduled_time" d = true →
  Forall (λ r : row, ∀ v, r !! "scheduled_time" = Some v →
            ∃ t, v = Time t ∧
                 r !! "day_of_week" = Some (Num (Qc_of_Z (dayofweek t))))
         (rows (train_delays_table d)).
Proof.
  intros Hd. pose proof (converted_scheduled_time d Hd) as Hc.
  unfold train_delays_table, apply_if. cbv zeta.
  rewrite has_column_deduplicated, Hd, rows_derive_fields.
  apply Forall_fmap, Forall_forall. intros r Hr v. simpl.
  rewrite derived_row_other, derived_row_day_of_week by done.
  intros Hv. rewrite Forall_forall in Hc.
  destruct (Hc r (rows_drop_duplicates_subseteq _ _ Hr) v Hv) as [t ->].
  exists t. by rewrite Hv.
Qed.

Lemma train_delays_table_distinct d :
  has_column "delay_minutes" d = true →
  has_column "scheduled_time" d = false ∨
    (has_column "day_of_week" d = false ∧ has_column "hour_of_day" d = false) →
  distinct_rows (train_delays_table d).
Proof.
  intros Hd Hfree.
  assert (Hdist : distinct_rows (drop_duplicates (train_delays_converted d))).
  { apply drop_duplicates_distinct. rewrite labels_train_delays_converted.
    apply has_column_true in Hd. intros E. rewrite E in Hd.
    by apply elem_of_nil in Hd. }
  unfold train_delays_table, apply_if. cbv zeta.
  rewrite has_column_deduplicated.
  destruct (has_column "scheduled_time" d) eqn:Hs; [|done].
  destruct Hfree as [|[Hdow Hhod]]; [done|].
  set (d' := drop_duplicates (train_delays_converted d)) in *.
  intros i j ri rj Hij. rewrite rows_derive_fields, !list_lookup_fmap.
  destruct (rows d' !! i) as [ri0|] eqn:Hi; [|done].
  destruct (rows d' !! j) as [rj0|] eqn:Hj; [|done].
  intros [= <-] [= <-].
  apply same_row_false.
  destruct (proj1 (same_row_false _ _ _) (Hdist i j ri0 rj0 Hij Hi Hj))
    as (c & Hc & Hne).
  assert (Hraw : c ∈ labels d).
  { subst d'. by rewrite labels_drop_duplicates,
                         labels_train_delays_converted in Hc. }
  apply has_column_false in Hdow, Hhod.
  exists c. split.
  - unfold derive_fields. by do 2 apply labels_setitem_mono.
  - rewrite !derived_row_other by (intros ->; done). done.
Qed.
End cleaner_facts.

Lemma store_with_lookup df :
  heap (Inputs.store_with df) !! 0%nat = Some df.
Proof. apply lookup_singleton_eq. Qed.

Section train_delays.
Import pd DataCleaner.
Context `{Conversions}.

(** C2, as amended.  For a raw table with a [delay_minutes] column,
    [clean_train_delays] returns the table with no null in
    [delay_minutes]; every row whose [scheduled_time] is a timestamp has
    a [day_of_week] between 0 and 6; and no two rows are identical,
    provided the raw table has no [scheduled_time] column or carries
    neither a [day_of_week] nor an [hour_of_day] column of its own. *)
Theorem clean_train_delays_postcondition w df raw :
  heap w !! df = Some raw →
  has_column "delay_minutes" raw = true →
  ∃ out w',
    clean_train_delays df w = (Return df, w') ∧
    heap w' !! df = Some out ∧
    (∀ r, r ∈ rows out → r !! "delay_minutes" ≠ None) ∧
    (has_column "scheduled_time" raw = true →
     ∀ r v, r ∈ rows out → r !! "scheduled_time" = Some v →
       ∃ t k, v = Time t ∧
              r !! "day_of_week" = Some (Num (Qc_of_Z k)) ∧ 0 ≤ k ≤ 6) ∧
    (has_column "scheduled_time" raw = false ∨
       (has_column "day_of_week" raw = false ∧
        has_column "hour_of_day" raw = false) →
     distinct_rows out).
Proof.
  intros Hdf Hdm.
  exists (train_delays_table raw), (set_heap w (<[df := train_delays_table raw]> (heap w))).
  split; [by apply clean_train_delays_run|].
  split; [apply lookup_insert_eq|].
  split; [|split].
  - apply Forall_forall. by apply train_delays_table_delay_filled.
  - intros Hs r v Hr Hv.
    pose proof (train_delays_table_day_of_week raw Hs) as Hall.
    rewrite Forall_forall in Hall.
    destruct (Hall r Hr v Hv) as (t & -> & Hdow).
    exists t, (dayofweek t). auto using dayofweek_range.
  - by apply train_delays_table_distinct.
Qed.
End train_delays.

Lemma clean_train_delays_postcondition_witness :
  ∃ out w',
    DataCleaner.clean_train_delays 0%nat
        (Inputs.store_with (pd.from_records Samples.cleaner_train_data))
      = (Return 0%nat, w') ∧
    heap w' !! 0%nat = Some out ∧
    (∀ r, r ∈ pd.rows out → r !! "delay_minutes" ≠ None) ∧
    (pd.has_column "scheduled_time"
         (pd.from_records Samples.cleaner_train_data) = true →
     ∀ r v, r ∈ pd.rows out → r !! "scheduled_time" = Some v →
       ∃ t k, v = pd.Time t ∧
              r !! "day_of_week" = Some (pd.Num (Qc_of_Z k)) ∧ 0 ≤ k ≤ 6) ∧
    (pd.has_column "scheduled_time"
         (pd.from_records Samples.cleaner_train_data) = false ∨
       (pd.has_column "day_of_week"
            (pd.from_records Samples.cleaner_train_data) = false ∧
        pd.has_column "hour_of_day"
            (pd.from_records Samples.cleaner_train_data) = false) →
     pd.distinct_rows out).
Proof.
  apply (clean_train_delays_postcondition
           (Inputs.store_with (pd.from_records Samples.cleaner_train_data))
           0%nat (pd.from_records Samples.cleaner_train_data)).
  - apply store_with_lookup.
  - vm_compute. reflexivity.
Defined.

(** C2 as stated fails: the two records of [delays_with_day_column]
    differ only in the [day_of_week] the raw table already carries; both
    survive the removal of duplicates, and the derived [day_of_week] then
    makes them identical. *)
Lemma clean_train_delays_identical_rows :
  pd.has_column "delay_minutes"
    (pd.from_records Inputs.delays_with_day_column) = true ∧
  ∃ out w',
    DataCleaner.clean_train_delays 0%nat
        (Inputs.store_with (pd.from_records Inputs.delays_with_day_column))
      = (Return 0%nat, w') ∧
    heap w' !! 0%nat = Some out ∧
    pd.rows out = [Inputs.sunday_row; Inputs.sunday_row] ∧
    ¬ pd.distinct_rows out.
Proof.
  split; [vm_compute; reflexivity|].
  eexists _, _. split.
  { apply clean_train_delays_run, store_with_lookup. }
  split; [apply lookup_insert_eq|].
  assert (E : pd.rows (DataCleaner.train_delays_table
                         (pd.from_records Inputs.delays_with_day_column))
              = [Inputs.sunday_row; Inputs.sunday_row])
    by (vm_compute; reflexivity).
  split; [exact E|].
  intros Hd.
  specialize (Hd 0%nat 1%nat Inputs.sunday_row Inputs.sunday_row ltac:(lia)).
  rewrite E in Hd. specialize (Hd eq_refl eq_refl).
  by rewrite same_row_refl in Hd.
Qed.

(** ** Weather cleaning *)

Section weather.
Import pd DataCleaner.
Context `{Conversions}.

Lemma rows_convert c dt f d :
  rows (convert c dt f d) = convert_row d c f <$> rows d.
Proof.
  unfold convert, convert_row, apply_if.
  destruct (has_column c d); simpl; [done | by rewrite list_fmap_id].
Qed.

Lemma convert_row_ext d d' c f r :
  labels d = labels d' → convert_row d c f r = convert_row d' c f r.
Proof. intros E. unfold convert_row, has_column. by rewrite E. Qed.

Lemma rows_weather_converted d :
  rows (weather_converted d) = weather_row d <$> rows d.
Proof.
  unfold weather_converted, weather_row.
  rewrite !rows_convert, <- !list_fmap_compose.
  apply list_fmap_ext. intros _ r _. simpl.
  repeat (erewrite convert_row_ext; [f_equal | by rewrite ?labels_convert]).
Qed.

(** the conversions keep a null cell null *)
Lemma convert_row_null d c f (r : row) c' :
  f None = None → r !! c' = None → convert_row d c f r !! c' = None.
Proof.
  intros Hf Hr. unfold convert_row. destruct (has_column c d); [|done].
  destruct (decide (c = c')) as [->|Hne].
  - by rewrite lookup_set_cell_eq, Hr.
  - by rewrite lookup_set_cell_ne.
Qed.

Lemma weather_row_null d (r : row) c :
  r !! c = None → weather_row d r !! c = None.
Proof.
  intros Hr. unfold weather_row. by repeat apply convert_row_null.
Qed.

Lemma notna_all_spec cols (r : row) :
  notna_all cols r = true ↔ ∀ c, c ∈ cols → r !! c ≠ None.
Proof.
  unfold notna_all, isna. rewrite forallb_forall. split.
  - intros Hall c Hc. specialize (Hall c (proj1 (list_elem_of_In _ _) Hc)).
    by apply negb_true_iff, bool_decide_eq_false in Hall.
  - intros Hall c Hc. apply negb_true_iff, bool_decide_eq_false, Hall.
    by apply list_elem_of_In.
Qed.

(** C3.  [clean_weather_data] leaves no null cell: its result holds
    exactly the converted rows without a null in any column, every
    cell of every remaining row is non-null, and a row that had a null
    in some column, converted or not, is not in the result. *)
Theorem clean_weather_data_postcondition w df raw :
  heap w !! df = Some raw →
  ∃ out w',
    clean_weather_data df w = (Return df, w') ∧
    heap w' !! df = Some out ∧
    labels out = labels raw ∧
    rows out = filter (λ r, notna_all (labels raw) r)
                      (weather_row raw <$> rows raw) ∧
    (∀ r c, r ∈ rows out → c ∈ labels out → r !! c ≠ None) ∧
    (∀ r c, r ∈ rows raw → c ∈ labels raw → r !! c = None →
            weather_row raw r ∉ rows out).
Proof.
  intros Hdf.
  exists (weather_table raw), (set_heap w (<[df := weather_table raw]> (heap w))).
  split; [by apply clean_weather_data_run|].
  split; [apply lookup_insert_eq|].
  assert (Hl : labels (weather_table raw) = labels raw)
    by apply labels_weather_converted.
  assert (Hr : rows (weather_table raw)
               = filter (λ r, notna_all (labels raw) r)
                        (weather_row raw <$> rows raw)).
  { unfold weather_table, dropna. cbn [rows].
    by rewrite labels_weather_converted, rows_weather_converted. }
  split; [done|]. split; [done|]. rewrite Hr, Hl. split.
  - intros r c [Hall _]%list_elem_of_filter Hc.
    apply Is_true_true in Hall. by eapply notna_all_spec.
  - intros r c _ Hc Hnull [Hall _]%list_elem_of_filter.
    apply Is_true_true in Hall.
    by eapply (proj1 (notna_all_spec _ _) Hall c Hc), weather_row_null.
Qed.
End weather.

Lemma clean_weather_data_postcondition_witness :
  ∃ out w',
    DataCleaner.clean_weather_data 0%nat
        (Inputs.store_with (pd.from_records Samples.cleaner_weather_data))
      = (Return 0%nat, w') ∧
    heap w' !! 0%nat = Some out ∧
    pd.labels out = pd.labels (pd.from_records Samples.cleaner_weather_data) ∧
    pd.rows out
      = filter (λ r, pd.notna_all
                       (pd.labels (pd.from_records Samples.cleaner_weather_data)) r)
               (DataCleaner.weather_row
                  (pd.from_records Samples.cleaner_weather_data)
                <$> pd.rows (pd.from_records Samples.cleaner_weather_data)) ∧
    (∀ r c, r ∈ pd.rows out → c ∈ pd.labels out → r !! c ≠ None) ∧
    (∀ r c, r ∈ pd.rows (pd.from_records Samples.cleaner_weather_data) →
            c ∈ pd.labels (pd.from_records Samples.cleaner_weather_data) →
            r !! c = None →
            DataCleaner.weather_row
              (pd.from_records Samples.cleaner_weather_data) r ∉ pd.rows out).
Proof.
  apply (clean_weather_data_postcondition
           (Inputs.store_with (pd.from_records Samples.cleaner_weather_data))
           0%nat (pd.from_records Samples.cleaner_weather_data)).
  apply store_with_lookup.
Defined.

(** ** Cleaning happens in place *)

Section in_place.
Import pd DataCleaner.
Context `{Conversions}.

End in_place.


(** On the sample of cleaner.py the raw table is indeed gone: the
    object the caller passed now holds timestamps where it held text. *)
Example cleaning_overwrites_the_sample :
  ∃ w', DataCleaner.clean_train_delays 0%nat
            (Inputs.store_with (pd.from_records Samples.cleaner_train_data))
          = (Return 0%nat, w') ∧
        heap w' !! 0%nat ≠ Some (pd.from_records Samples.cleaner_train_data).
Proof.
  eexists. split; [apply clean_train_delays_run, store_with_lookup|].
  cbn [heap set_heap]. rewrite lookup_insert_eq.
  intros E%(f_equal (λ o, o ≫= pd.dtype_of "date")).
  vm_compute in E. discriminate.
Qed.

(** ** The left join *)

Section merge_facts.
Import pd.
Variables (L R : DataFrame) (on : string).

Lemma fst_filter {A B} (P : A → Prop) `{∀ x, Decision (P x)}
    (l : list (A * B)) :
  (filter (λ p, P p.1) l).*1 = filter P (l.*1).
Proof.
  induction l as [|[a b] l IH]; [done|].
  rewrite fmap_cons, !filter_cons. cbn [fst].
  destruct (decide (P a)); [rewrite fmap_cons; f_equal|]; exact IH.
Qed.

Lemma merged_labels :
  (merged_columns L R on).*1
  = ((left_label L R on <$> labels L)
     ++ (right_label L R on <$> right_labels R on))%list.
Proof.
  unfold merged_columns, right_labels, labels.
  rewrite fmap_app, <- (fst_filter (λ c, c ≠ on)), <- !list_fmap_compose.
  done.
Qed.

Lemma elem_of_cells f cols (r : row) k v :
  (k, v) ∈ cells f cols r ↔ ∃ c, c ∈ cols ∧ k = f c ∧ r !! c = Some v.
Proof.
  unfold cells. rewrite list_elem_of_omap. split.
  - intros (c & Hc & Hf). destruct (r !! c) eqn:E; simpl in Hf; [|done].
    injection Hf as <- <-. eauto.
  - intros (c & Hc & -> & E). exists c. split; [done|]. by rewrite E.
Qed.

Lemma cells_keys_sublist f cols (r : row) :
  (cells f cols r).*1 `sublist_of` (f <$> cols).
Proof.
  unfold cells. induction cols as [|c cols IH]; simpl; [constructor|].
  destruct (r !! c); simpl; [by apply sublist_skip | by apply sublist_cons].
Qed.

Lemma NoDup_fmap_inj_on {A B} (f : A → B) l x y :
  NoDup (f <$> l) → x ∈ l → y ∈ l → f x = f y → x = y.
Proof.
  induction l as [|a l IH]; simpl; [by intros _ ?%elem_of_nil|].
  intros [Hnotin Hnd]%NoDup_cons Hx Hy Hxy.
  apply elem_of_cons in Hx as [->|Hx]; apply elem_of_cons in Hy as [->|Hy];
    [done | | | by apply IH].
  - destruct Hnotin. rewrite Hxy. by apply list_elem_of_fmap_2.
  - destruct Hnotin. rewrite <- Hxy. by apply list_elem_of_fmap_2.
Qed.

Hypothesis labels_distinct : NoDup (merged_columns L R on).*1.

Lemma join_cells_NoDup l w :
  NoDup ((cells (left_label L R on) (labels L) l
          ++ from_option (cells (right_label L R on) (right_labels R on)) [] w)%list).*1.
Proof.
  eapply sublist_NoDup; [apply labels_distinct|].
  rewrite merged_labels, fmap_app.
  apply sublist_app; [apply cells_keys_sublist|].
  destruct w; simpl; [apply cells_keys_sublist | apply sublist_nil_l].
Qed.

Lemma left_right_disjoint c c' :
  c ∈ labels L → c' ∈ right_labels R on →
  left_label L R on c ≠ right_label L R on c'.
Proof.
  intros Hc Hc' Heq. pose proof labels_distinct as Hnd.
  rewrite merged_labels in Hnd. apply NoDup_app in Hnd as (_ & Hdis & _).
  apply (Hdis (left_label L R on c)); [by apply list_elem_of_fmap_2|].
  rewrite Heq. by apply list_elem_of_fmap_2.
Qed.

(** in a joined row the cell of a left column is the cell of the left
    row *)
Lemma lookup_join_row_left l w c :
  c ∈ labels L → join_row L R on l w !! left_label L R on c = l !! c.
Proof.
  intros Hc. apply option_eq. intros v. unfold join_row.
  rewrite <- elem_of_list_to_map by apply join_cells_NoDup.
  rewrite elem_of_app, elem_of_cells. split.
  - intros [(c' & Hc' & Heq & Hv) | Hr].
    + assert (c = c') as ->; [|done].
      pose proof labels_distinct as Hnd. rewrite merged_labels in Hnd.
      apply NoDup_app in Hnd as (Hnd & _).
      by eapply NoDup_fmap_inj_on.
    + destruct w as [w|]; simpl in Hr; [|by apply elem_of_nil in Hr].
      apply elem_of_cells in Hr as (c' & Hc' & Heq & _).
      by destruct (left_right_disjoint c c').
  - intros Hv. left. eauto.
Qed.

(** the fields of the right table are null in the row of an unmatched
    left row *)
Lemma lookup_join_row_unmatched l c :
  c ∈ right_labels R on →
  join_row L R on l None !! right_label L R on c = None.
Proof.
  intros Hc. unfold join_row. simpl. rewrite app_nil_r.
  apply not_elem_of_list_to_map_1.
  intros ([k v] & Hk & Hin)%list_elem_of_fmap. simpl in Hk. subst k.
  apply elem_of_cells in Hin as (c' & Hc' & Heq & _).
  by destruct (left_right_disjoint c' c).
Qed.

Lemma left_label_key : left_label L R on on = on.
Proof.
  unfold left_label, overlap, right_labels.
  rewrite bool_decide_eq_false_2; [done|].
  intros [[Hne _]%list_elem_of_filter _]%list_elem_of_filter. done.
Qed.

Lemma elem_of_matches l w :
  w ∈ matches R on l ↔ w !! on = l !! on ∧ w ∈ rows R.
Proof.
  unfold matches. apply (list_elem_of_filter (λ w : row, w !! on = l !! on)).
Qed.

End merge_facts.

Section counting.
Context {A B : Type}.



Lemma filter_unique_key `{EqDecision B} (g : A → B) (k : B) (l : list A) :
  NoDup (g <$> l) → (length (filter (λ x, g x = k) l) ≤ 1)%nat.
Proof.
  induction l as [|a l IH]; [simpl; lia|].
  rewrite fmap_cons. intros [Hnotin Hnd]%NoDup_cons.
  rewrite filter_cons. destruct (decide (g a = k)) as [Ha|]; [|by apply IH].
  destruct (filter (λ x, g x = k) l) as [|y ys] eqn:Hf; [simpl; lia|].
  assert (Hy : y ∈ filter (λ x, g x = k) l) by (rewrite Hf; apply elem_of_cons; by left).
  apply list_elem_of_filter in Hy as [Hgy Hy].
  destruct Hnotin. rewrite Ha, <- Hgy. by apply list_elem_of_fmap_2.
Qed.
End counting.

Section merge_data.
Import pd DataCleaner.

End merge_data.



(** A delay record of a day without reading keeps its row and gets a
    null temperature. *)
Example merge_data_left_unmatched :
  ∃ o, DataCleaner.merge_data (pd.from_records Inputs.one_delay)
         (pd.from_records Inputs.other_day) "date" pd.left
       = Return {| pd.index_name := None;
                   pd.columns := [("train_id", pd.Object);
                                  ("delay_minutes", pd.Numeric);
                                  ("date", pd.Object);
                                  ("temperature", pd.Numeric)];
                   pd.rows := [o] |} ∧
       o !! "temperature" = None ∧ o !! "train_id" = Some (pd.Str "R123").
Proof. eexists. split; [vm_compute; reflexivity|]. split; reflexivity. Qed.

(** ** The analyzer *)

Section analyzer_facts.
Import pd StatisticalAnalyzer.
Context `{Statistics}.


(** The three functions that answer with None: a call that names a
    column the table does not have returns None and does not raise. *)
Lemma missing_column_gives_None df :
  (∀ c, has_column c df = false →
        get_descriptive_statistics df c = Return None) ∧
  (∀ group_col value_col g1 g2,
     has_column group_col df = false ∨ has_column value_col df = false →
     perform_t_test df group_col value_col g1 g2 = Return None) ∧
  (∀ col1 col2 method,
     has_column col1 df = false ∨ has_column col2 df = false →
     calculate_correlation df col1 col2 method = Return None).
Proof.
  split; [|split].
  - intros c Hc. unfold get_descriptive_statistics. by rewrite Hc.
  - intros gc vc g1 g2 Hc. unfold perform_t_test.
    destruct Hc as [-> | ->]; [done|]. by rewrite orb_true_r.
  - intros c1 c2 m Hc. unfold calculate_correlation.
    destruct Hc as [-> | ->]; [done|]. by rewrite orb_true_r.
Qed.

(** None of the three raises, whatever the table and the arguments. *)
Lemma analysis_never_raises df :
  (∀ c, ∃ r, get_descriptive_statistics df c = Return r) ∧
  (∀ gc vc g1 g2, ∃ r, perform_t_test df gc vc g1 g2 = Return r) ∧
  (∀ c1 c2 m, ∃ r, calculate_correlation df c1 c2 m = Return r).
Proof.
  split; [|split].
  - intros c. unfold get_descriptive_statistics.
    destruct (_ || _); [eauto|]. destruct (describe _); simpl; eauto.
  - intros gc vc g1 g2. unfold perform_t_test.
    destruct (_ || _); [eauto|]. destruct (negb _); [eauto|].
    simpl. destruct (_ || _); simpl; eauto.
  - intros c1 c2 m. unfold calculate_correlation.
    destruct (_ || _); [eauto|]. destruct (_ || _); [eauto|].
    destruct (corr _ _ _); simpl; eauto.
Qed.
End analyzer_facts.

Section aggregate_facts.
Import pd StatisticalAnalyzer.

Lemma aggregate_by_time_missing_column df time_col value_col f g :
  has_column time_col df = false ∨ has_column value_col df = false →
  aggregate_by_time df time_col value_col f g = Return empty_frame.
Proof.
  intros Hc. unfold aggregate_by_time.
  destruct Hc as [-> | ->]; [done|]. by rewrite orb_true_r.
Qed.

Lemma aggregate_by_time_never_raises df time_col value_col f g :
  ∃ r, aggregate_by_time df time_col value_col f g = Return r.
Proof.
  unfold aggregate_by_time.
  destruct (_ || _); [eauto|]. destruct (negb _); [eauto|].
  destruct (negb _); [eauto|].
  destruct g; cbv zeta; try destruct (negb _); simpl; eauto.
Qed.

(** C6.  For a table missing a column named by the call, each
    analysis function returns its sentinel and does not raise: None
    for [get_descriptive_statistics], [perform_t_test] and
    [calculate_correlation], the empty table for [aggregate_by_time]. *)
Theorem missing_column_gives_sentinel `{Statistics} df :
  (∀ c, has_column c df = false →
        get_descriptive_statistics df c = Return None) ∧
  (∀ group_col value_col g1 g2,
     has_column group_col df = false ∨ has_column value_col df = false →
     perform_t_test df group_col value_col g1 g2 = Return None) ∧
  (∀ col1 col2 method,
     has_column col1 df = false ∨ has_column col2 df = false →
     calculate_correlation df col1 col2 method = Return None) ∧
  (∀ time_col value_col f g,
     has_column time_col df = false ∨ has_column value_col df = false →
     aggregate_by_time df time_col value_col f g = Return empty_frame).
Proof.
  destruct (missing_column_gives_None df) as (H1 & H2 & H3).
  repeat split; auto using aggregate_by_time_missing_column.
Qed.
End aggregate_facts.


(** On the self-test table the snowy and the rainy rows are two each:
    the test is computed; a single sunny row is not enough. *)
Example perform_t_test_on_self_test :
  StatisticalAnalyzer.perform_t_test Samples.df_merged
    "weather_condition" "delay_minutes" (Samples.str "snowy")
    (Samples.str "rainy") = Return (Some (tt, tt)) ∧
  StatisticalAnalyzer.perform_t_test Samples.df_merged
    "weather_condition" "delay_minutes" (Samples.str "snowy")
    (Samples.str "sunny") = Return None.
Proof. split; vm_compute; reflexivity. Qed.

Lemma missing_column_gives_sentinel_witness :
  (∀ c, pd.has_column c Samples.df_merged = false →
        StatisticalAnalyzer.get_descriptive_statistics Samples.df_merged c
          = Return None) ∧
  (∀ group_col value_col g1 g2,
     pd.has_column group_col Samples.df_merged = false ∨
     pd.has_column value_col Samples.df_merged = false →
     StatisticalAnalyzer.perform_t_test Samples.df_merged
       group_col value_col g1 g2 = Return None) ∧
  (∀ col1 col2 method,
     pd.has_column col1 Samples.df_merged = false ∨
     pd.has_column col2 Samples.df_merged = false →
     StatisticalAnalyzer.calculate_correlation Samples.df_merged
       col1 col2 method = Return None) ∧
  (∀ time_col value_col f g,
     pd.has_column time_col Samples.df_merged = false ∨
     pd.has_column value_col Samples.df_merged = false →
     StatisticalAnalyzer.aggregate_by_time Samples.df_merged
       time_col value_col f g = Return pd.empty_frame).
Proof. apply (missing_column_gives_sentinel Samples.df_merged). Defined.

(** The self-test table has no column [wind_speed]: every analysis that
    names it answers with its sentinel. *)
Example missing_wind_speed :
  pd.has_column "wind_speed" Samples.df_merged = false ∧
  StatisticalAnalyzer.get_descriptive_statistics Samples.df_merged "wind_speed"
    = Return None ∧
  StatisticalAnalyzer.perform_t_test Samples.df_merged "weather_condition"
    "wind_speed" (Samples.str "snowy") (Samples.str "rainy") = Return None ∧
  StatisticalAnalyzer.calculate_correlation Samples.df_merged "delay_minutes"
    "wind_speed" "pearson" = Return None ∧
  StatisticalAnalyzer.aggregate_by_time Samples.df_merged "scheduled_time"
    "wind_speed" StatisticalAnalyzer.D
    (StatisticalAnalyzer.AggStr StatisticalAnalyzer.agg_mean)
    = Return pd.empty_frame.
Proof. repeat split; vm_compute; reflexivity. Qed.

(** C5.  On the six rows of the analyzer's self-test, daily means of
    [delay_minutes] by [scheduled_time]: one row for each of 2023-01-15,
    2023-01-16 and 2023-01-17, with the means 2.5, 7.5 and 7.5. *)
Theorem aggregate_by_time_daily_mean_self_test :
  StatisticalAnalyzer.aggregate_by_time Samples.df_merged
    "scheduled_time" "delay_minutes" StatisticalAnalyzer.D
    (StatisticalAnalyzer.AggStr StatisticalAnalyzer.agg_mean)
  = Return
      {| pd.index_name := Some "scheduled_time";
         pd.columns := [("delay_minutes", pd.Numeric)];
         pd.rows :=
           [ {[ "scheduled_time" :=
                  pd.Time (Reading.days_from_civil 2023 1 15 * pd.ns_per_day);
                "delay_minutes" := pd.Num (Q2Qc (Qmake 5 2)) ]};
             {[ "scheduled_time" :=
                  pd.Time (Reading.days_from_civil 2023 1 16 * pd.ns_per_day);
                "delay_minutes" := pd.Num (Q2Qc (Qmake 15 2)) ]};
             {[ "scheduled_time" :=
                  pd.Time (Reading.days_from_civil 2023 1 17 * pd.ns_per_day);
                "delay_minutes" := pd.Num (Q2Qc (Qmake 15 2)) ]} ] |}.
Proof. vm_compute. reflexivity. Qed.

(** ** Geometry tables *)

Section outcome_lists.
Context {A B : Type}.

Lemma mapM_Return (f : A → outcome B) (g : A → B) (l : list A) :
  (∀ x, x ∈ l → f x = Return (g x)) → mapM f l = Return (g <$> l).
Proof.
  induction l as [|x l IH]; intros Hf; [done|].
  cbn [mapM]. rewrite Hf by (apply elem_of_cons; by left).
  rewrite IH; [done|]. intros y Hy. apply Hf, elem_of_cons. by right.
Qed.
End outcome_lists.

Section spatial_facts.
Import pd gpd SpatialProcessor.
Context `{Geodesy}.

(** C9, as amended.  For a table that has the latitude and longitude
    columns, whose cells there are numbers or null, and a reference
    system the library accepts, [create_gdf_from_points] returns a
    geometry table tagged with that system, made of exactly the rows
    whose latitude and longitude are both non-null, each with a point
    whose x is the longitude and whose y is the latitude of the row. *)
Theorem create_gdf_from_points_numeric df lat_col lon_col crs_ tag :
  has_column lat_col df = true →
  has_column lon_col df = true →
  crs_from_user_input crs_ = Some tag →
  numeric_coordinates lat_col lon_col df = true →
  ∃ gdf,
    create_gdf_from_points df lat_col lon_col crs_ = Return (Some gdf) ∧
    crs gdf = Some tag ∧
    Forall2 (λ r0 r, ∃ x y, r0 !! lon_col = Some (Num x) ∧
                            r0 !! lat_col = Some (Num y) ∧
                            r = <["geometry" := Point x y]> r0)
            (filter (λ r, notna_all [lat_col; lon_col] r) (rows df))
            (rows (frame gdf)).
Proof.
  intros Hlat Hlon Hcrs Hnum.
  set (kept := filter (λ r, notna_all [lat_col; lon_col] r) (rows df)).
  assert (Hkept : ∀ r, r ∈ kept →
            ∃ x y, r !! lon_col = Some (Num x) ∧ r !! lat_col = Some (Num y)).
  { intros r [Hna Hr]%list_elem_of_filter.
    apply Is_true_true in Hna.
    pose proof (proj1 (notna_all_spec _ _) Hna) as Hall. clear Hna.
    rename Hall into Hna.
    destruct (r !! lat_col) as [vy|] eqn:Ey;
      [|by destruct (Hna lat_col); [apply elem_of_cons; left|]].
    destruct (r !! lon_col) as [vx|] eqn:Ex;
      [|by destruct (Hna lon_col);
           [apply elem_of_cons; right; apply elem_of_cons; left|]].
    unfold numeric_coordinates in Hnum. rewrite forallb_forall in Hnum.
    specialize (Hnum r (proj1 (list_elem_of_In _ _) Hr)).
    rewrite Ex, Ey in Hnum.
    destruct vx, vy; try discriminate. eauto. }
  eexists. split.
  - unfold create_gdf_from_points. rewrite Hlat, Hlon. cbn [negb orb].
    unfold dropna_subset. cbn [rows]. fold kept.
    rewrite (mapM_Return _ (point_of lat_col lon_col)).
    + unfold GeoDataFrame_. rewrite Hcrs. reflexivity.
    + intros r (x & y & Ex & Ey)%Hkept.
      unfold point_of. rewrite Ex, Ey. reflexivity.
  - cbn [crs frame rows]. split; [done|].
    rewrite zip_with_fmap_r, zip_with_diag.
    apply Forall2_fmap_r, Forall_Forall2_diag, Forall_forall.
    intros r (x & y & Ex & Ey)%Hkept. exists x, y.
    unfold compose, point_of. by rewrite Ex, Ey.
Qed.


End spatial_facts.

Lemma create_gdf_from_points_numeric_witness :
  ∃ gdf,
    SpatialProcessor.create_gdf_from_points
      (pd.from_records Samples.station_data) "latitude" "longitude" "EPSG:4326"
      = Return (Some gdf) ∧
    gpd.crs gdf = Some "EPSG:4326" ∧
    Forall2 (λ r0 r, ∃ x y, r0 !! "longitude" = Some (pd.Num x) ∧
                            r0 !! "latitude" = Some (pd.Num y) ∧
                            r = <["geometry" := pd.Point x y]> r0)
            (filter (λ r, pd.notna_all ["latitude"; "longitude"] r)
                    (pd.rows (pd.from_records Samples.station_data)))
            (pd.rows (gpd.frame gdf)).
Proof.
  apply (create_gdf_from_points_numeric (pd.from_records Samples.station_data)
           "latitude" "longitude" "EPSG:4326" "EPSG:4326").
  - reflexivity.
  - reflexivity.
  - reflexivity.
  - vm_compute. reflexivity.
Defined.

(** Of the five stations of spatial_processor.py the one without
    coordinates is left out. *)
Example create_gdf_from_points_sample :
  ∃ gdf,
    SpatialProcessor.create_gdf_from_points
      (pd.from_records Samples.station_data) "latitude" "longitude" "EPSG:4326"
      = Return (Some gdf) ∧
    pd.len (pd.from_records Samples.station_data) = 5%nat ∧
    pd.len (gpd.frame gdf) = 4%nat.
Proof. eexists. split; [vm_compute; reflexivity|]. split; reflexivity. Qed.

(** C9 as stated fails: the table [station_with_text] has both
    columns, its row has a latitude and a longitude, and the function
    returns None, no geometry table: the latitude is a word. *)
Lemma create_gdf_from_points_text_latitude :
  pd.has_column "latitude" (pd.from_records Inputs.station_with_text) = true ∧
  pd.has_column "longitude" (pd.from_records Inputs.station_with_text) = true ∧
  SpatialProcessor.create_gdf_from_points
    (pd.from_records Inputs.station_with_text) "latitude" "longitude" "EPSG:4326"
    = Return None.
Proof. repeat split; vm_compute; reflexivity. Qed.



(** ** The pipeline *)

Section traces.
Context (P : string → Prop).

Lemma prints_only_ret {A} (a : A) : prints_only P (mret a).
Proof.
  intros w o w' [= <- <-]. exists []. by rewrite app_nil_r.
Qed.

Lemma prints_only_raise {A} e : prints_only P (raise (A := A) e).
Proof.
  intros w o w' [= <- <-]. exists []. by rewrite app_nil_r.
Qed.

Lemma prints_only_lift {A} (o : outcome A) : prints_only P (lift o).
Proof.
  intros w o' w' [= <- <-]. exists []. by rewrite app_nil_r.
Qed.

Lemma prints_only_print s : P s → prints_only P (print s).
Proof.
  intros Hs w o w' [= <- <-]. exists [s]. split; [done|].
  by apply Forall_singleton.
Qed.

Lemma prints_only_deref r : prints_only P (deref r).
Proof.
  intros w o w' [= <- <-]. exists []. by rewrite app_nil_r.
Qed.

Lemma prints_only_mutate r f : prints_only P (mutate r f).
Proof.
  intros w o w' [= <- <-]. exists []. by rewrite app_nil_r.
Qed.

Lemma prints_only_alloc df : prints_only P (alloc df).
Proof.
  intros w o w' [= <- <-]. exists []. by rewrite app_nil_r.
Qed.

Lemma prints_only_write_file path c : prints_only P (write_file path c).
Proof.
  intros w o w'. unfold write_file.
  destruct (writable w path); intros [= <- <-];
    exists []; by rewrite app_nil_r.
Qed.

Lemma prints_only_bind {A B} (m : M A) (k : A → M B) :
  prints_only P m → (∀ a, prints_only P (k a)) → prints_only P (m ≫= k).
Proof.
  intros Hm Hk w o w'. unfold mbind, M_bind, bind.
  destruct (m w) as [[a|e] w1] eqn:Em.
  - intros Ek. destruct (Hm _ _ _ Em) as (out1 & E1 & F1).
    destruct (Hk a _ _ _ Ek) as (out2 & E2 & F2).
    exists (out1 ++ out2)%list. rewrite E2, E1, app_assoc.
    split; [done | by apply Forall_app].
  - intros [= <- <-]. eauto.
Qed.

(** what follows a computation that never returns does not matter *)
Lemma prints_only_bind_raises {A B} (m : M A) (k : A → M B) :
  prints_only P m → always_raises m → prints_only P (m ≫= k).
Proof.
  intros Hm Hr w o w'. unfold mbind, M_bind, bind.
  destruct (Hr w) as (e & w1 & Em). rewrite Em. intros [= <- <-]. eauto.
Qed.

Lemma prints_only_try_catch {A} c (m : M A) h :
  prints_only P m → (∀ e, prints_only P (h e)) →
  prints_only P (try_catch c m h).
Proof.
  intros Hm Hh w o w'. unfold try_catch.
  destruct (m w) as [[a|e] w1] eqn:Em.
  - intros [= <- <-]. eauto.
  - destruct (c e).
    + intros Eh. destruct (Hm _ _ _ Em) as (out1 & E1 & F1).
      destruct (Hh e _ _ _ Eh) as (out2 & E2 & F2).
      exists (out1 ++ out2)%list. rewrite E2, E1, app_assoc.
      split; [done | by apply Forall_app].
    + intros [= <- <-]. eauto.
Qed.

Lemma prints_only_when b m : prints_only P m → prints_only P (when b m).
Proof. destruct b; [done | intros _; apply prints_only_ret]. Qed.

Lemma always_raises_bind_l {A B} (m : M A) (k : A → M B) :
  always_raises m → always_raises (m ≫= k).
Proof.
  intros Hm w. destruct (Hm w) as (e & w' & Em).
  exists e, w'. unfold mbind, M_bind, bind. by rewrite Em.
Qed.

Lemma always_raises_bind_r {A B} (m : M A) (k : A → M B) :
  (∀ a, always_raises (k a)) → always_raises (m ≫= k).
Proof.
  intros Hk w. unfold mbind, M_bind, bind.
  destruct (m w) as [[a|e] w1]; [apply Hk | eauto].
Qed.
End traces.

Create HintDb trace.
#[local] Hint Resolve prints_only_ret prints_only_raise prints_only_lift
  prints_only_deref prints_only_mutate prints_only_alloc
  prints_only_write_file prints_only_when prints_only_try_catch : trace.

(** one step through a computation built from the operations above;
    prints are accepted when their line differs from the banner at hand *)
Ltac trace_step :=
  first
    [ solve [auto with trace]
    | apply prints_only_print; discriminate
    | apply prints_only_try_catch; [|intros ?]
    | apply prints_only_when
    | apply prints_only_bind; [|intros ?]
    | match goal with
      | |- prints_only _ (if ?b then _ else _) => destruct b
      | |- prints_only _ (match ?o with Some _ => _ | None => _ end) =>
          destruct o
      end ].
Ltac trace := repeat trace_step.

Section pipeline_facts.
Import pd DataCleaner StatisticalAnalyzer Plotter SpatialProcessor Main.
Context `{Conversions, Statistics, Geodesy, Rendering}.

Abbreviation quiet := (prints_only (λ s, s ≠ banner_phase5)).

(** [plot_correlation_heatmap] never returns: it looks up [np] *)
Lemma plot_correlation_heatmap_raises df columns_ :
  always_raises (plot_correlation_heatmap df columns_).
Proof.
  unfold plot_correlation_heatmap. apply always_raises_bind_l.
  destruct columns_ as [[|c cs]|].
  - apply always_raises_bind_l. intros w. by eexists _, _.
  - apply always_raises_bind_r. intros selected.
    apply always_raises_bind_l. intros w. by eexists _, _.
  - apply always_raises_bind_l. intros w. by eexists _, _.
Qed.

Lemma plot_correlation_heatmap_quiet df columns_ :
  quiet (plot_correlation_heatmap df columns_).
Proof.
  unfold plot_correlation_heatmap, np.
  destruct columns_ as [[|c cs]|]; trace.
Qed.

(** hence neither does Phase 4 *)
Lemma visualize_raises merged_df : always_raises (visualize merged_df).
Proof.
  unfold visualize.
  do 4 (apply always_raises_bind_r; intros ?).
  apply always_raises_bind_l, plot_correlation_heatmap_raises.
Qed.

Lemma acquire_quiet : quiet acquire.
Proof. unfold acquire. cbn [foldr seq]. trace. Qed.

Lemma clean_train_delays_quiet df : quiet (clean_train_delays df).
Proof. unfold clean_train_delays. trace. Qed.

Lemma clean_weather_data_quiet df : quiet (clean_weather_data df).
Proof. unfold clean_weather_data. trace. Qed.

Lemma clean_and_merge_quiet train_records weather_records :
  quiet (clean_and_merge train_records weather_records).
Proof.
  unfold clean_and_merge, copy.
  pose proof clean_train_delays_quiet. pose proof clean_weather_data_quiet.
  trace; auto.
Qed.

Lemma analyze_quiet merged_df : quiet (analyze merged_df).
Proof. unfold analyze. trace. Qed.

Lemma visualize_quiet merged_df : quiet (visualize merged_df).
Proof.
  unfold visualize, plot_delay_distribution, plot_time_series,
    plot_category_vs_delay.
  pose proof plot_correlation_heatmap_quiet.
  trace; auto.
Qed.

Lemma after_merge_quiet merged_df : quiet (after_merge merged_df).
Proof.
  unfold after_merge, to_csv.
  apply prints_only_bind; [auto with trace|]. intros m.
  destruct (negb (empty m)); [|trace].
  do 3 (apply prints_only_bind; [trace|]; intros ?).
  apply prints_only_bind; [apply analyze_quiet|]. intros ?.
  apply prints_only_bind_raises;
    [apply visualize_quiet | apply visualize_raises].
Qed.

(** C8, what the code does where the claim says that every later
    phase is reached.  Whatever the two sample tables, the libraries and
    the world, a run of the pipeline never prints the banner of Phase 5:
    when the merged table is not empty the run is ended by the NameError
    of [plot_correlation_heatmap] in Phase 4 (or by an earlier
    exception), before the geo export starts. *)
Theorem run_pipeline_never_reaches_export_geo train_records weather_records w :
  ∃ o w' out,
    run_pipeline_on train_records weather_records w = (o, w') ∧
    stdout w' = (stdout w ++ out)%list ∧
    banner_phase5 ∉ out.
Proof.
  assert (Hq : quiet (run_pipeline_on train_records weather_records)).
  { unfold run_pipeline_on.
    apply prints_only_bind; [apply acquire_quiet|]. intros _.
    apply prints_only_bind; [apply clean_and_merge_quiet|]. intros r.
    apply after_merge_quiet. }
  destruct (run_pipeline_on train_records weather_records w) as [o w'] eqn:E.
  destruct (Hq _ _ _ E) as (out & Eout & Hout).
  exists o, w', out. split; [done|]. split; [done|].
  rewrite Forall_forall in Hout. intros Hin. by apply (Hout _ Hin).
Qed.

(** The hard stop: when the merged table is empty the run prints the
    error line and returns; nothing else happens. *)
Lemma after_merge_empty_stops merged_df w m :
  heap w !! merged_df = Some m → empty m = true →
  after_merge merged_df w
  = (Return tt, {| heap := heap w; files := files w; writable := writable w;
                   stdout := stdout w ++ [line_merged_empty] |}).
Proof.
  intros Hm He. unfold after_merge.
  erewrite run_bind; cycle 1.
  { unfold deref. by rewrite (lookup_total_correct _ _ _ Hm). }
  rewrite He. reflexivity.
Qed.

(** When it is not empty the run does not return: it ends with an
    exception, at the latest the NameError of Phase 4. *)
Lemma after_merge_nonempty_raises merged_df w m :
  heap w !! merged_df = Some m → empty m = false →
  ∃ e w', after_merge merged_df w = (Raise e, w').
Proof.
  intros Hm He. unfold after_merge.
  erewrite run_bind; cycle 1.
  { unfold deref. by rewrite (lookup_total_correct _ _ _ Hm). }
  rewrite He. cbn [negb].
  do 4 (apply always_raises_bind_r; intros ?).
  apply always_raises_bind_l, visualize_raises.
Qed.
End pipeline_facts.

(** The run of [run_pipeline] as written, in a world where every path
    can be written: it ends in Phase 4 with the NameError. *)
Example run_pipeline_ends_in_phase4 :
  (Main.run_pipeline Samples.fresh_world).1 = Raise (NameError "np") ∧
  stdout (Main.run_pipeline Samples.fresh_world).2
  = [ Main.banner_start; Main.banner_phase1;
      Main.line_no_api_key; Main.line_no_api_key;
      Main.line_no_api_key; Main.line_no_api_key;
      Main.banner_phase2;
      "Merged data head:";
      "Processed data saved to data/processed/final_merged_data.csv";
      Main.banner_phase3;
      "Descriptive statistics for 'delay_minutes':";
      Main.banner_phase4 ].
Proof. split; vm_compute; reflexivity. Qed.

(** * Further properties of the code *)

(** ** The rows of the cleaned delay table *)

(** ** More on the cleaner: where the rows of the result come from *)

Section row_facts.
Import pd DataCleaner CleanedRows.
Context `{Conversions}.

Lemma lookup_convert_row d c f (r : row) c' :
  convert_row d c f r !! c'
  = if decide (c = c') then (if has_column c d then f (r !! c) else r !! c)
    else r !! c'.
Proof.
  unfold convert_row. case_decide as Hc.
  - subst. destruct (has_column c' d); [apply lookup_set_cell_eq | done].
  - destruct (has_column c d); [by apply lookup_set_cell_ne | done].
Qed.

Lemma rows_train_delays_converted d :
  rows (train_delays_converted d) = train_row d <$> rows d.
Proof.
  unfold train_delays_converted, train_row.
  rewrite !rows_convert, <- !list_fmap_compose.
  apply list_fmap_ext. intros _ r _. simpl.
  repeat (erewrite convert_row_ext; [f_equal | by rewrite ?labels_convert]).
Qed.


Lemma lookup_train_row_delay d (r : row) :
  has_column "delay_minutes" d = true →
  train_row d r !! "delay_minutes"
  = fillna (Num (Qc_of_Z 0)) (to_numeric (r !! "delay_minutes")).
Proof.
  intros Hd. unfold train_row. rewrite !lookup_convert_row, Hd.
  repeat case_decide; done.
Qed.

Lemma lookup_train_row_scheduled d (r : row) :
  has_column "scheduled_time" d = true →
  train_row d r !! "scheduled_time" = to_datetime (r !! "scheduled_time").
Proof.
  intros Hd. unfold train_row. rewrite !lookup_convert_row, Hd.
  repeat case_decide; done.
Qed.

Lemma lookup_derived_row_hour (r : row) :
  derived_row r !! "hour_of_day" = dt_hour (r !! "scheduled_time").
Proof.
  unfold derived_row. rewrite lookup_set_cell_eq.
  by rewrite lookup_set_cell_ne.
Qed.


(** the rows of the cleaned table, from those left by the removal of
    duplicates *)
Lemma rows_train_delays_table d :
  rows (train_delays_table d)
  = (if has_column "scheduled_time" d then derived_row else id)
    <$> rows (drop_duplicates (train_delays_converted d)).
Proof.
  unfold train_delays_table, apply_if. cbv zeta.
  rewrite has_column_deduplicated.
  destruct (has_column "scheduled_time" d);
    [apply rows_derive_fields | by rewrite list_fmap_id].
Qed.






Lemma labels_set_dtype_cases c dt cols :
  (set_dtype c dt cols).*1 = cols.*1 ∨ (set_dtype c dt cols).*1 = (cols.*1 ++ [c])%list.
Proof.
  induction cols as [|[a b] cols IH]; [by right|].
  cbn [set_dtype]. case_decide; subst; rewrite !fmap_cons; cbn [fst]; [by left|].
  destruct IH as [IH|IH]; rewrite IH; [by left | by right].
Qed.

Lemma labels_setitem_grow c dt s d :
  labels d `prefix_of` labels (setitem c dt s d) ∧
  ∀ c', c' ∈ labels (setitem c dt s d) → c' ∈ labels d ∨ c' = c.
Proof.
  unfold labels, setitem. cbn [columns].
  destruct (labels_set_dtype_cases c dt (columns d)) as [E|E]; rewrite E.
  - split; [done | by left].
  - split; [by eexists|].
    intros c' [?|?%list_elem_of_singleton]%elem_of_app; [by left | by right].
Qed.

Lemma labels_derive_fields d :
  labels d `prefix_of` labels (derive_fields d) ∧
  ∀ c, c ∈ labels (derive_fields d) →
       c ∈ labels d ∨ c = "day_of_week" ∨ c = "hour_of_day".
Proof.
  unfold derive_fields.
  set (d1 := setitem "day_of_week" Numeric _ d).
  destruct (labels_setitem_grow "day_of_week" Numeric
              (dt_dayofweek ∘ getitem "scheduled_time") d) as [P1 M1].
  destruct (labels_setitem_grow "hour_of_day" Numeric
              (dt_hour ∘ getitem "scheduled_time") d1) as [P2 M2].
  split; [by etrans|].
  intros c [Hc| ->]%M2; [|by right; right].
  apply M1 in Hc as [?| ->]; [by left | by right; left].
Qed.

Lemma labels_train_delays_table d :
  labels (train_delays_table d)
  = if has_column "scheduled_time" d
    then labels (derive_fields (drop_duplicates (train_delays_converted d)))
    else labels d.
Proof.
  unfold train_delays_table, apply_if. cbv zeta.
  rewrite has_column_deduplicated.
  destruct (has_column "scheduled_time" d); [done|].
  by rewrite labels_drop_duplicates, labels_train_delays_converted.
Qed.
End row_facts.

Section train_rows.
Import pd DataCleaner CleanedRows.
Context `{Conversions}.




(** X4.  With a [scheduled_time] column, every row of the result whose
    scheduled time is null has a null [day_of_week] and [hour_of_day],
    and every row whose scheduled time is a timestamp has the hour of
    that timestamp, between 0 and 23, as its [hour_of_day]. *)
Theorem clean_train_delays_hour_of_day w df raw :
  heap w !! df = Some raw →
  has_column "scheduled_time" raw = true →
  ∃ out w',
    clean_train_delays df w = (Return df, w') ∧
    heap w' !! df = Some out ∧
    ∀ r, r ∈ rows out →
      (r !! "scheduled_time" = None →
       r !! "day_of_week" = None ∧ r !! "hour_of_day" = None) ∧
      (∀ t, r !! "scheduled_time" = Some (Time t) →
            r !! "hour_of_day" = Some (Num (Qc_of_Z (hour t))) ∧
            0 ≤ hour t ≤ 23).
Proof.
  intros Hdf Hs.
  exists (train_delays_table raw),
         (set_heap w (<[df := train_delays_table raw]> (heap w))).
  split; [by apply clean_train_delays_run|].
  split; [apply lookup_insert_eq|].
  intros r. rewrite rows_train_delays_table, Hs.
  intros (r1 & -> & _)%list_elem_of_fmap.
  rewrite derived_row_other, derived_row_day_of_week,
    lookup_derived_row_hour by done.
  split.
  - by intros ->.
  - intros t ->. split; [done | apply hour_range].
Qed.
End train_rows.

(** ** Cleaning twice *)

Section fixed_points.
Import pd DataCleaner CleanedRows.
Context `{Conversions}.

Lemma set_cell_id c (r : row) : set_cell c (r !! c) r = r.
Proof.
  destruct (r !! c) eqn:E; simpl; [by apply insert_id | by apply delete_id].
Qed.

Lemma to_numeric_idem v : to_numeric (to_numeric v) = to_numeric v.
Proof.
  destruct v as [[q|s|t|x y]|]; simpl; try done.
  by destruct (parse_numeric s).
Qed.

Lemma to_datetime_idem v : to_datetime (to_datetime v) = to_datetime v.
Proof.
  destruct v as [[q|s|t|x y]|]; simpl; try done.
  - by destruct (datetime_of_num q).
  - by destruct (parse_datetime s).
Qed.

Lemma fillna_idem x v : fillna x (fillna x v) = fillna x v.
Proof. by destruct v. Qed.

Lemma assoc_dtype_set_dtype c c' dt cols :
  assoc_dtype c' (set_dtype c dt cols)
  = if decide (c = c') then Some dt else assoc_dtype c' cols.
Proof.
  induction cols as [|[a b] cols IH]; simpl.
  - repeat case_decide; congruence.
  - repeat (case_decide; simpl); try congruence.
Qed.

Lemma set_dtype_same c dt cols :
  assoc_dtype c cols = Some dt → set_dtype c dt cols = cols.
Proof.
  induction cols as [|[a b] cols IH]; simpl; [done|].
  case_decide; [by intros [= ->]; subst | intros ?; f_equal; auto].
Qed.

(** a conversion that finds its column already converted changes
    nothing *)
Lemma convert_id c dt f d :
  (has_column c d = true → dtype_of c d = Some dt) →
  (has_column c d = true → Forall (λ r : row, f (r !! c) = r !! c) (rows d)) →
  convert c dt f d = d.
Proof.
  intros Hdt Hrows. unfold convert, apply_if.
  destruct (has_column c d); [|done].
  unfold setitem. rewrite (set_dtype_same _ _ _ (Hdt eq_refl)).
  replace ((λ r : row, set_cell c ((f ∘ getitem c) r) r) <$> rows d)
    with (rows d); [by destruct d|].
  rewrite <- (list_fmap_id (rows d)) at 1.
  apply Forall_fmap_ext_1. eapply Forall_impl; [exact (Hrows eq_refl)|].
  intros r Hr. unfold compose, getitem. simpl. by rewrite Hr, set_cell_id.
Qed.

Lemma dtype_of_convert c' c dt f d :
  dtype_of c' (convert c dt f d)
  = if has_column c d then (if decide (c = c') then Some dt else dtype_of c' d)
    else dtype_of c' d.
Proof.
  unfold convert, apply_if. destruct (has_column c d); [|done].
  apply assoc_dtype_set_dtype.
Qed.

Lemma dropna_idem d : dropna (dropna d) = dropna d.
Proof.
  unfold dropna. cbn [labels columns rows index_name]. f_equal.
  apply list_filter_filter_l. intros r. done.
Qed.

Lemma has_column_weather_table c d :
  has_column c (weather_table d) = has_column c d.
Proof.
  unfold has_column, weather_table, dropna, labels. cbn [columns].
  fold (labels (weather_converted d)). by rewrite labels_weather_converted.
Qed.

Lemma dtype_of_weather_table c d :
  dtype_of c (weather_table d) = dtype_of c (weather_converted d).
Proof. done. Qed.

Lemma rows_weather_table_from d r :
  r ∈ rows (weather_table d) → ∃ r0, r0 ∈ rows d ∧ r = weather_row d r0.
Proof.
  unfold weather_table, dropna. cbn [rows].
  intros [_ Hr]%list_elem_of_filter.
  rewrite rows_weather_converted in Hr.
  apply list_elem_of_fmap in Hr as (r0 & -> & Hr0). eauto.
Qed.

(** a column converted once is a fixed point of its conversion *)
Lemma weather_table_fixed c dt f d :
  (c, dt, f) ∈ [("temperature", Numeric, to_numeric);
                ("humidity", Numeric, to_numeric);
                ("wind_speed", Numeric, to_numeric);
                ("precipitation", Numeric, to_numeric);
                ("date", Datetime, to_datetime)] →
  convert c dt f (weather_table d) = weather_table d.
Proof.
  intros Hc. apply convert_id.
  - rewrite has_column_weather_table, dtype_of_weather_table. intros Hhas.
    unfold weather_converted.
    rewrite !dtype_of_convert, !has_column_convert.
    repeat (apply elem_of_cons in Hc as [[= -> -> ->]|Hc];
            [rewrite Hhas; repeat case_decide; try done;
             repeat match goal with |- context [has_column ?x d] =>
                      destruct (has_column x d) end; done|]).
    by apply elem_of_nil in Hc.
  - rewrite has_column_weather_table. intros Hhas.
    apply Forall_forall. intros r (r0 & _ & ->)%rows_weather_table_from.
    unfold weather_row. rewrite !lookup_convert_row.
    repeat (apply elem_of_cons in Hc as [[= -> -> ->]|Hc];
            [rewrite Hhas; repeat case_decide; try done;
             by rewrite ?to_numeric_idem, ?to_datetime_idem|]).
    by apply elem_of_nil in Hc.
Qed.

Lemma weather_table_idem d : weather_table (weather_table d) = weather_table d.
Proof.
  unfold weather_table at 1. unfold weather_converted.
  rewrite !weather_table_fixed.
  - unfold weather_table. apply dropna_idem.
  - repeat first [apply elem_of_cons; by left | apply elem_of_cons; right].
  - repeat first [apply elem_of_cons; by left | apply elem_of_cons; right].
  - repeat first [apply elem_of_cons; by left | apply elem_of_cons; right].
  - repeat first [apply elem_of_cons; by left | apply elem_of_cons; right].
  - repeat first [apply elem_of_cons; by left | apply elem_of_cons; right].
Qed.

(** X6.  Cleaning a weather table that is already clean changes
    nothing: running [clean_weather_data] twice on the same object
    leaves the world that running it once leaves. *)
Theorem clean_weather_data_twice w df raw :
  heap w !! df = Some raw →
  (clean_weather_data df ≫= clean_weather_data) w = clean_weather_data df w.
Proof.
  intros Hdf. rewrite (clean_weather_data_run w df raw Hdf).
  erewrite run_bind; [|by apply clean_weather_data_run].
  erewrite clean_weather_data_run; [|apply lookup_insert_eq].
  unfold set_heap. cbn [heap files writable stdout].
  by rewrite insert_insert_eq, weather_table_idem.
Qed.
End fixed_points.

Section train_fixed_point.
Import pd DataCleaner CleanedRows.
Context `{Conversions}.

Lemma keep_first_distinct_id cols seen l :
  (∀ r s, r ∈ l → s ∈ seen → same_row cols r s = false) →
  (∀ i j ri rj, (i < j)%nat → l !! i = Some ri → l !! j = Some rj →
                same_row cols ri rj = false) →
  keep_first cols seen l = l.
Proof.
  revert seen. induction l as [|a l IH]; intros seen Hseen Hpair; [done|].
  simpl. destruct (existsb (same_row cols a) seen) eqn:Hex.
  - apply existsb_exists in Hex as (s & Hs & Hsame).
    rewrite Hseen in Hsame; [done | apply elem_of_cons; by left |].
    by apply list_elem_of_In.
  - f_equal. apply IH.
    + intros r s Hr [->|Hs]%elem_of_cons.
      * apply list_elem_of_lookup_1 in Hr as [j Hj].
        rewrite same_row_sym. by apply (Hpair 0%nat (S j)); [lia|..].
      * apply Hseen; [apply elem_of_cons; by right | done].
    + intros i j ri rj Hij Hi Hj. by apply (Hpair (S i) (S j)); [lia|..].
Qed.

Lemma drop_duplicates_fixed d : distinct_rows d → drop_duplicates d = d.
Proof.
  intros Hd. unfold drop_duplicates. destruct (empty d); [done|].
  rewrite keep_first_distinct_id; [by destruct d | | exact Hd].
  by intros r s _ ?%elem_of_nil.
Qed.

Lemma derived_row_idem (r : row) : derived_row (derived_row r) = derived_row r.
Proof.
  unfold derived_row at 1. cbv zeta.
  assert (E1 : dt_dayofweek (derived_row r !! "scheduled_time")
               = derived_row r !! "day_of_week").
  { by rewrite derived_row_day_of_week, derived_row_other. }
  rewrite E1, set_cell_id.
  assert (E2 : dt_hour (derived_row r !! "scheduled_time")
               = derived_row r !! "hour_of_day").
  { by rewrite lookup_derived_row_hour, derived_row_other. }
  by rewrite E2, set_cell_id.
Qed.

Lemma derive_fields_idem d : derive_fields (derive_fields d) = derive_fields d.
Proof.
  assert (Hrows : rows (derive_fields (derive_fields d)) = rows (derive_fields d)).
  { rewrite !rows_derive_fields, <- list_fmap_compose.
    apply list_fmap_ext. intros _ r _. apply derived_row_idem. }
  assert (Hcols : columns (derive_fields (derive_fields d))
                  = columns (derive_fields d)).
  { unfold derive_fields, setitem. cbn [columns].
    rewrite (set_dtype_same "day_of_week").
    - apply set_dtype_same. rewrite assoc_dtype_set_dtype. by case_decide.
    - rewrite !assoc_dtype_set_dtype. by repeat case_decide. }
  destruct (derive_fields (derive_fields d)) eqn:E1,
           (derive_fields d) eqn:E2.
  cbn in Hrows, Hcols. subst.
  f_equal.
  change (index_name (derive_fields (derive_fields d))
          = index_name (derive_fields d)) || idtac.
  apply (f_equal index_name) in E1, E2. cbn in E1, E2. congruence.
Qed.

Lemma columns_drop_duplicates d : columns (drop_duplicates d) = columns d.
Proof. unfold drop_duplicates. by destruct (empty d). Qed.

Lemma elem_of_labels_derive_fields c d :
  c ≠ "day_of_week" → c ≠ "hour_of_day" →
  c ∈ labels (derive_fields d) ↔ c ∈ labels d.
Proof.
  intros H1 H2. destruct (labels_derive_fields d) as [[k P] M]. split.
  - intros Hc. destruct (M c Hc) as [?|[?|?]]; done.
  - intros Hc. rewrite P. apply elem_of_app. by left.
Qed.

Lemma has_column_train_delays_table c d :
  c ≠ "day_of_week" → c ≠ "hour_of_day" →
  has_column c (train_delays_table d) = has_column c d.
Proof.
  intros H1 H2. unfold has_column. apply bool_decide_ext.
  rewrite labels_train_delays_table.
  destruct (has_column "scheduled_time" d); [|done].
  rewrite elem_of_labels_derive_fields by done.
  by rewrite labels_drop_duplicates, labels_train_delays_converted.
Qed.

Lemma dtype_of_train_delays_table c d :
  c ≠ "day_of_week" → c ≠ "hour_of_day" →
  dtype_of c (train_delays_table d) = dtype_of c (train_delays_converted d).
Proof.
  intros H1 H2. unfold train_delays_table, apply_if. cbv zeta.
  destruct (has_column "scheduled_time" _).
  - unfold dtype_of, derive_fields, setitem. cbn [columns].
    rewrite !assoc_dtype_set_dtype, columns_drop_duplicates.
    by repeat case_decide.
  - unfold dtype_of. by rewrite columns_drop_duplicates.
Qed.

Lemma rows_train_delays_table_from d r :
  r ∈ rows (train_delays_table d) → ∃ r0, r0 ∈ rows d ∧ r = cleaned_row d r0.
Proof.
  rewrite rows_train_delays_table.
  intros (r1 & -> & Hr1)%list_elem_of_fmap.
  apply rows_drop_duplicates_subseteq in Hr1.
  rewrite rows_train_delays_converted in Hr1.
  apply list_elem_of_fmap in Hr1 as (r0 & -> & Hr0).
  exists r0. split; [done|].
  unfold cleaned_row. by destruct (has_column "scheduled_time" d).
Qed.

Lemma lookup_cleaned_row_converted d (r : row) c :
  c ≠ "day_of_week" → c ≠ "hour_of_day" →
  cleaned_row d r !! c = train_row d r !! c.
Proof.
  intros H1 H2. unfold cleaned_row.
  destruct (has_column "scheduled_time" d); [|done].
  by apply derived_row_other.
Qed.

Lemma to_numeric_filled x :
  to_numeric (fillna (Num (Qc_of_Z 0)) (to_numeric x))
  = fillna (Num (Qc_of_Z 0)) (to_numeric x).
Proof.
  destruct x as [[q|s|t|a b]|]; simpl; try done.
  by destruct (parse_numeric s).
Qed.

Lemma lookup_train_row_actual d (r : row) :
  has_column "actual_time" d = true →
  train_row d r !! "actual_time" = to_datetime (r !! "actual_time").
Proof.
  intros Hd. unfold train_row. rewrite !lookup_convert_row, Hd.
  repeat case_decide; done.
Qed.

Lemma lookup_train_row_date d (r : row) :
  has_column "date" d = true →
  train_row d r !! "date" = to_datetime (r !! "date").
Proof.
  intros Hd. unfold train_row. rewrite !lookup_convert_row, Hd.
  repeat case_decide; done.
Qed.

Lemma cleaned_row_fixed d (r : row) c dt f :
  (c, dt, f) ∈ [("delay_minutes", Numeric, to_numeric);
                ("scheduled_time", Datetime, to_datetime);
                ("actual_time", Datetime, to_datetime);
                ("date", Datetime, to_datetime);
                ("delay_minutes", Numeric, fillna (Num (Qc_of_Z 0)))] →
  has_column c d = true →
  f (cleaned_row d r !! c) = cleaned_row d r !! c.
Proof.
  intros Hc Hhas.
  repeat (apply elem_of_cons in Hc as [[= -> -> ->]|Hc];
          [rewrite lookup_cleaned_row_converted by done;
           rewrite ?lookup_train_row_delay, ?lookup_train_row_scheduled,
                   ?lookup_train_row_actual, ?lookup_train_row_date by done;
           by rewrite ?to_numeric_filled, ?to_datetime_idem, ?fillna_idem|]).
  by apply elem_of_nil in Hc.
Qed.

(** a column converted once is a fixed point of its conversion *)
Lemma train_delays_table_fixed c dt f d :
  (c, dt, f) ∈ [("delay_minutes", Numeric, to_numeric);
                ("scheduled_time", Datetime, to_datetime);
                ("actual_time", Datetime, to_datetime);
                ("date", Datetime, to_datetime);
                ("delay_minutes", Numeric, fillna (Num (Qc_of_Z 0)))] →
  convert c dt f (train_delays_table d) = train_delays_table d.
Proof.
  intros Hc. apply convert_id.
  - intros Hhas.
    repeat (apply elem_of_cons in Hc as [[= -> -> ->]|Hc];
            [rewrite has_column_train_delays_table in Hhas by done;
             rewrite dtype_of_train_delays_table by done;
             unfold train_delays_converted;
             rewrite !dtype_of_convert, !has_column_convert, Hhas;
             repeat case_decide; try done;
             repeat match goal with |- context [has_column ?x d] =>
                      destruct (has_column x d) end; done|]).
    by apply elem_of_nil in Hc.
  - intros Hhas.
    apply Forall_forall. intros r (r0 & _ & ->)%rows_train_delays_table_from.
    apply (cleaned_row_fixed d r0 c dt f Hc).
    repeat (apply elem_of_cons in Hc as [[= -> -> ->]|Hc];
            [by rewrite has_column_train_delays_table in Hhas|]).
    by apply elem_of_nil in Hc.
Qed.

Lemma train_delays_converted_fixed d :
  train_delays_converted (train_delays_table d) = train_delays_table d.
Proof.
  unfold train_delays_converted.
  rewrite !train_delays_table_fixed; [done|..];
    repeat first [apply elem_of_cons; by left | apply elem_of_cons; right].
Qed.

Lemma train_delays_table_distinct_labelled d :
  labels d ≠ [] →
  has_column "scheduled_time" d = false ∨
    (has_column "day_of_week" d = false ∧ has_column "hour_of_day" d = false) →
  distinct_rows (train_delays_table d).
Proof.
  intros Hd Hfree.
  assert (Hdist : distinct_rows (drop_duplicates (train_delays_converted d))).
  { apply drop_duplicates_distinct. by rewrite labels_train_delays_converted. }
  unfold train_delays_table, apply_if. cbv zeta.
  rewrite has_column_deduplicated.
  destruct (has_column "scheduled_time" d) eqn:Hs; [|done].
  destruct Hfree as [|[Hdow Hhod]]; [done|].
  set (d' := drop_duplicates (train_delays_converted d)) in *.
  intros i j ri rj Hij. rewrite rows_derive_fields, !list_lookup_fmap.
  destruct (rows d' !! i) as [ri0|] eqn:Hi; [|done].
  destruct (rows d' !! j) as [rj0|] eqn:Hj; [|done].
  intros [= <-] [= <-].
  apply same_row_false.
  destruct (proj1 (same_row_false _ _ _) (Hdist i j ri0 rj0 Hij Hi Hj))
    as (c & Hc & Hne).
  assert (Hraw : c ∈ labels d).
  { subst d'. by rewrite labels_drop_duplicates,
                         labels_train_delays_converted in Hc. }
  apply has_column_false in Hdow, Hhod.
  exists c. split.
  - unfold derive_fields. by do 2 apply labels_setitem_mono.
  - rewrite !derived_row_other by (intros ->; done). done.
Qed.

Lemma convert_absent c dt f d :
  has_column c d = false → convert c dt f d = d.
Proof. intros Hc. unfold convert, apply_if. by rewrite Hc. Qed.

Lemma train_delays_table_unlabelled d :
  labels d = [] → train_delays_table d = d.
Proof.
  intros Hd.
  assert (Hno : ∀ c, has_column c d = false).
  { intros c. apply has_column_false. rewrite Hd. apply not_elem_of_nil. }
  assert (Hconv : train_delays_converted d = d).
  { unfold train_delays_converted.
    by repeat (rewrite (convert_absent _ _ _ d) by apply Hno). }
  unfold train_delays_table, apply_if. cbv zeta.
  rewrite has_column_deduplicated, Hno, Hconv.
  unfold drop_duplicates, empty.
  unfold labels in Hd. by destruct (columns d).
Qed.

Lemma train_delays_table_idem d :
  has_column "scheduled_time" d = false ∨
    (has_column "day_of_week" d = false ∧ has_column "hour_of_day" d = false) →
  train_delays_table (train_delays_table d) = train_delays_table d.
Proof.
  intros Hfree.
  destruct (decide (labels d = [])) as [Hd|Hd].
  { by rewrite !(train_delays_table_unlabelled d Hd). }
  unfold train_delays_table at 1. cbv zeta.
  rewrite train_delays_converted_fixed.
  rewrite (drop_duplicates_fixed (train_delays_table d))
    by by apply train_delays_table_distinct_labelled.
  rewrite has_column_train_delays_table by done.
  unfold apply_if. destruct (has_column "scheduled_time" d) eqn:Hs; [|done].
  unfold train_delays_table, apply_if. cbv zeta.
  rewrite has_column_deduplicated, Hs. apply derive_fields_idem.
Qed.

(** X5.  Cleaning a delay table that is already clean changes nothing:
    running [clean_train_delays] twice on the same object leaves the
    world that running it once leaves, provided the raw table has no
    [scheduled_time] column or carries neither a [day_of_week] nor an
    [hour_of_day] column of its own. *)
Theorem clean_train_delays_twice w df raw :
  heap w !! df = Some raw →
  has_column "scheduled_time" raw = false ∨
    (has_column "day_of_week" raw = false ∧
     has_column "hour_of_day" raw = false) →
  (clean_train_delays df ≫= clean_train_delays) w = clean_train_delays df w.
Proof.
  intros Hdf Hfree. rewrite (clean_train_delays_run w df raw Hdf).
  erewrite run_bind; [|by apply clean_train_delays_run].
  erewrite clean_train_delays_run; [|apply lookup_insert_eq].
  unfold set_heap. cbn [heap files writable stdout].
  by rewrite insert_insert_eq, train_delays_table_idem.
Qed.
End train_fixed_point.

(** ** What the join puts in its rows *)

Section join_rows.
Import pd.
Variables (L R : DataFrame) (on : string).
Hypothesis labels_distinct : NoDup (merged_columns L R on).*1.

(** in the row joined with a right row, the cell of a right column is
    the cell of the right row *)
Lemma lookup_join_row_right l w c :
  c ∈ right_labels R on →
  join_row L R on l (Some w) !! right_label L R on c = w !! c.
Proof.
  intros Hc. apply option_eq. intros v. unfold join_row.
  rewrite <- elem_of_list_to_map by by apply join_cells_NoDup.
  cbn [from_option]. rewrite elem_of_app, !elem_of_cells. split.
  - intros [(c' & Hc' & Heq & Hv) | (c' & Hc' & Heq & Hv)].
    + by destruct (left_right_disjoint L R on labels_distinct c' c).
    + assert (c = c') as ->; [|done].
      pose proof labels_distinct as Hnd. rewrite merged_labels in Hnd.
      apply NoDup_app in Hnd as (_ & _ & Hnd).
      by eapply NoDup_fmap_inj_on.
  - intros Hv. right. eauto.
Qed.

Lemma elem_of_merge_rows h l o :
  o ∈ merge_rows L R on h l ↔
  (∃ w, w ∈ matches R on l ∧ o = join_row L R on l (Some w)) ∨
  (h = left ∧ matches R on l = [] ∧ o = join_row L R on l None).
Proof.
  unfold merge_rows. destruct (matches R on l) as [|w ws] eqn:Hm.
  - destruct h.
    + rewrite list_elem_of_singleton. split; [by right|].
      intros [(w & Hw & _)|(_ & _ & ->)]; [by apply elem_of_nil in Hw | done].
    + cbn [fmap list_fmap]. split; [by intros ?%elem_of_nil|].
      intros [(w & Hw & _)|(? & _)]; [by apply elem_of_nil in Hw | done].
  - assert (E : ∀ o, o ∈ (λ w, join_row L R on l (Some w)) <$> (w :: ws) ↔
              (∃ w0, w0 ∈ w :: ws ∧ o = join_row L R on l (Some w0)) ∨
              (h = left ∧ w :: ws = [] ∧ o = join_row L R on l None)).
    { intros o'. rewrite list_elem_of_fmap. split.
      - intros (w0 & -> & Hw0). left. eauto.
      - intros [(w0 & Hw0 & ->)|(_ & ? & _)]; [eauto | done]. }
    destruct h; apply E.
Qed.
End join_rows.

Section merge_rows_facts.
Import pd DataCleaner.

(** X7.  Every row of a successful join is a left row with its cells under
    the left labels, together with the cells of a right row of the same
    key, or, in a left join only, with null right cells when no right
    row has its key; every pair of a left and a right row of the same
    key gives a row of the result; a left join has a row for every
    left row. *)
Theorem merge_data_joined_rows L R on h :
  has_column on L = true → has_column on R = true →
  dtype_of on L = dtype_of on R →
  NoDup (merged_columns L R on).*1 →
  ∃ out,
    merge_data L R on h = Return out ∧
    labels out = ((left_label L R on <$> labels L)
                  ++ (right_label L R on <$> right_labels R on))%list ∧
    (∀ o, o ∈ rows out →
       ∃ l, l ∈ rows L ∧
         (∀ c, c ∈ labels L → o !! left_label L R on c = l !! c) ∧
         ((∃ w, w ∈ rows R ∧ w !! on = l !! on ∧
                ∀ c, c ∈ right_labels R on →
                     o !! right_label L R on c = w !! c) ∨
          (h = left ∧ (∀ w, w ∈ rows R → w !! on ≠ l !! on) ∧
           ∀ c, c ∈ right_labels R on →
                o !! right_label L R on c = None))) ∧
    (∀ l w, l ∈ rows L → w ∈ rows R → w !! on = l !! on →
       ∃ o, o ∈ rows out ∧
         (∀ c, c ∈ labels L → o !! left_label L R on c = l !! c) ∧
         (∀ c, c ∈ right_labels R on →
               o !! right_label L R on c = w !! c)) ∧
    (h = left →
     ∀ l, l ∈ rows L →
       ∃ o, o ∈ rows out ∧
            ∀ c, c ∈ labels L → o !! left_label L R on c = l !! c).
Proof.
  intros HL HR Hdt Hnd.
  exists {| index_name := None; columns := merged_columns L R on;
            rows := rows L ≫= merge_rows L R on h |}.
  split.
  { unfold merge_data, merge. rewrite HL, HR. simpl.
    rewrite (bool_decide_eq_true_2 _ Hdt), (bool_decide_eq_true_2 _ Hnd).
    done. }
  split; [apply merged_labels|].
  cbn [rows]. split; [|split].
  - intros o (l & Ho & Hl)%list_elem_of_bind.
    exists l. split; [done|].
    apply elem_of_merge_rows in Ho as [(w & Hw & ->)|(-> & Hm & ->)].
    + split; [intros c Hc; by apply lookup_join_row_left|].
      left. apply elem_of_matches in Hw as [Hk Hw].
      exists w. split; [done|]. split; [done|].
      intros c Hc. by apply lookup_join_row_right.
    + split; [intros c Hc; by apply lookup_join_row_left|].
      right. split; [done|]. split.
      * intros w Hw Hk.
        assert (Hin : w ∈ matches R on l) by by apply elem_of_matches.
        rewrite Hm in Hin. by apply elem_of_nil in Hin.
      * intros c Hc. by apply lookup_join_row_unmatched.
  - intros l w Hl Hw Hk. exists (join_row L R on l (Some w)). split.
    + apply list_elem_of_bind. exists l. split; [|done].
      apply elem_of_merge_rows. left. exists w. split; [|done].
      by apply elem_of_matches.
    + split; [intros c Hc; by apply lookup_join_row_left|].
      intros c Hc. by apply lookup_join_row_right.
  - intros -> l Hl.
    destruct (matches R on l) as [|w ws] eqn:Hm.
    + exists (join_row L R on l None). split.
      * apply list_elem_of_bind. exists l. split; [|done].
        apply elem_of_merge_rows. by right.
      * intros c Hc. by apply lookup_join_row_left.
    + exists (join_row L R on l (Some w)). split.
      * apply list_elem_of_bind. exists l. split; [|done].
        apply elem_of_merge_rows. left. exists w. split; [|done].
        rewrite Hm. apply elem_of_cons. by left.
      * intros c Hc. by apply lookup_join_row_left.
Qed.


(** X9.  An inner join keeps only the delay records that have a weather
    reading: the key of every row of the result is the key of a
    weather row, there is one row for each pair of a delay record and
    a reading of the same key, and no more rows than delay records when
    no two readings share a key. *)
Theorem merge_data_inner L R on :
  has_column on L = true → has_column on R = true →
  dtype_of on L = dtype_of on R →
  NoDup (merged_columns L R on).*1 →
  ∃ out,
    merge_data L R on inner = Return out ∧
    (∀ o, o ∈ rows out → ∃ w, w ∈ rows R ∧ w !! on = o !! on) ∧
    len out = sum_list ((λ l, length (matches R on l)) <$> rows L) ∧
    (NoDup (getitem on <$> rows R) → (len out ≤ len L)%nat).
Proof.
  intros HL HR Hdt Hnd.
  exists {| index_name := None; columns := merged_columns L R on;
            rows := rows L ≫= merge_rows L R on inner |}.
  split.
  { unfold merge_data, merge. rewrite HL, HR. simpl.
    rewrite (bool_decide_eq_true_2 _ Hdt), (bool_decide_eq_true_2 _ Hnd).
    done. }
  assert (Hlen : ∀ l, length (merge_rows L R on inner l)
                      = length (matches R on l)).
  { intros l. unfold merge_rows. destruct (matches R on l); [done|].
    by rewrite length_fmap. }
  assert (Hsum : ∀ ls : list row,
            length (ls ≫= merge_rows L R on inner)
            = sum_list ((λ l, length (matches R on l)) <$> ls)).
  { induction ls as [|l ls IH]; [done|].
    by rewrite bind_cons, length_app, fmap_cons, Hlen, IH. }
  unfold len. cbn [rows]. split; [|split].
  - intros o (l & Ho & Hl)%list_elem_of_bind.
    apply elem_of_merge_rows in Ho as [(w & Hw & ->)|(? & _)]; [|done].
    apply elem_of_matches in Hw as [Hk Hw]. exists w. split; [done|].
    rewrite <- (left_label_key L R on) at 2.
    rewrite lookup_join_row_left; [done | done | by apply has_column_true].
  - apply Hsum.
  - intros Hkeys. rewrite Hsum.
    induction (rows L) as [|l ls IH]; [done|].
    rewrite fmap_cons. cbn [sum_list length].
    pose proof (filter_unique_key (getitem on) (l !! on) (rows R) Hkeys).
    unfold matches, getitem in *. change (S (length ls)) with (1 + length ls)%nat.
    apply Nat.add_le_mono; [exact H | exact IH].
Qed.
End merge_rows_facts.

(** ** Columns of the wrong type, and failures of the library *)

Section analyzer_guards.
Import pd StatisticalAnalyzer.
Context `{Statistics}.

(** X10.  A column that is not numeric gets the same answer as a missing
    one: None from [get_descriptive_statistics], [perform_t_test] and
    [calculate_correlation], the empty table from [aggregate_by_time],
    which answers so as well when the time column holds no
    timestamps.  A table that was not cleaned, whose times are still
    text, is such a table. *)
Theorem wrong_dtype_gives_sentinel df :
  (∀ c, is_numeric_dtype c df = false →
        get_descriptive_statistics df c = Return None) ∧
  (∀ group_col value_col g1 g2,
     is_numeric_dtype value_col df = false →
     perform_t_test df group_col value_col g1 g2 = Return None) ∧
  (∀ col1 col2 method,
     is_numeric_dtype col1 df = false ∨ is_numeric_dtype col2 df = false →
     calculate_correlation df col1 col2 method = Return None) ∧
  (∀ time_col value_col f g,
     is_datetime64_any_dtype time_col df = false ∨
     is_numeric_dtype value_col df = false →
     aggregate_by_time df time_col value_col f g = Return empty_frame).
Proof.
  split; [|split; [|split]].
  - intros c Hc. unfold get_descriptive_statistics. rewrite Hc.
    by rewrite orb_true_r.
  - intros gc vc g1 g2 Hc. unfold perform_t_test. rewrite Hc.
    by destruct (_ || _).
  - intros c1 c2 m Hc. unfold calculate_correlation.
    destruct (_ || _); [done|].
    destruct Hc as [-> | ->]; [done|]. by rewrite orb_true_r.
  - intros tc vc f g Hc. unfold aggregate_by_time.
    destruct (_ || _); [done|].
    destruct Hc as [-> | ->]; [done|]. cbn [negb].
    by destruct (negb _).
Qed.

(** X11.  What [get_descriptive_statistics] and [calculate_correlation]
    return is the library's result or None, and they never raise: the
    answer is a summary exactly when the column is there, is numeric
    and [describe] returns that summary for its cells; it is a
    coefficient exactly when both columns are there, are numeric and
    [corr] returns that coefficient.  A failure of the library, such as
    a correlation method it does not know, gives None. *)
Theorem analysis_answers_are_the_library_s df :
  (∀ c, ∃ r, get_descriptive_statistics df c = Return r) ∧
  (∀ c s,
     get_descriptive_statistics df c = Return (Some s) ↔
     has_column c df = true ∧ is_numeric_dtype c df = true ∧
     describe (column c df) = Return s) ∧
  (∀ col1 col2 method,
     ∃ r, calculate_correlation df col1 col2 method = Return r) ∧
  (∀ col1 col2 method x,
     calculate_correlation df col1 col2 method = Return (Some x) ↔
     has_column col1 df = true ∧ has_column col2 df = true ∧
     is_numeric_dtype col1 df = true ∧ is_numeric_dtype col2 df = true ∧
     corr method (column col1 df) (column col2 df) = Return x).
Proof.
  split; [|split; [|split]].
  - intros c. unfold get_descriptive_statistics.
    destruct (_ || _); [eauto|]. destruct (describe _); simpl; eauto.
  - intros c s. unfold get_descriptive_statistics.
    destruct (has_column c df), (is_numeric_dtype c df); cbn [negb orb];
      try (split; [done | by intros (? & ? & ?)]).
    destruct (describe (column c df)) as [s'|e]; simpl.
    + split; [by intros [= ->] | by intros (_ & _ & [= ->])].
    + split; [done | by intros (_ & _ & ?)].
  - intros c1 c2 m. unfold calculate_correlation.
    destruct (_ || _); [eauto|]. destruct (_ || _); [eauto|].
    destruct (corr _ _ _); simpl; eauto.
  - intros c1 c2 m x. unfold calculate_correlation.
    destruct (has_column c1 df), (has_column c2 df),
             (is_numeric_dtype c1 df), (is_numeric_dtype c2 df);
      cbn [negb orb];
      try (split; [done | by intros (? & ? & ? & ? & ?)]).
    destruct (corr m (column c1 df) (column c2 df)) as [x'|e]; simpl.
    + split; [by intros [= ->] | by intros (_ & _ & _ & _ & [= ->])].
    + split; [done | by intros (_ & _ & _ & _ & ?)].
Qed.
End analyzer_guards.

(** ** Resampling *)

Section buckets.
Import pd StatisticalAnalyzer.

Lemma freq_ns_pos f : 0 < freq_ns f.
Proof. by destruct f. Qed.

Lemma foldr_min_le t0 rest t : t ∈ t0 :: rest → foldr Z.min t0 rest ≤ t.
Proof.
  induction rest as [|a rest IH]; simpl.
  - intros ->%list_elem_of_singleton. lia.
  - rewrite !elem_of_cons. intros [E|[E|Ht]].
    + assert (foldr Z.min t0 rest ≤ t) by (apply IH, elem_of_cons; by left). lia.
    + lia.
    + assert (foldr Z.min t0 rest ≤ t) by (apply IH, elem_of_cons; by right). lia.
Qed.

Lemma foldr_max_ge t0 rest t : t ∈ t0 :: rest → t ≤ foldr Z.max t0 rest.
Proof.
  induction rest as [|a rest IH]; simpl.
  - intros ->%list_elem_of_singleton. lia.
  - rewrite !elem_of_cons. intros [E|[E|Ht]].
    + assert (t ≤ foldr Z.max t0 rest) by (apply IH, elem_of_cons; by left). lia.
    + lia.
    + assert (t ≤ foldr Z.max t0 rest) by (apply IH, elem_of_cons; by right). lia.
Qed.

Lemma foldr_min_elem t0 rest : foldr Z.min t0 rest ∈ t0 :: rest.
Proof.
  induction rest as [|a rest IH]; simpl; [apply elem_of_cons; by left|].
  destruct (Z.min_spec a (foldr Z.min t0 rest)) as [[_ ->]|[_ ->]].
  - apply elem_of_cons. right. apply elem_of_cons. by left.
  - apply elem_of_cons in IH as [->|IH].
    + apply elem_of_cons. by left.
    + apply elem_of_cons. right. apply elem_of_cons. by right.
Qed.

Lemma foldr_max_elem t0 rest : foldr Z.max t0 rest ∈ t0 :: rest.
Proof.
  induction rest as [|a rest IH]; simpl; [apply elem_of_cons; by left|].
  destruct (Z.max_spec a (foldr Z.max t0 rest)) as [[_ ->]|[_ ->]].
  - apply elem_of_cons in IH as [->|IH].
    + apply elem_of_cons. by left.
    + apply elem_of_cons. right. apply elem_of_cons. by right.
  - apply elem_of_cons. right. apply elem_of_cons. by left.
Qed.

Lemma floor_to_spec w t : 0 < w → floor_to w t ≤ t < floor_to w t + w.
Proof.
  intros Hw. unfold floor_to.
  pose proof (Z.div_mod t w). pose proof (Z.mod_pos_bound t w Hw). lia.
Qed.


(** the starts are the consecutive multiples of the width from the
    bucket of the earliest stamp to that of the latest *)
Lemma bucket_starts_grid w t0 rest :
  0 < w →
  bucket_starts w (t0 :: rest)
  = (λ i, (foldr Z.min t0 rest `div` w + i) * w)
      <$> seqZ 0 (foldr Z.max t0 rest `div` w - foldr Z.min t0 rest `div` w + 1).
Proof.
  intros Hw. unfold bucket_starts, floor_to.
  set (m := foldr Z.min t0 rest `div` w).
  set (M := foldr Z.max t0 rest `div` w).
  replace (M * w - m * w) with ((M - m) * w) by lia.
  rewrite Z.div_mul by lia.
  apply list_fmap_ext. intros _ i _. lia.
Qed.

Lemma elem_of_bucket_starts w t0 rest b :
  0 < w →
  b ∈ bucket_starts w (t0 :: rest) ↔
  ∃ i, b = i * w ∧
       foldr Z.min t0 rest `div` w ≤ i ≤ foldr Z.max t0 rest `div` w.
Proof.
  intros Hw. rewrite bucket_starts_grid by done.
  rewrite list_elem_of_fmap. split.
  - intros (i & -> & Hi). apply elem_of_seqZ in Hi. eexists. split; [done|]. lia.
  - intros (i & -> & Hi).
    exists (i - foldr Z.min t0 rest `div` w). split; [f_equal; lia|].
    apply elem_of_seqZ. lia.
Qed.

Lemma bucket_starts_cover w ts t :
  0 < w → t ∈ ts → floor_to w t ∈ bucket_starts w ts.
Proof.
  intros Hw Ht. destruct ts as [|t0 rest]; [by apply elem_of_nil in Ht|].
  apply elem_of_bucket_starts; [done|]. exists (t `div` w). split; [done|].
  pose proof (foldr_min_le t0 rest t Ht). pose proof (foldr_max_ge t0 rest t Ht).
  split; apply Z.div_le_mono; lia.
Qed.

Lemma bucket_starts_aligned w ts b :
  0 < w → b ∈ bucket_starts w ts → b `mod` w = 0.
Proof.
  intros Hw Hb. destruct ts as [|t0 rest]; [by apply elem_of_nil in Hb|].
  apply elem_of_bucket_starts in Hb as (i & -> & _); [|done].
  apply Z.mod_mul. lia.
Qed.

Lemma bucket_starts_within w ts b :
  0 < w → b ∈ bucket_starts w ts →
  ∃ t1 t2, t1 ∈ ts ∧ t2 ∈ ts ∧ t1 < b + w ∧ b ≤ t2.
Proof.
  intros Hw Hb. destruct ts as [|t0 rest]; [by apply elem_of_nil in Hb|].
  apply elem_of_bucket_starts in Hb as (i & -> & Hlo & Hhi); [|done].
  exists (foldr Z.min t0 rest), (foldr Z.max t0 rest).
  split; [apply foldr_min_elem|]. split; [apply foldr_max_elem|].
  pose proof (floor_to_spec w (foldr Z.min t0 rest) Hw).
  pose proof (floor_to_spec w (foldr Z.max t0 rest) Hw).
  unfold floor_to in *. nia.
Qed.

Lemma bucket_starts_step w ts i b b' :
  0 < w →
  bucket_starts w ts !! i = Some b → bucket_starts w ts !! S i = Some b' →
  b' = b + w.
Proof.
  intros Hw. destruct ts as [|t0 rest]; [done|].
  rewrite bucket_starts_grid by done. rewrite !list_lookup_fmap.
  intros (x & Hx & ->)%fmap_Some (y & Hy & ->)%fmap_Some.
  apply lookup_seqZ in Hx as [-> _]. apply lookup_seqZ in Hy as [-> _]. lia.
Qed.


End buckets.

Section resampling.
Import pd StatisticalAnalyzer.

Lemma labels_set_index c df :
  labels (set_index c df) = filter (λ x, x ≠ c) (labels df).
Proof.
  unfold labels, set_index. cbn [columns].
  by rewrite <- (fst_filter (λ x, x ≠ c)).
Qed.

Lemma distinct_dtypes_distinct_labels df c1 c2 :
  is_datetime64_any_dtype c1 df = true → is_numeric_dtype c2 df = true →
  c1 ≠ c2.
Proof.
  intros H1%bool_decide_eq_true H2%bool_decide_eq_true ->. congruence.
Qed.

Lemma aggregate_by_time_run df time_col value_col f a :
  has_column time_col df = true → has_column value_col df = true →
  is_datetime64_any_dtype time_col df = true →
  is_numeric_dtype value_col df = true →
  aggregate_by_time df time_col value_col f (AggStr a)
  = Return {| index_name := Some time_col;
              columns := [(value_col, Numeric)];
              rows := (λ b, bucket_row time_col b.1
                              [(value_col, aggregate a b.2)])
                      <$> resample df time_col value_col f |}.
Proof.
  intros Ht Hv Hdt Hnum. unfold aggregate_by_time.
  rewrite Ht, Hv, Hdt, Hnum. cbn [negb orb]. cbv zeta.
  assert (Hin : has_column value_col (set_index time_col df) = true).
  { apply has_column_true. rewrite labels_set_index.
    apply list_elem_of_filter. split; [|by apply has_column_true].
    intros ->. by eapply distinct_dtypes_distinct_labels. }
  rewrite Hin. done.
Qed.

Lemma lookup_bucket_row_index time_col value_col b v :
  time_col ≠ value_col →
  bucket_row time_col b [(value_col, v)] !! time_col = Some (Time b).
Proof.
  intros Hne. unfold bucket_row. cbn [foldr fst snd].
  rewrite lookup_set_cell_ne by done. apply lookup_singleton_eq.
Qed.

Lemma lookup_bucket_row_value time_col value_col b v :
  bucket_row time_col b [(value_col, v)] !! value_col = v.
Proof. unfold bucket_row. cbn [foldr fst snd]. apply lookup_set_cell_eq. Qed.


(** X12.  With both columns present, timestamps in the time column and
    numbers in the value column, [aggregate_by_time] with a named
    aggregation returns a table indexed by the time column with the
    value column as its only column.  Its rows are the buckets in
    order: each starts at a multiple of the width and holds the
    aggregate of the values of the rows whose stamp falls in it, the
    next row starts one width later, every stamp of the table falls in
    the bucket of some row, and no row lies before the bucket of the
    earliest stamp or after that of the latest.  Buckets without data
    in between are rows of the result. *)
Theorem aggregate_by_time_buckets df time_col value_col f a :
  has_column time_col df = true → has_column value_col df = true →
  is_datetime64_any_dtype time_col df = true →
  is_numeric_dtype value_col df = true →
  ∃ out,
    aggregate_by_time df time_col value_col f (AggStr a) = Return out ∧
    index_name out = Some time_col ∧
    labels out = [value_col] ∧
    (∀ r, r ∈ rows out →
       ∃ b, r !! time_col = Some (Time b) ∧ b `mod` freq_ns f = 0 ∧
            r !! value_col
            = aggregate a
                (omap (getitem value_col)
                   (filter (λ r0, in_bucket time_col (freq_ns f) b r0)
                           (rows df))) ∧
            ∃ t1 t2, t1 ∈ stamps time_col df ∧ t2 ∈ stamps time_col df ∧
                     t1 < b + freq_ns f ∧ b ≤ t2) ∧
    (∀ i r r', rows out !! i = Some r → rows out !! S i = Some r' →
       ∃ b, r !! time_col = Some (Time b) ∧
            r' !! time_col = Some (Time (b + freq_ns f))) ∧
    (∀ t, t ∈ stamps time_col df →
       ∃ r b, r ∈ rows out ∧ r !! time_col = Some (Time b) ∧
              b ≤ t < b + freq_ns f).
Proof.
  intros Ht Hv Hdt Hnum.
  pose proof (freq_ns_pos f) as Hw.
  assert (Hne : time_col ≠ value_col)
    by by eapply distinct_dtypes_distinct_labels.
  eexists. split; [by apply aggregate_by_time_run|].
  split; [done|]. split; [done|]. cbn [rows]. unfold resample.
  rewrite <- list_fmap_compose. split; [|split].
  - intros r (b & -> & Hb)%list_elem_of_fmap. exists b.
    unfold compose. cbn [fst snd].
    split; [by apply lookup_bucket_row_index|].
    split; [by eapply bucket_starts_aligned|].
    split; [apply lookup_bucket_row_value|].
    by eapply bucket_starts_within.
  - intros i r r'. rewrite !list_lookup_fmap.
    intros (b & Hb & ->)%fmap_Some (b' & Hb' & ->)%fmap_Some.
    exists b. unfold compose. cbn [fst snd].
    rewrite !lookup_bucket_row_index by done.
    split; [done|]. do 2 f_equal. by eapply bucket_starts_step.
  - intros t Hin. eexists _, (floor_to (freq_ns f) t). split.
    + apply list_elem_of_fmap. eexists. split; [done|].
      by apply bucket_starts_cover.
    + unfold compose. cbn [fst snd].
      split; [by apply lookup_bucket_row_index|].
      by apply floor_to_spec.
Qed.

(** *** Nothing is lost between the buckets *)













End resampling.

Section time_series.
Import pd StatisticalAnalyzer Plotter.
Context `{Rendering}.

(** X14.  The table [aggregate_by_time] returns for a named aggregation
    never has the time column among its columns: the time is its
    index.  [plot_time_series], given that table and the same time
    column, as in [run_pipeline], finds the column missing and returns
    without drawing. *)
Theorem time_series_of_aggregate_is_not_drawn df time_col value_col f a y :
  ∃ out,
    aggregate_by_time df time_col value_col f (AggStr a) = Return out ∧
    has_column time_col out = false ∧
    ∀ w, plot_time_series out time_col y w = (Return tt, w).
Proof.
  assert (Hplot : ∀ out, has_column time_col out = false →
            ∀ w, plot_time_series out time_col y w = (Return tt, w)).
  { intros out Hno w. unfold plot_time_series. by rewrite Hno. }
  destruct (has_column time_col df) eqn:Ht;
    [|exists empty_frame; split; [|by auto];
      apply aggregate_by_time_missing_column; by left].
  destruct (has_column value_col df) eqn:Hv;
    [|exists empty_frame; split; [|by auto];
      apply aggregate_by_time_missing_column; by right].
  destruct (is_datetime64_any_dtype time_col df) eqn:Hdt;
    [|exists empty_frame; split; [|by auto];
      unfold aggregate_by_time; by rewrite Ht, Hv, Hdt].
  destruct (is_numeric_dtype value_col df) eqn:Hnum;
    [|exists empty_frame; split; [|by auto];
      unfold aggregate_by_time; by rewrite Ht, Hv, Hdt, Hnum].
  eexists. split; [by apply aggregate_by_time_run|].
  assert (Hno : ∀ rs, has_column time_col
                        {| index_name := Some time_col;
                           columns := [(value_col, Numeric)];
                           rows := rs |} = false).
  { intros rs. apply has_column_false. unfold labels. cbn [columns fmap list_fmap fst].
    intros ->%list_elem_of_singleton.
    by eapply (distinct_dtypes_distinct_labels df value_col value_col). }
  split; [apply Hno|]. by apply Hplot.
Qed.
End time_series.

(** ** Geometry tables and plots, continued *)

Section outcome_lists_more.
Context {A B : Type}.

Lemma mapM_Return_inv (f : A → outcome B) (l : list A) ys :
  mapM f l = Return ys → Forall2 (λ x y, f x = Return y) l ys.
Proof.
  revert ys. induction l as [|x l IH]; intros ys; cbn [mapM].
  - intros [= <-]. constructor.
  - destruct (f x) as [y|e] eqn:Ex; [|done]. simpl.
    destruct (mapM f l) as [k|e] eqn:El; [|done]. simpl.
    intros [= <-]. constructor; [done|]. by apply IH.
Qed.
End outcome_lists_more.

Section spatial_more.
Import pd gpd SpatialProcessor.
Context `{Geodesy}.


(** X16.  What [create_gdf_from_points] answers, whatever the table: it never
    raises; without one of the two columns, or for a reference system
    the library does not know, the answer is None; and a table it does
    return is tagged with the system asked for and made of exactly the
    rows whose latitude and longitude are both non-null, in their
    order, each with the point of its two coordinates as [float] reads
    them. *)
Theorem create_gdf_from_points_answers df lat_col lon_col crs_ :
  (∃ r, create_gdf_from_points df lat_col lon_col crs_ = Return r) ∧
  (has_column lat_col df = false ∨ has_column lon_col df = false →
   create_gdf_from_points df lat_col lon_col crs_ = Return None) ∧
  (crs_from_user_input crs_ = None →
   create_gdf_from_points df lat_col lon_col crs_ = Return None) ∧
  (∀ gdf,
     create_gdf_from_points df lat_col lon_col crs_ = Return (Some gdf) →
     crs gdf = crs_from_user_input crs_ ∧
     is_Some (crs gdf) ∧
     has_column "geometry" (frame gdf) = true ∧
     Forall2 (λ r0 r, ∃ x y, coordinate (r0 !! lon_col) = Return x ∧
                             coordinate (r0 !! lat_col) = Return y ∧
                             r = <["geometry" := Point x y]> r0)
             (filter (λ r, notna_all [lat_col; lon_col] r) (rows df))
             (rows (frame gdf))).
Proof.
  unfold create_gdf_from_points.
  destruct (has_column lat_col df) eqn:Hlat; cycle 1.
  { cbn [negb orb]. split; [eauto|]. split; [done|]. split; [done|]. done. }
  destruct (has_column lon_col df) eqn:Hlon; cycle 1.
  { cbn [negb orb]. split; [eauto|]. split; [done|]. split; [done|]. done. }
  cbn [negb orb]. unfold dropna_subset. cbn [rows].
  set (kept := filter (λ r, notna_all [lat_col; lon_col] r) (rows df)).
  destruct (mapM _ kept) as [geometry|e] eqn:Hgeo; cycle 1.
  { simpl. split; [eauto|]. split; [by intros [|]|]. split; [done|]. done. }
  cbn [mbind outcome_bind obind]. unfold GeoDataFrame_.
  destruct (crs_from_user_input crs_) as [tag|] eqn:Hcrs; cycle 1.
  { simpl. split; [eauto|]. split; [by intros [|]|]. split; [done|]. done. }
  cbn [index_name columns rows mbind outcome_bind obind try_except].
  split; [eauto|]. split; [by intros [|]|]. split; [done|].
  intros gdf [= <-]. cbn [crs frame rows].
  split; [done|]. split; [done|]. split.
  { apply has_column_true. unfold labels. cbn [columns].
    clear. induction (columns df) as [|[a b] cols IH]; cbn [set_dtype].
    - apply elem_of_cons. by left.
    - case_decide; rewrite fmap_cons; cbn [fst];
        [apply elem_of_cons; by left | apply elem_of_cons; by right]. }
  apply mapM_Return_inv in Hgeo.
  clear -Hgeo. induction Hgeo as [|r0 g l k Hg Hrest IH]; [constructor|].
  cbn [zip_with]. constructor; [|exact IH].
  destruct (coordinate (r0 !! lon_col)) as [x|] eqn:Ex; [|done].
  destruct (coordinate (r0 !! lat_col)) as [y|] eqn:Ey; [|done].
  simpl in Hg. injection Hg as <-. by exists x, y.
Qed.
End spatial_more.

Section plotter_more.
Import pd Plotter.
Context `{Rendering}.

(** X17.  [plot_correlation_heatmap] never draws: it ends with an exception
    and leaves the world as it found it.  With a list of columns of
    which some is not in the table, the exception is the KeyError of
    the first such column; in every other case, with or without a list,
    it is the NameError of [np], a name plotter.py never binds. *)
Theorem plot_correlation_heatmap_never_draws df columns_ w :
  ∃ e,
    plot_correlation_heatmap df columns_ w = (Raise e, w) ∧
    match columns_ with
    | Some cs =>
        match filter (λ c, c ∉ labels df) cs with
        | c :: _ => e = KeyError c ∧ c ∈ cs ∧ has_column c df = false
        | [] => e = NameError "np"
        end
    | None => e = NameError "np"
    end.
Proof.
  unfold plot_correlation_heatmap, np.
  unfold mbind, M_bind, bind, lift, raise.
  destruct columns_ as [[|c cs]|]; [by eexists | | by eexists].
  unfold select.
  destruct (filter (λ c0, ¬ c0 ∈ labels df) (c :: cs)) as [|c' rest] eqn:Hf.
  - eexists. split; [done|]. done.
  - eexists. split; [done|]. split; [done|].
    assert (Hin : c' ∈ filter (λ c0, ¬ c0 ∈ labels df) (c :: cs))
      by (rewrite Hf; apply elem_of_cons; by left).
    apply list_elem_of_filter in Hin as [Hno Hin].
    split; [done | by apply has_column_false].
Qed.
End plotter_more.

(** ** Files *)

Section file_traces.
Context (P : string → Prop).

Lemma writes_only_ret {A} (a : A) : writes_only P (mret a).
Proof. by intros w o w' [= <- <-]. Qed.

Lemma writes_only_raise {A} e : writes_only P (raise (A := A) e).
Proof. by intros w o w' [= <- <-]. Qed.

Lemma writes_only_lift {A} (o : outcome A) : writes_only P (lift o).
Proof. by intros w o' w' [= <- <-]. Qed.

Lemma writes_only_print s : writes_only P (print s).
Proof. by intros w o w' [= <- <-]. Qed.

Lemma writes_only_deref r : writes_only P (deref r).
Proof. by intros w o w' [= <- <-]. Qed.

Lemma writes_only_mutate r f : writes_only P (mutate r f).
Proof. by intros w o w' [= <- <-]. Qed.

Lemma writes_only_alloc df : writes_only P (alloc df).
Proof. by intros w o w' [= <- <-]. Qed.

Lemma writes_only_write_file path c : P path → writes_only P (write_file path c).
Proof.
  intros Hp w o w'. unfold write_file.
  destruct (writable w path); intros [= <- <-] p Hnp; [|done].
  cbn [files]. apply lookup_insert_ne. by intros ->.
Qed.

Lemma writes_only_bind {A B} (m : M A) (k : A → M B) :
  writes_only P m → (∀ a, writes_only P (k a)) → writes_only P (m ≫= k).
Proof.
  intros Hm Hk w o w'. unfold mbind, M_bind, bind.
  destruct (m w) as [[a|e] w1] eqn:Em.
  - intros Ek p Hp. rewrite (Hk a _ _ _ Ek p Hp). by eapply Hm.
  - intros [= <- <-]. by eapply Hm.
Qed.

Lemma writes_only_bind_raises {A B} (m : M A) (k : A → M B) :
  writes_only P m → always_raises m → writes_only P (m ≫= k).
Proof.
  intros Hm Hr w o w'. unfold mbind, M_bind, bind.
  destruct (Hr w) as (e & w1 & Em). rewrite Em. intros [= <- <-].
  by eapply Hm.
Qed.

Lemma writes_only_try_catch {A} c (m : M A) h :
  writes_only P m → (∀ e, writes_only P (h e)) →
  writes_only P (try_catch c m h).
Proof.
  intros Hm Hh w o w'. unfold try_catch.
  destruct (m w) as [[a|e] w1] eqn:Em.
  - intros [= <- <-]. by eapply Hm.
  - destruct (c e).
    + intros Eh p Hp. rewrite (Hh e _ _ _ Eh p Hp). by eapply Hm.
    + intros [= <- <-]. by eapply Hm.
Qed.

Lemma writes_only_when b m : writes_only P m → writes_only P (when b m).
Proof. destruct b; [done | intros _; apply writes_only_ret]. Qed.
End file_traces.

Create HintDb file_trace.
#[local] Hint Resolve writes_only_ret writes_only_raise writes_only_lift
  writes_only_print writes_only_deref writes_only_mutate writes_only_alloc
  writes_only_when writes_only_try_catch : file_trace.

Ltac file_trace_step :=
  first
    [ solve [auto with file_trace]
    | apply writes_only_try_catch; [|intros ?]
    | apply writes_only_when
    | apply writes_only_bind; [|intros ?]
    | match goal with
      | |- writes_only _ (if ?b then _ else _) => destruct b
      | |- writes_only _ (match ?o with Some _ => _ | None => _ end) =>
          destruct o
      end ].
Ltac file_trace := repeat file_trace_step.

Section pipeline_runs.
Import pd DataCleaner StatisticalAnalyzer Plotter SpatialProcessor Main.
Context `{Conversions, Statistics, Geodesy, Rendering}.

Lemma fresh_lookup_ne (h : gmap nat DataFrame) r d d' :
  h !! r = Some d → <[fresh (dom h) := d']> h !! r = Some d.
Proof.
  intros Hr. rewrite lookup_insert_ne; [done|].
  intros E. apply (is_fresh (dom h)). rewrite E. by apply elem_of_dom.
Qed.

Lemma run_alloc w d :
  alloc d w = (Return (fresh (dom (heap w))),
               set_heap w (<[fresh (dom (heap w)) := d]> (heap w))).
Proof. done. Qed.

Lemma run_copy w r d :
  heap w !! r = Some d →
  copy r w = (Return (fresh (dom (heap w))),
              set_heap w (<[fresh (dom (heap w)) := d]> (heap w))).
Proof.
  intros Hr. unfold copy. erewrite run_bind; [apply run_alloc|].
  unfold deref. by rewrite (lookup_total_correct _ _ _ Hr).
Qed.

Lemma run_deref_lookup w r d :
  heap w !! r = Some d → deref r w = (Return d, w).
Proof. intros Hr. unfold deref. by rewrite (lookup_total_correct _ _ _ Hr). Qed.

Lemma merge_data_returns L R on h : ∃ m, merge_data L R on h = Return m.
Proof.
  unfold merge_data. destruct (merge L R on h); simpl; eauto.
Qed.

(** Phase 2, step by step: two raw tables, a cleaned copy of each,
    and the merged table, all fresh objects *)
Lemma clean_and_merge_run train_records weather_records w m :
  let T := from_records train_records in
  let W := from_records weather_records in
  let r1 := fresh (dom (heap w)) in
  let h1 := <[r1 := T]> (heap w) in
  let r2 := fresh (dom h1) in
  let h2 := <[r2 := W]> h1 in
  let r3 := fresh (dom h2) in
  let h3 := <[r3 := train_delays_table T]> h2 in
  let r4 := fresh (dom h3) in
  let h4 := <[r4 := weather_table W]> h3 in
  let r5 := fresh (dom h4) in
  merge_data (train_delays_table T) (weather_table W) "date" left = Return m →
  clean_and_merge train_records weather_records w
  = (Return r5, {| heap := <[r5 := m]> h4; files := files w;
                   writable := writable w;
                   stdout := stdout w ++ [banner_phase2] |}).
Proof.
  intros T W r1 h1 r2 h2 r3 h3 r4 h4 r5 Hm. unfold clean_and_merge.
  erewrite run_bind; [|apply run_alloc]. fold T r1 h1.
  erewrite run_bind; [|apply run_alloc].
  cbn [set_heap heap files writable stdout]. fold W r2 h2.
  erewrite run_bind; [|reflexivity].
  cbn [heap files writable stdout].
  erewrite run_bind; cycle 1.
  { apply (run_copy _ r1 T). cbn [heap].
    apply fresh_lookup_ne, lookup_insert_eq. }
  cbn [set_heap heap files writable stdout]. fold r3.
  erewrite run_bind; cycle 1.
  { apply (clean_train_delays_run _ r3 T). apply lookup_insert_eq. }
  cbn [set_heap heap files writable stdout].
  rewrite insert_insert_eq. fold h3.
  erewrite run_bind; cycle 1.
  { apply (run_copy _ r2 W). cbn [heap].
    apply fresh_lookup_ne, lookup_insert_eq. }
  cbn [set_heap heap files writable stdout]. fold r4.
  erewrite run_bind; cycle 1.
  { apply (clean_weather_data_run _ r4 W). apply lookup_insert_eq. }
  cbn [set_heap heap files writable stdout].
  rewrite insert_insert_eq. fold h4.
  erewrite run_bind; cycle 1.
  { apply (run_deref_lookup _ r3 (train_delays_table T)). cbn [heap].
    apply fresh_lookup_ne, lookup_insert_eq. }
  erewrite run_bind; cycle 1.
  { apply (run_deref_lookup _ r4 (weather_table W)). cbn [heap].
    apply lookup_insert_eq. }
  erewrite run_bind; cycle 1.
  { unfold lift. by rewrite Hm. }
  done.
Qed.

(** X18.  Phase 2 cleans copies.  [clean_and_merge] returns a fresh table,
    the left join on [date] of the cleaned delay table with the cleaned
    weather table; the two raw tables it builds from the records are
    still in the store as they were built, as two objects of their
    own; no table that was in the store before has changed, and no
    file has. *)
Theorem clean_and_merge_cleans_copies train_records weather_records w :
  ∃ merged_df m w' train_df_raw weather_df_raw,
    clean_and_merge train_records weather_records w = (Return merged_df, w') ∧
    merge_data (train_delays_table (from_records train_records))
               (weather_table (from_records weather_records)) "date" left
      = Return m ∧
    heap w' !! merged_df = Some m ∧
    heap w !! merged_df = None ∧
    train_df_raw ≠ weather_df_raw ∧
    heap w' !! train_df_raw = Some (from_records train_records) ∧
    heap w' !! weather_df_raw = Some (from_records weather_records) ∧
    (∀ r d, heap w !! r = Some d → heap w' !! r = Some d) ∧
    files w' = files w.
Proof.
  destruct (merge_data_returns
              (train_delays_table (from_records train_records))
              (weather_table (from_records weather_records)) "date" left)
    as [m Hm].
  pose proof (clean_and_merge_run train_records weather_records w m) as Hrun.
  cbv zeta in Hrun. specialize (Hrun Hm).
  set (T := from_records train_records) in *.
  set (W := from_records weather_records) in *.
  set (r1 := fresh (dom (heap w))) in *.
  set (h1 := <[r1 := T]> (heap w)) in *.
  set (r2 := fresh (dom h1)) in *.
  set (h2 := <[r2 := W]> h1) in *.
  set (r3 := fresh (dom h2)) in *.
  set (h3 := <[r3 := train_delays_table T]> h2) in *.
  set (r4 := fresh (dom h3)) in *.
  set (h4 := <[r4 := weather_table W]> h3) in *.
  set (r5 := fresh (dom h4)) in *.
  assert (Hkeep1 : ∀ r d, heap w !! r = Some d → h1 !! r = Some d)
    by (intros r d Hr; by apply fresh_lookup_ne).
  assert (Hkeep2 : ∀ r d, h1 !! r = Some d → h2 !! r = Some d)
    by (intros r d Hr; by apply fresh_lookup_ne).
  assert (Hkeep3 : ∀ r d, h2 !! r = Some d → h3 !! r = Some d)
    by (intros r d Hr; by apply fresh_lookup_ne).
  assert (Hkeep4 : ∀ r d, h3 !! r = Some d → h4 !! r = Some d)
    by (intros r d Hr; by apply fresh_lookup_ne).
  assert (Hkeep5 : ∀ r d, h4 !! r = Some d → <[r5 := m]> h4 !! r = Some d)
    by (intros r d Hr; by apply fresh_lookup_ne).
  assert (Hr1 : h1 !! r1 = Some T) by apply lookup_insert_eq.
  assert (Hr2 : h2 !! r2 = Some W) by apply lookup_insert_eq.
  eexists r5, m, _, r1, r2. split; [exact Hrun|]. cbn [heap files].
  split; [done|]. split; [apply lookup_insert_eq|]. split.
  { destruct (heap w !! r5) as [d|] eqn:E; [|done].
    assert (Hin : r5 ∈ dom h4) by (apply elem_of_dom; eauto 10).
    by destruct (is_fresh (dom h4)). }
  split.
  { intros E. apply (is_fresh (dom h1)). fold r2. rewrite <- E.
    apply elem_of_dom. eauto. }
  split; [eauto 10|]. split; [eauto 10|]. split; [eauto 10|]. done.
Qed.
End pipeline_runs.

Section pipeline_files.
Import pd DataCleaner StatisticalAnalyzer Plotter SpatialProcessor Main.
Context `{Conversions, Statistics, Geodesy, Rendering}.

Abbreviation csv_only :=
  (writes_only (λ path, path = "data/processed/final_merged_data.csv")).

Lemma acquire_run w :
  acquire w
  = (Return tt,
     {| heap := heap w; files := files w; writable := writable w;
        stdout := stdout w ++ [banner_start; banner_phase1;
                               line_no_api_key; line_no_api_key;
                               line_no_api_key; line_no_api_key] |}).
Proof.
  unfold acquire. cbn [foldr seq].
  unfold mbind, M_bind, bind, print, mret, M_ret, ret.
  cbn [heap files writable stdout bool_decide]. 
  rewrite bool_decide_eq_false_2 by (intros Hne; by apply Hne).
  cbn [heap files writable stdout].
  by rewrite <- !app_assoc.
Qed.

Lemma analyze_csv_only merged_df : csv_only (analyze merged_df).
Proof. unfold analyze. file_trace. Qed.

Lemma plot_correlation_heatmap_csv_only df columns_ :
  csv_only (plot_correlation_heatmap df columns_).
Proof.
  unfold plot_correlation_heatmap, np.
  destruct columns_ as [[|c cs]|]; file_trace.
Qed.

Lemma visualize_csv_only merged_df : csv_only (visualize merged_df).
Proof.
  unfold visualize, plot_delay_distribution, plot_time_series,
    plot_category_vs_delay.
  pose proof plot_correlation_heatmap_csv_only.
  file_trace; auto.
Qed.

Lemma after_merge_csv_only merged_df : csv_only (after_merge merged_df).
Proof.
  unfold after_merge, to_csv.
  apply writes_only_bind; [auto with file_trace|]. intros m.
  destruct (negb (empty m)); [|file_trace].
  apply writes_only_bind; [file_trace|]. intros ?.
  apply writes_only_bind; [by apply writes_only_write_file|]. intros ?.
  apply writes_only_bind; [file_trace|]. intros ?.
  apply writes_only_bind; [apply analyze_csv_only|]. intros ?.
  apply writes_only_bind_raises;
    [apply visualize_csv_only | apply visualize_raises].
Qed.

(** X20.  A run of the pipeline never gets through.  Whatever the two lists
    of records, the libraries and the world, either the merged table is
    empty and the run returns at the hard stop, having printed the
    error line last and written no file, or it is not and the run ends
    with an exception.  In neither case is any file written but the CSV
    of the merged table: no shapefile and no GeoJSON. *)
Theorem run_pipeline_on_stops_or_raises train_records weather_records w :
  ∃ m o w',
    merge_data (train_delays_table (from_records train_records))
               (weather_table (from_records weather_records)) "date" left
      = Return m ∧
    run_pipeline_on train_records weather_records w = (o, w') ∧
    (∀ path, path ≠ "data/processed/final_merged_data.csv" →
             files w' !! path = files w !! path) ∧
    (empty m = true →
     o = Return tt ∧ files w' = files w ∧
     last (stdout w') = Some line_merged_empty) ∧
    (empty m = false → ∃ e, o = Raise e).
Proof.
  destruct (merge_data_returns
              (train_delays_table (from_records train_records))
              (weather_table (from_records weather_records)) "date" left)
    as [m Hm].
  pose proof (clean_and_merge_run train_records weather_records
                (acquire w).2 m) as Hrun.
  cbv zeta in Hrun. specialize (Hrun Hm).
  rewrite acquire_run in Hrun. cbn [snd heap files writable stdout] in Hrun.
  set (r5 := fresh _) in Hrun. set (h4 := <[_ := weather_table _]> _) in Hrun.
  set (w2 := {| heap := <[r5 := m]> h4 |}) in Hrun.
  assert (Hstep : run_pipeline_on train_records weather_records w
                  = after_merge r5 w2).
  { unfold run_pipeline_on.
    erewrite run_bind; [|apply acquire_run].
    erewrite run_bind; [done | exact Hrun]. }
  assert (Hm2 : heap w2 !! r5 = Some m) by apply lookup_insert_eq.
  destruct (after_merge r5 w2) as [o w'] eqn:Eafter.
  exists m, o, w'. split; [done|]. split; [done|].
  split; [|split].
  - intros path Hp.
    by rewrite (after_merge_csv_only r5 w2 o w' Eafter path Hp).
  - intros He. rewrite (after_merge_empty_stops r5 w2 m Hm2 He) in Eafter.
    injection Eafter as <- <-. cbn [files stdout].
    split; [done|]. split; [done|]. apply last_snoc.
  - intros He.
    destruct (after_merge_nonempty_raises r5 w2 m Hm2 He) as (e & w3 & E3).
    rewrite E3 in Eafter. injection Eafter as <- <-. eauto.
Qed.

Lemma merge_data_missing_key L R on h :
  has_column on L = false ∨ has_column on R = false →
  merge_data L R on h = Return empty_frame.
Proof.
  intros Hk. unfold merge_data, merge.
  destruct Hk as [-> | ->]; [done|]. by rewrite andb_false_r.
Qed.

(** X21.  Without a [date] among the keys of the delay records, or among
    those of the weather records, there is nothing to join on: the run
    of the pipeline prints the banners of its first two phases and the
    error line, and returns, with no file written and every table that
    was in the store unchanged.  An empty list of delay records is such
    an input. *)
Theorem run_pipeline_on_without_date_stops train_records weather_records w :
  has_column "date" (from_records train_records) = false ∨
  has_column "date" (from_records weather_records) = false →
  ∃ w',
    run_pipeline_on train_records weather_records w = (Return tt, w') ∧
    files w' = files w ∧
    (∀ r d, heap w !! r = Some d → heap w' !! r = Some d) ∧
    stdout w' = (stdout w ++ [banner_start; banner_phase1;
                              line_no_api_key; line_no_api_key;
                              line_no_api_key; line_no_api_key;
                              banner_phase2; line_merged_empty])%list.
Proof.
  intros Hdate.
  assert (Hm : merge_data (train_delays_table (from_records train_records))
                 (weather_table (from_records weather_records)) "date" left
               = Return empty_frame).
  { apply merge_data_missing_key.
    by rewrite has_column_train_delays_table, has_column_weather_table. }
  pose proof (clean_and_merge_run train_records weather_records
                (acquire w).2 empty_frame) as Hrun.
  cbv zeta in Hrun. specialize (Hrun Hm).
  rewrite acquire_run in Hrun. cbn [snd heap files writable stdout] in Hrun.
  set (T := from_records train_records) in *.
  set (W := from_records weather_records) in *.
  set (r1 := fresh (dom (heap w))) in *.
  set (h1 := <[r1 := T]> (heap w)) in *.
  set (r2 := fresh (dom h1)) in *.
  set (h2 := <[r2 := W]> h1) in *.
  set (r3 := fresh (dom h2)) in *.
  set (h3 := <[r3 := train_delays_table T]> h2) in *.
  set (r4 := fresh (dom h3)) in *.
  set (h4 := <[r4 := weather_table W]> h3) in *.
  set (r5 := fresh (dom h4)) in *.
  set (w2 := {| heap := <[r5 := empty_frame]> h4 |}) in Hrun.
  eexists. split.
  { unfold run_pipeline_on.
    erewrite run_bind; [|apply acquire_run].
    erewrite run_bind; [|exact Hrun].
    apply (after_merge_empty_stops r5 w2 empty_frame);
      [apply lookup_insert_eq | done]. }
  cbn [files heap stdout]. split; [done|]. split.
  - intros r d Hr. do 5 apply fresh_lookup_ne. exact Hr.
  - subst w2. cbn [stdout]. by rewrite <- !app_assoc.
Qed.
End pipeline_files.

Section phase3.
Import pd DataCleaner StatisticalAnalyzer Main.
Context `{Statistics}.

Lemma run_print_then {B} s (k : unit → M B) w :
  (print s ≫= k) w
  = k tt {| heap := heap w; files := files w; writable := writable w;
            stdout := stdout w ++ [s] |}.
Proof. done. Qed.

Lemma run_lift_then {A B} (o : outcome A) (k : A → M B) w a :
  o = Return a → (lift o ≫= k) w = k a w.
Proof. by intros ->. Qed.

(** X19.  Phase 3 never raises, and it changes the merged table in place:
    when the table has a [weather_condition] column it gets a numeric
    column [is_snowy], 1 in the rows whose condition is the text snowy
    and 0 in all others, a null condition included; every other cell,
    every other table and every file is left as it was.  Without that
    column the table is left as it was too. *)
Theorem analyze_marks_snowy_rows w merged_df m :
  heap w !! merged_df = Some m →
  ∃ w' m',
    analyze merged_df w = (Return tt, w') ∧
    heap w' = <[merged_df := m']> (heap w) ∧
    files w' = files w ∧
    (has_column "weather_condition" m = false → m' = m) ∧
    (has_column "weather_condition" m = true →
     has_column "is_snowy" m' = true ∧
     is_numeric_dtype "is_snowy" m' = true ∧
     Forall2 (λ r0 r : row,
                r !! "is_snowy"
                = Some (Num (Qc_of_Z
                     (if bool_decide (r0 !! "weather_condition"
                                      = Some (Str "snowy"))
                      then 1 else 0))) ∧
                ∀ c, c ≠ "is_snowy" → r !! c = r0 !! c)
             (rows m) (rows m')).
Proof.
  intros Hm.
  destruct (analysis_never_raises m) as (Hd & _ & _).
  destruct (Hd "delay_minutes") as [ds Hds].
  unfold analyze. rewrite !run_print_then.
  erewrite run_bind; [|by apply run_deref_lookup].
  erewrite run_lift_then; [|exact Hds].
  destruct (has_column "weather_condition" m) eqn:Hwc; cbn [when].
  - set (m' := setitem "is_snowy" Numeric
                 (λ r : row,
                    if bool_decide (r !! "weather_condition" = Some (Str "snowy"))
                    then Samples.int 1 else Samples.int 0) m).
    destruct (analysis_never_raises m') as (_ & Ht & Hc).
    destruct (Ht "is_snowy" "delay_minutes" (Samples.int 1) (Samples.int 0))
      as [tr Htr].
    destruct (Hc "delay_minutes" "temperature" "pearson") as [cr Hcr].
    cbn [heap files writable stdout].
    set (w1 := {| heap := heap w; files := files w; writable := writable w;
                  stdout := (stdout w ++ [banner_phase3])
                            ++ ["Descriptive statistics for 'delay_minutes':"] |}).
    assert (Hw1 : w1 = set_heap w1 (<[merged_df := m]> (heap w))).
    { unfold set_heap, w1. cbn [heap files writable stdout].
      by rewrite insert_id. }
    rewrite Hw1.
    exists (set_heap w1 (<[merged_df := m']> (heap w))), m'.
    split.
    { erewrite run_bind; cycle 1.
      { rewrite run_mutate_then, run_deref_then. fold m'.
        erewrite run_lift_then; [|exact Htr]. reflexivity. }
      rewrite run_deref_then.
      destruct (has_column "temperature" m'); cbn [when]; [|done].
      by erewrite run_lift_then; [|exact Hcr]. }
    cbn [set_heap heap files]. split; [done|]. split; [done|].
    split; [done|]. intros _.
    split. { apply has_column_true. unfold m', labels, setitem. cbn [columns].
             clear. induction (columns m) as [|[a b] cols IH]; cbn [set_dtype].
             - apply elem_of_cons. by left.
             - case_decide; rewrite fmap_cons; cbn [fst];
                 [apply elem_of_cons; by left | apply elem_of_cons; by right]. }
    split. { apply bool_decide_eq_true. unfold dtype_of, m', setitem.
             cbn [columns]. rewrite assoc_dtype_set_dtype. by case_decide. }
    unfold m', setitem. cbn [rows].
    apply Forall2_fmap_r, Forall_Forall2_diag, Forall_forall. intros r0 _.
    split.
    + rewrite lookup_set_cell_eq. by case_bool_decide.
    + intros c Hc'. by apply lookup_set_cell_ne.
  - exists {| heap := heap w; files := files w; writable := writable w;
              stdout := (stdout w ++ [banner_phase3])
                        ++ ["Descriptive statistics for 'delay_minutes':"] |}, m.
    destruct (analysis_never_raises m) as (_ & _ & Hc).
    destruct (Hc "delay_minutes" "temperature" "pearson") as [cr Hcr].
    split.
    { cbn [heap files writable stdout].
      erewrite run_bind; [|reflexivity].
      erewrite run_bind; [|by apply run_deref_lookup].
      destruct (has_column "temperature" m); cbn [when]; [|done].
      by erewrite run_lift_then; [|exact Hcr]. }
    cbn [heap files]. split; [by rewrite insert_id|]. done.
Qed.
End phase3.

Section points.
Import pd gpd SpatialProcessor.
Context `{Geodesy}.


Lemma has_column_set_dtype c dt cols : c ∈ (set_dtype c dt cols).*1.
Proof.
  induction cols as [|[a b] cols IH]; cbn [set_dtype].
  - apply elem_of_cons. by left.
  - case_decide; rewrite fmap_cons; cbn [fst];
      [apply elem_of_cons; by left | apply elem_of_cons; by right].
Qed.

End points.

Section phase5.
Import pd gpd DataCleaner StatisticalAnalyzer SpatialProcessor Main.
Context `{Geodesy}.







(** X23.  The grouping of Phase 5 is not guarded: on a merged table without
    a [route] column [export_geo] ends with the KeyError of that column,
    after the banner of the phase and before any file is written. *)
Theorem export_geo_needs_route w merged_df m :
  heap w !! merged_df = Some m →
  has_column "route" m = false →
  ∃ w',
    export_geo merged_df w = (Raise (KeyError "route"), w') ∧
    files w' = files w ∧
    stdout w' = (stdout w ++ [banner_phase5])%list.
Proof.
  intros Hm Hroute. eexists. split.
  { unfold export_geo. rewrite run_print_then.
    erewrite run_bind; [|apply run_alloc].
    cbn [set_heap heap files writable stdout].
    erewrite run_bind; cycle 1.
    { apply (run_deref_lookup _ merged_df m). cbn [heap].
      by apply fresh_lookup_ne. }
    unfold groupby_mean. rewrite Hroute. reflexivity. }
  done.
Qed.
End phase5.

(** ** Ingestion *)

Section dicts.
Import Ingestion.

Lemma dict_set_new k v (d : dict) :
  k ∉ d.*1 → dict_set k v d = (d ++ [(k, v)])%list.
Proof.
  induction d as [|[k' v'] d IH]; [done|].
  rewrite fmap_cons, not_elem_of_cons. cbn [fst]. intros [Hne Hd].
  cbn [dict_set]. rewrite decide_False by done. by rewrite IH.
Qed.

Lemma dict_set_keys k v (d : dict) :
  k ∈ d.*1 → (dict_set k v d).*1 = d.*1.
Proof.
  induction d as [|[k' v'] d IH]; [by intros ?%elem_of_nil|].
  rewrite fmap_cons, elem_of_cons. cbn [fst dict_set]. intros Hk.
  case_decide as Hd; [done|]. rewrite fmap_cons. cbn [fst]. f_equal.
  apply IH. by destruct Hk as [->|].
Qed.

Lemma dict_set_NoDup k v (d : dict) :
  NoDup d.*1 → NoDup (dict_set k v d).*1 ∧
  ∀ k', k' ∈ (dict_set k v d).*1 ↔ k' ∈ d.*1 ∨ k' = k.
Proof.
  intros Hnd. destruct (decide (k ∈ d.*1)) as [Hk|Hk].
  - rewrite dict_set_keys by done. split; [done|]. intros k'.
    split; [by left | by intros [? | ->]].
  - rewrite dict_set_new by done. rewrite fmap_app. cbn [fmap list_fmap fst].
    split.
    + apply NoDup_app. split; [done|]. split; [|apply NoDup_singleton].
      by intros k' Hk' ->%list_elem_of_singleton.
    + intros k'. by rewrite elem_of_app, list_elem_of_singleton.
Qed.

Lemma foldl_dict_set_keys (l : list (string * string)) (acc : dict) :
  NoDup acc.*1 →
  NoDup (foldl (λ d p, dict_set p.1 p.2 d) acc l).*1 ∧
  ∀ k, k ∈ (foldl (λ d p, dict_set p.1 p.2 d) acc l).*1
       ↔ k ∈ acc.*1 ∨ k ∈ l.*1.
Proof.
  revert acc. induction l as [|[k0 v0] l IH]; intros acc Hnd; cbn [foldl].
  - split; [done|]. intros k. rewrite fmap_nil, elem_of_nil. tauto.
  - destruct (dict_set_NoDup k0 v0 acc Hnd) as [Hnd' Hk'].
    destruct (IH _ Hnd') as [Hnd'' Hk'']. cbn [fst snd]. split; [done|].
    intros k. rewrite Hk'', Hk', fmap_cons, elem_of_cons. cbn [fst]. tauto.
Qed.

Lemma foldl_dict_set_distinct (l : list (string * string)) (acc : dict) :
  NoDup (acc.*1 ++ l.*1) →
  foldl (λ d p, dict_set p.1 p.2 d) acc l = (acc ++ l)%list.
Proof.
  revert acc. induction l as [|[k0 v0] l IH]; intros acc Hnd; cbn [foldl].
  - by rewrite app_nil_r.
  - cbn [fst snd]. rewrite fmap_cons in Hnd. cbn [fst] in Hnd.
    rewrite dict_set_new.
    + rewrite IH; [by rewrite <- app_assoc|].
      rewrite fmap_app. cbn [fmap list_fmap fst]. by rewrite <- app_assoc.
    + apply NoDup_app in Hnd as (_ & Hdis & _). intros Hin.
      apply (Hdis k0 Hin). apply elem_of_cons. by left.
Qed.

(** the keys of [dict(zip(headers, values))] are the headers, each
    once, when there is a value for every header *)
Lemma dict_zip_keys headers values :
  length headers = length values →
  NoDup (dict_zip headers values).*1 ∧
  ∀ k, k ∈ (dict_zip headers values).*1 ↔ k ∈ headers.
Proof.
  intros Hlen. unfold dict_zip.
  destruct (foldl_dict_set_keys (zip headers values) []) as [Hnd Hk];
    [constructor|].
  split; [done|]. intros k. rewrite Hk, fst_zip by lia.
  rewrite fmap_nil, elem_of_nil. tauto.
Qed.

Lemma dict_zip_distinct headers values :
  length headers = length values → NoDup headers →
  dict_zip headers values = zip headers values.
Proof.
  intros Hlen Hnd. unfold dict_zip.
  rewrite foldl_dict_set_distinct; [done|].
  rewrite fmap_nil, app_nil_l, fst_zip by lia. done.
Qed.
End dicts.

Section ingestion_facts.
Import Ingestion.
Context {web : Web}.

(** X24.  Neither ingestion function raises, and a failure gives the empty
    answer.  [scrape_idos_delays] returns the empty list when the
    request fails, when the status check fails, when the page has no
    delays table, and when the table has no [thead] or no [tbody];
    [fetch_weather_data] returns the decoded answer exactly when the
    request, the status check and the decoding all succeed, and None
    in every other case. *)
Theorem ingestion_failures_give_empty_answers :
  (∀ url params, ∃ data, scrape_idos_delays url params = Return data) ∧
  (∀ url params,
     (∀ response,
        requests_get url (fmap (M := list) (λ p, (p.1, pd.Str p.2)) <$> params)
          = Return response →
        raise_for_status response = Return tt →
        ∀ t, soup_find_table response = Some t →
             thead t = None ∨ tbody t = None) →
     scrape_idos_delays url params = Return []) ∧
  (∀ api_key latitude longitude date,
     ∃ r, fetch_weather_data api_key latitude longitude date = Return r) ∧
  (∀ api_key latitude longitude date weather_data,
     fetch_weather_data api_key latitude longitude date
       = Return (Some weather_data) ↔
     ∃ response,
       requests_get "http://api.weather-service.com/history"
         (Some [("key", pd.Str api_key); ("lat", pd.Num latitude);
                ("lon", pd.Num longitude); ("date", pd.Str date);
                ("units", pd.Str "metric")]) = Return response ∧
       raise_for_status response = Return tt ∧
       response_json response = Return weather_data).
Proof.
  split; [|split; [|split]].
  - intros url params. unfold scrape_idos_delays.
    destruct (requests_get _ _) as [resp|]; simpl; [|eauto].
    destruct (raise_for_status resp) as [[]|]; simpl; [|eauto].
    destruct (soup_find_table resp) as [t|]; simpl; [|eauto].
    destruct (thead t); simpl; [|eauto].
    destruct (tbody t); simpl; eauto.
  - intros url params Hfail. unfold scrape_idos_delays.
    destruct (requests_get _ _) as [resp|]; simpl; [|done].
    destruct (raise_for_status resp) as [[]|] eqn:Hst; simpl; [|done].
    destruct (soup_find_table resp) as [t|] eqn:Ht; simpl; [|done].
    destruct (Hfail resp eq_refl Hst t Ht) as [-> | Hb]; simpl; [done|].
    rewrite Hb. by destruct (thead t).
  - intros api_key latitude longitude date. unfold fetch_weather_data.
    cbv zeta.
    destruct (requests_get _ _) as [resp|]; simpl; [|eauto].
    destruct (raise_for_status resp) as [[]|]; simpl; [|eauto].
    destruct (response_json resp); simpl; eauto.
  - intros api_key latitude longitude date weather_data.
    unfold fetch_weather_data. cbv zeta.
    destruct (requests_get _ _) as [resp|]; simpl;
      [|split; [done | by intros (? & ? & _)]].
    destruct (raise_for_status resp) as [[]|] eqn:Hst; simpl;
      [|split; [done | intros (? & [= <-] & ? & _); congruence]].
    destruct (response_json resp) as [j|] eqn:Hj; simpl.
    + split; [intros [= <-]; eauto|].
      intros (? & [= <-] & _ & ?). congruence.
    + split; [done | intros (? & [= <-] & _ & ?); congruence].
Qed.

(** X25.  What [scrape_idos_delays] makes of a delays table that has both
    parts: one record for each row that has as many cells as there are
    headers, in the order of the rows, and none for any other row.  The
    keys of a record are the headers, each once; when no two headers
    are the same, the record pairs each header with the cell below
    it. *)
Theorem scraped_records_follow_headers url params response t headers trs :
  requests_get url (fmap (M := list) (λ p, (p.1, pd.Str p.2)) <$> params)
    = Return response →
  raise_for_status response = Return tt →
  soup_find_table response = Some t →
  thead t = Some headers → tbody t = Some trs →
  ∃ data,
    scrape_idos_delays url params = Return data ∧
    data = dict_zip headers
             <$> filter (λ values, length headers = length values) trs ∧
    (length data ≤ length trs)%nat ∧
    (∀ d, d ∈ data →
       NoDup d.*1 ∧ (∀ k, k ∈ d.*1 ↔ k ∈ headers) ∧
       (NoDup headers →
        ∃ values, values ∈ trs ∧ length headers = length values ∧
                  d = zip headers values)).
Proof.
  intros Hget Hst Ht Hh Hb.
  assert (Hdata : ∀ l : list (list string),
            omap (λ values,
                    if bool_decide (length headers = length values)
                    then Some (dict_zip headers values) else None) l
            = dict_zip headers
                <$> filter (λ values, length headers = length values) l).
  { induction l as [|values l IH]; [done|].
    cbn [omap list_omap]. rewrite filter_cons.
    case_bool_decide; rewrite ?decide_True, ?decide_False by done;
      [rewrite fmap_cons; f_equal|]; exact IH. }
  eexists. split.
  { unfold scrape_idos_delays. rewrite Hget. simpl. rewrite Hst. simpl.
    rewrite Ht, Hh, Hb. simpl. by rewrite Hdata. }
  split; [done|]. split.
  { rewrite length_fmap. apply length_filter. }
  intros d (values & -> & [Hlen Hin]%list_elem_of_filter)%list_elem_of_fmap.
  destruct (dict_zip_keys headers values Hlen) as [Hnd Hk].
  split; [done|]. split; [done|]. intros Hdist.
  exists values. split; [done|]. split; [done|].
  by apply dict_zip_distinct.
Qed.
End ingestion_facts.

(** ** The properties above, on the sample tables *)

Section on_samples.
Import pd gpd DataCleaner CleanedRows StatisticalAnalyzer SpatialProcessor.
Import Main Ingestion.

Abbreviation sample_delays := (from_records Samples.cleaner_train_data).
Abbreviation sample_weather := (from_records Samples.cleaner_weather_data).




Lemma clean_train_delays_hour_of_day_witness :
  ∃ out w',
    clean_train_delays 0%nat (Inputs.store_with sample_delays)
      = (Return 0%nat, w') ∧
    heap w' !! 0%nat = Some out ∧
    ∀ r, r ∈ rows out →
      (r !! "scheduled_time" = None →
       r !! "day_of_week" = None ∧ r !! "hour_of_day" = None) ∧
      (∀ t, r !! "scheduled_time" = Some (Time t) →
            r !! "hour_of_day" = Some (Num (Qc_of_Z (hour t))) ∧
            0 ≤ hour t ≤ 23).
Proof.
  apply (clean_train_delays_hour_of_day
           (Inputs.store_with sample_delays) 0%nat sample_delays).
  - apply store_with_lookup.
  - reflexivity.
Defined.

Lemma clean_weather_data_twice_witness :
  (clean_weather_data 0%nat ≫= clean_weather_data)
    (Inputs.store_with sample_weather)
  = clean_weather_data 0%nat (Inputs.store_with sample_weather).
Proof.
  apply (clean_weather_data_twice
           (Inputs.store_with sample_weather) 0%nat sample_weather).
  apply store_with_lookup.
Defined.

Lemma clean_train_delays_twice_witness :
  (clean_train_delays 0%nat ≫= clean_train_delays)
    (Inputs.store_with sample_delays)
  = clean_train_delays 0%nat (Inputs.store_with sample_delays).
Proof.
  apply (clean_train_delays_twice
           (Inputs.store_with sample_delays) 0%nat sample_delays).
  - apply store_with_lookup.
  - right. split; reflexivity.
Defined.

Lemma merge_data_joined_rows_witness :
  ∃ out,
    merge_data sample_delays sample_weather "date" left = Return out ∧
    labels out = ((left_label sample_delays sample_weather "date"
                     <$> labels sample_delays)
                  ++ (right_label sample_delays sample_weather "date"
                        <$> right_labels sample_weather "date"))%list ∧
    (∀ o, o ∈ rows out →
       ∃ l, l ∈ rows sample_delays ∧
         (∀ c, c ∈ labels sample_delays →
               o !! left_label sample_delays sample_weather "date" c = l !! c) ∧
         ((∃ w, w ∈ rows sample_weather ∧ w !! "date" = l !! "date" ∧
                ∀ c, c ∈ right_labels sample_weather "date" →
                     o !! right_label sample_delays sample_weather "date" c
                     = w !! c) ∨
          (left = left ∧
           (∀ w, w ∈ rows sample_weather → w !! "date" ≠ l !! "date") ∧
           ∀ c, c ∈ right_labels sample_weather "date" →
                o !! right_label sample_delays sample_weather "date" c
                = None))) ∧
    (∀ l w, l ∈ rows sample_delays → w ∈ rows sample_weather →
            w !! "date" = l !! "date" →
       ∃ o, o ∈ rows out ∧
         (∀ c, c ∈ labels sample_delays →
               o !! left_label sample_delays sample_weather "date" c = l !! c) ∧
         (∀ c, c ∈ right_labels sample_weather "date" →
               o !! right_label sample_delays sample_weather "date" c
               = w !! c)) ∧
    (left = left →
     ∀ l, l ∈ rows sample_delays →
       ∃ o, o ∈ rows out ∧
            ∀ c, c ∈ labels sample_delays →
                 o !! left_label sample_delays sample_weather "date" c = l !! c).
Proof.
  apply (merge_data_joined_rows sample_delays sample_weather "date" left).
  - reflexivity.
  - reflexivity.
  - reflexivity.
  - apply (bool_decide_unpack _). vm_compute. exact I.
Defined.

Lemma merge_data_inner_witness :
  ∃ out,
    merge_data sample_delays sample_weather "date" inner = Return out ∧
    (∀ o, o ∈ rows out →
          ∃ w, w ∈ rows sample_weather ∧ w !! "date" = o !! "date") ∧
    len out = sum_list ((λ l, length (matches sample_weather "date" l))
                          <$> rows sample_delays) ∧
    (NoDup (getitem "date" <$> rows sample_weather) →
     (len out ≤ len sample_delays)%nat).
Proof.
  apply (merge_data_inner sample_delays sample_weather "date").
  - reflexivity.
  - reflexivity.
  - reflexivity.
  - apply (bool_decide_unpack _). vm_compute. exact I.
Defined.

Lemma aggregate_by_time_buckets_witness :
  ∃ out,
    aggregate_by_time Samples.df_merged "scheduled_time" "delay_minutes" D
      (AggStr agg_mean) = Return out ∧
    index_name out = Some "scheduled_time" ∧
    labels out = ["delay_minutes"] ∧
    (∀ r, r ∈ rows out →
       ∃ b, r !! "scheduled_time" = Some (Time b) ∧ b `mod` freq_ns D = 0 ∧
            r !! "delay_minutes"
            = aggregate agg_mean
                (omap (getitem "delay_minutes")
                   (filter (λ r0, in_bucket "scheduled_time" (freq_ns D) b r0)
                           (rows Samples.df_merged))) ∧
            ∃ t1 t2, t1 ∈ stamps "scheduled_time" Samples.df_merged ∧
                     t2 ∈ stamps "scheduled_time" Samples.df_merged ∧
                     t1 < b + freq_ns D ∧ b ≤ t2) ∧
    (∀ i r r', rows out !! i = Some r → rows out !! S i = Some r' →
       ∃ b, r !! "scheduled_time" = Some (Time b) ∧
            r' !! "scheduled_time" = Some (Time (b + freq_ns D))) ∧
    (∀ t, t ∈ stamps "scheduled_time" Samples.df_merged →
       ∃ r b, r ∈ rows out ∧ r !! "scheduled_time" = Some (Time b) ∧
              b ≤ t < b + freq_ns D).
Proof.
  apply (aggregate_by_time_buckets Samples.df_merged
           "scheduled_time" "delay_minutes" D agg_mean).
  - reflexivity.
  - reflexivity.
  - reflexivity.
  - reflexivity.
Defined.


Lemma run_pipeline_on_without_date_stops_witness :
  ∃ w',
    run_pipeline_on [] dummy_weather_data Samples.fresh_world
      = (Return tt, w') ∧
    files w' = files Samples.fresh_world ∧
    (∀ r d, heap Samples.fresh_world !! r = Some d → heap w' !! r = Some d) ∧
    stdout w' = (stdout Samples.fresh_world
                 ++ [banner_start; banner_phase1;
                     line_no_api_key; line_no_api_key;
                     line_no_api_key; line_no_api_key;
                     banner_phase2; line_merged_empty])%list.
Proof.
  apply (run_pipeline_on_without_date_stops [] dummy_weather_data
           Samples.fresh_world).
  left. reflexivity.
Defined.

Lemma scraped_records_follow_headers_witness :
  ∃ data,
    scrape_idos_delays "https://www.idos.cz/vlaky/spojeni/" None = Return data ∧
    data = dict_zip ["train_id"; "delay_minutes"]
             <$> filter (λ values,
                           length ["train_id"; "delay_minutes"] = length values)
                        [["R123"; "5"]; ["EC456"]; ["R125"; "12"]] ∧
    (length data ≤ length [["R123"; "5"]; ["EC456"]; ["R125"; "12"]])%nat ∧
    (∀ d, d ∈ data →
       NoDup d.*1 ∧ (∀ k, k ∈ d.*1 ↔ k ∈ ["train_id"; "delay_minutes"]) ∧
       (NoDup ["train_id"; "delay_minutes"] →
        ∃ values, values ∈ [["R123"; "5"]; ["EC456"]; ["R125"; "12"]] ∧
                  length ["train_id"; "delay_minutes"] = length values ∧
                  d = zip ["train_id"; "delay_minutes"] values)).
Proof.
  apply (scraped_records_follow_headers (web := Pages.served)
           "https://www.idos.cz/vlaky/spojeni/" None
           Pages.delays_page Pages.delays_page).
  - reflexivity.
  - reflexivity.
  - reflexivity.
  - reflexivity.
  - reflexivity.
Defined.

Lemma analyze_marks_snowy_rows_witness :
  ∃ w' m',
    analyze 0%nat (Inputs.store_with Samples.df_merged) = (Return tt, w') ∧
    heap w' = <[0%nat := m']> (heap (Inputs.store_with Samples.df_merged)) ∧
    files w' = files (Inputs.store_with Samples.df_merged) ∧
    (has_column "weather_condition" Samples.df_merged = false →
     m' = Samples.df_merged) ∧
    (has_column "weather_condition" Samples.df_merged = true →
     has_column "is_snowy" m' = true ∧
     is_numeric_dtype "is_snowy" m' = true ∧
     Forall2 (λ r0 r : row,
                r !! "is_snowy"
                = Some (Num (Qc_of_Z
                     (if bool_decide (r0 !! "weather_condition"
                                      = Some (Str "snowy"))
                      then 1 else 0))) ∧
                ∀ c, c ≠ "is_snowy" → r !! c = r0 !! c)
             (rows Samples.df_merged) (rows m')).
Proof.
  apply (analyze_marks_snowy_rows
           (Inputs.store_with Samples.df_merged) 0%nat Samples.df_merged).
  apply store_with_lookup.
Defined.


Lemma export_geo_needs_route_witness :
  ∃ w',
    export_geo 0%nat (Inputs.store_with (from_records Inputs.one_delay))
      = (Raise (KeyError "route"), w') ∧
    files w' = files (Inputs.store_with (from_records Inputs.one_delay)) ∧
    stdout w' = (stdout (Inputs.store_with (from_records Inputs.one_delay))
                 ++ [banner_phase5])%list.
Proof.
  apply (export_geo_needs_route
           (Inputs.store_with (from_records Inputs.one_delay)) 0%nat
           (from_records Inputs.one_delay)).
  - apply store_with_lookup.
  - reflexivity.
Defined.
End on_samples.
